(** * Attendance ledger and reconciliation sweeps

    A shallow embedding of the attendance logic of the backend:

    - [services/autoAttendanceService.js]: [autoMarkLeaveAttendance],
      [checkAllPastAttendance], [checkPreviousDayAttendance];
    - [services/schedulerService.js]: [scheduleAutoMarkAttendance];
    - [services/whatsapp.service.js]: [formatPhoneNumber],
      [sendTextMessage], [sendBulkMessages], [addConnectionEvent] and the
      handlers of the client;
    - [controllers/students.controller.js]: [markAttendance] (QR scan),
      [getDashboardStats];
    - [controllers/attendance.controller.js]: [markStudentAttendance],
      [runAutoCheckout], [getScannedStudentsToday], [getAttendanceByDate];
    - [controllers/messaging.controller.js]: [sendAttendanceNotification].

    A JavaScript [Date] is its [getTime()] value: milliseconds since the
    epoch, an integer.  The server's zone is a fixed offset [tz] (in
    milliseconds, local wall clock = UTC + [tz]); daylight saving changes
    are not modelled.  A JavaScript number is an IEEE 754 double: the
    numbers [attendancePercentage] holds are values of the Standard
    Library's [spec_float], with its division and multiplication at the
    precision of a double. *)

From stdpp Require Import base numbers option list strings gmap.
From Stdlib Require Import ZArith Lia Ascii Sorted SpecFloat.

Local Open Scope Z_scope.

(** ** JavaScript numbers *)

Module Double.

(** The format of a double: 53 bits of precision, exponents below 1024. *)
Definition prec : Z := 53.
Definition emax : Z := 1024.

(** The double of a count; a count below 2^53 is a double itself. *)
Definition ofNat (n : nat) : spec_float := binary_normalize prec emax (Z.of_nat n) 0 false.

(** [a / b] and [a * b], rounded to the nearest double, ties to even. *)
Definition div (a b : spec_float) : spec_float := SFdiv prec emax a b.
Definition mul (a b : spec_float) : spec_float := SFmul prec emax a b.

Definition zero : spec_float := S754_zero false.

End Double.

(** ** The clock: [Date] arithmetic *)

Module Clock.

Definition msPerDay : Z := 24 * 60 * 60 * 1000.

Definition timeOfDay (h m s ms : Z) : Z := ((h * 60 + m) * 60 + s) * 1000 + ms.

(** [d.toISOString().split('T')[0]]: the text names the UTC calendar day of
    [d]; the model keeps the number of that day since the epoch, which the
    text determines and is determined by. *)
Definition isoDate (d : Z) : Z := d / msPerDay.

(** [d.setUTCHours(h, m, s, ms)] *)
Definition setUTCHours (d h m s ms : Z) : Z :=
  isoDate d * msPerDay + timeOfDay h m s ms.

Section Zone.
Variable tz : Z.

(** The local calendar day of [d], as a day number. *)
Definition localDay (d : Z) : Z := (d + tz) / msPerDay.

(** [d.setHours(h, m, s, ms)] *)
Definition setHours (d h m s ms : Z) : Z :=
  localDay d * msPerDay - tz + timeOfDay h m s ms.

(** [d.toDateString()]: names the local calendar day of [d]. *)
Definition toDateString (d : Z) : Z := localDay d.

(** [d.setDate(d.getDate() + n)] *)
Definition addDays (d n : Z) : Z := d + n * msPerDay.

(** luxon: [DateTime.fromJSDate(d).startOf('day')], [.endOf('day')] and
    [a.hasSame(b, 'day')] in the system zone. *)
Definition startOfDay (d : Z) : Z := setHours d 0 0 0 0.
Definition endOfDay (d : Z) : Z := setHours d 23 59 59 999.
Definition hasSameDay (a b : Z) : bool := bool_decide (localDay a = localDay b).
End Zone.

End Clock.

Import Clock.

(** ** The ledger *)

(** Modelled from the spec: the schema of the model file
    (models/student.model.js) is not among the sources.  The [status] of an
    attendance record is one of ['entered'], ['left'], ['present'],
    ['absent'], ['late'] (section 3 of the spec); the controllers and the
    reports of the sources test for these five. *)
Inductive Status := Entered | Left | Present | Absent | Late.

#[global] Instance Status_eq_dec : EqDecision Status.
Proof. solve_decision. Defined.

Definition status_name (st : Status) : string :=
  match st with
  | Entered => "entered"
  | Left => "left"
  | Present => "present"
  | Absent => "absent"
  | Late => "late"
  end.

(** Modelled from the spec: an attendance record, with the fields of section
    3 of the spec, which are the ones the sources read and write. *)
Record AttendanceRecord := mkRecord {
  date : Z;
  status : Status;
  entryTime : option Z;
  leaveTime : option Z;
  scanLocation : string;
  deviceInfo : string
}.

Record SentMessage := mkSent { sentAt : Z; recipient : string }.

(** Modelled from the spec: a student document, with the fields of section
    3 of the spec that the sources read and write.  [active] is
    [status === 'active'] of the student itself (not of a record). *)
Record Student := mkStudent {
  name : string;
  indexNumber : string;
  parent_telephone : option string;
  active : bool;
  attendanceHistory : list AttendanceRecord;
  attendanceCount : nat;
  attendancePercentage : spec_float;
  lastAttendance : option Z;
  messages : list SentMessage
}.

Definition set_leave (l : Z) (r : AttendanceRecord) : AttendanceRecord :=
  mkRecord (date r) Left (entryTime r) (Some l) (scanLocation r) (deviceInfo r).

(** JavaScript truthiness of a string field that may be missing. *)
Definition truthy (s : option string) : option string :=
  match s with
  | Some x => if bool_decide (x = EmptyString) then None else Some x
  | None => None
  end.

(** [a || b] on such a field with a default. *)
Definition orElse (s : option string) (d : string) : string := default d (truthy s).

(** [['entered', 'present'].includes(record.status)] *)
Definition enteredOrPresent (r : AttendanceRecord) : bool :=
  match status r with Entered | Present => true | _ => false end.

(** [record.status === 'present' || record.status === 'entered'] *)
Definition countsAsPresent (r : AttendanceRecord) : bool :=
  match status r with Present | Entered => true | _ => false end.

(** Truthiness of a [Date] field that may be [null]. *)
Definition isSet (d : option Z) : bool :=
  match d with Some _ => true | None => false end.

(** [!record.leaveTime] *)
Definition noLeaveTime (r : AttendanceRecord) : bool := negb (isSet (leaveTime r)).

(** [totalRecords > 0 ? (presentRecords / totalRecords) * 100 : 0] *)
Definition percentageOf (h : list AttendanceRecord) : spec_float :=
  let totalRecords := length h in
  let presentRecords := length (List.filter countsAsPresent h) in
  if (0 <? totalRecords)%nat
  then Double.mul (Double.div (Double.ofNat presentRecords) (Double.ofNat totalRecords))
         (Double.ofNat 100)
  else Double.zero.

(** The latest of the timestamps that are set. *)
Definition latest (ts : list (option Z)) : option Z :=
  foldr (fun t acc =>
           match t, acc with
           | Some a, Some b => Some (Z.max a b)
           | Some a, None => Some a
           | None, _ => acc
           end) None ts.

(** [arr.findIndex(p)]: [None] stands for [-1]. *)
Definition findIndex {A} (p : A -> bool) (l : list A) : option nat :=
  fst <$> list_find (fun x => p x) l.

(** ** The store and the outside world *)

(** The texts sent to a guardian, by template, with the values put in. *)
Inductive Message :=
| AutomatedAttendanceUpdate (student_name index : string)
| PastAttendanceRecordsUpdate (student_name index : string) (count : nat) (dates : list Z)
| PreviousDayAttendanceUpdate (student_name index : string) (day : Z).

(** What the service writes to its log about one student (document [k]). *)
Inductive LogEntry :=
| NotificationSent (k : N)
| NotificationFailed (k : N)
| NoTelephone (k : N)
| Marked (k : N)
| NoEligibleRecord (k : N)
| ProcessingError (k : N).

(** The collection of student documents by [_id], the texts handed to the
    messaging service, and the log. *)
Record World := mkWorld {
  db : gmap N Student;
  outbox : list (string * Message);
  logs : list LogEntry
}.

Definition log (w : World) (l : list LogEntry) : World :=
  mkWorld (db w) (outbox w) (logs w ++ l).

(** [Student.find(query)]: the documents the query selects, each with its
    [_id]; [student.save()] writes a document back under that [_id]. *)
Definition Student_find (query : Student -> bool) (d : gmap N Student) : list (N * Student) :=
  map_to_list (filter (fun ks => query ks.2 = true) d).

(** The history and the two fields a sweep assigns. *)
Definition swept (student : Student) (history : list AttendanceRecord)
    (last : option Z) : Student :=
  mkStudent (name student) (indexNumber student) (parent_telephone student)
    (active student) history (attendanceCount student) (percentageOf history)
    last (messages student).

(** [[...records].sort((a, b) => b.date - a.date)]: a stable sort, latest
    date first. *)
Fixpoint insertByDateDesc (a : AttendanceRecord) (l : list AttendanceRecord) :=
  match l with
  | [] => [a]
  | b :: l' => if date b <=? date a then a :: b :: l' else b :: insertByDateDesc a l'
  end.

Definition sortByDateDesc (l : list AttendanceRecord) : list AttendanceRecord :=
  foldr insertByDateDesc [] l.

(** ** services/autoAttendanceService.js *)

Module AutoAttendance.
Section Service.
(** The zone offset; whether [student.save()] of a document resolves; the
    [success] flag of [sendTextMessage(phone, text)], which never throws. *)
Variable tz : Z.
Variable saveOk : N -> bool.
Variable sendTextMessage : string -> Message -> bool.

(** The tail the three sweeps share: [await student.save()], then the
    message to the guardian, inside the per-student [try]. *)
Definition persistAndNotify (k : N) (student : Student) (text : Message)
    (w : World) : World :=
  if saveOk k then
    let saved := <[k := student]> (db w) in
    match truthy (parent_telephone student) with
    | Some phone =>
        let result := sendTextMessage phone text in
        mkWorld saved (outbox w ++ [(phone, text)])
          (logs w ++ [if result then NotificationSent k else NotificationFailed k;
                      Marked k])
    | None => mkWorld saved (outbox w) (logs w ++ [NoTelephone k; Marked k])
    end
  else log w [ProcessingError k].

(** *** autoMarkLeaveAttendance *)

(** The query: each condition on a path into the array may be met by a
    different element. *)
Definition todayQuery (today : Z) (student : Student) : bool :=
  let h := attendanceHistory student in
  existsb (fun r => today <=? date r) h
  && existsb (fun r => date r <? today + 24 * 60 * 60 * 1000) h
  && existsb enteredOrPresent h
  && existsb noLeaveTime h.

Definition eligibleToday (today : Z) (record : AttendanceRecord) : bool :=
  bool_decide (toDateString tz (date record) = toDateString tz today)
  && enteredOrPresent record && noLeaveTime record.

Definition markLeaveToday (today leaveTime : Z) (student : Student) : option Student :=
  match findIndex (eligibleToday today) (attendanceHistory student) with
  | None => None
  | Some todayAttendanceIndex =>
      Some (swept student
              (alter (set_leave leaveTime) todayAttendanceIndex (attendanceHistory student))
              (Some leaveTime))
  end.

Definition autoMarkStudent (today leaveTime : Z) (w : World) (ks : N * Student) : World :=
  match markLeaveToday today leaveTime ks.2 with
  | None => log w [NoEligibleRecord ks.1]
  | Some student =>
      persistAndNotify ks.1 student
        (AutomatedAttendanceUpdate (name student) (indexNumber student)) w
  end.

(** The sweep reads the clock twice: [now] for [today], before the query,
    and [now'] for [leaveTime], after it. *)
Definition autoMarkLeaveAttendance (now now' : Z) (w : World) : World :=
  let today := setHours tz now 0 0 0 0 in
  let students := Student_find (todayQuery today) (db w) in
  let leaveTime := setHours tz now' 18 30 0 0 in
  foldl (autoMarkStudent today leaveTime) w students.

(** *** checkAllPastAttendance *)

Definition incomplete (today : Z) (record : AttendanceRecord) : bool :=
  (date record <? today) && enteredOrPresent record && noLeaveTime record.

(** [$elemMatch]: one element meets all three conditions. *)
Definition pastQuery (today : Z) (student : Student) : bool :=
  existsb (incomplete today) (attendanceHistory student).

(** The body of [for (const record of incompleteRecords)]. *)
Definition closeOwnDay (record : AttendanceRecord) : AttendanceRecord :=
  set_leave (setHours tz (date record) 18 30 0 0) record.

(** [incompleteRecords] holds the very records of the history, so the loop
    over it rewrites them in the history; the second component is
    [incompleteRecords] after the loop. *)
Definition closePast (today : Z) (student : Student)
    : option (Student * list AttendanceRecord) :=
  let history := attendanceHistory student in
  let incompleteRecords := List.filter (incomplete today) history in
  let history' := (fun r => if incomplete today r then closeOwnDay r else r) <$> history in
  let closed := closeOwnDay <$> incompleteRecords in
  if (0 <? length closed)%nat then
    let lastRecord := head (sortByDateDesc closed) in
    Some (swept student history' (lastRecord ≫= leaveTime), closed)
  else None.

Definition checkPastStudent (today : Z) (w : World) (ks : N * Student) : World :=
  match closePast today ks.2 with
  | None => w
  | Some (student, incompleteRecords) =>
      persistAndNotify ks.1 student
        (PastAttendanceRecordsUpdate (name student) (indexNumber student)
           (length incompleteRecords) (toDateString tz ∘ date <$> incompleteRecords)) w
  end.

Definition checkAllPastAttendance (now : Z) (w : World) : World :=
  let today := setHours tz now 0 0 0 0 in
  let students := Student_find (pastQuery today) (db w) in
  foldl (checkPastStudent today) w students.

(** *** checkPreviousDayAttendance *)

Definition yesterdayQuery (yesterday yesterdayEnd : Z) (student : Student) : bool :=
  let h := attendanceHistory student in
  existsb (fun r => yesterday <=? date r) h
  && existsb (fun r => date r <? yesterdayEnd) h
  && existsb enteredOrPresent h
  && existsb noLeaveTime h.

Definition incompleteYesterday (yesterday yesterdayEnd : Z) (record : AttendanceRecord) : bool :=
  (yesterday <=? date record) && (date record <? yesterdayEnd)
  && enteredOrPresent record && noLeaveTime record.

Definition markLeaveYesterday (yesterday yesterdayEnd leaveTime : Z) (student : Student)
    : option Student :=
  match findIndex (incompleteYesterday yesterday yesterdayEnd) (attendanceHistory student) with
  | None => None
  | Some attendanceIndex =>
      Some (swept student
              (alter (set_leave leaveTime) attendanceIndex (attendanceHistory student))
              (Some leaveTime))
  end.

Definition previousDayStudent (yesterday yesterdayEnd leaveTime : Z) (w : World)
    (ks : N * Student) : World :=
  match markLeaveYesterday yesterday yesterdayEnd leaveTime ks.2 with
  | None => w
  | Some student =>
      persistAndNotify ks.1 student
        (PreviousDayAttendanceUpdate (name student) (indexNumber student)
           (toDateString tz yesterday)) w
  end.

(** [now] is the clock of the backlog sweep the function awaits first,
    [now'] the clock it reads afterwards for [yesterday]. *)
Definition checkPreviousDayAttendance (now now' : Z) (w : World) : World :=
  let w := checkAllPastAttendance now w in
  let yesterday := setHours tz (addDays now' (-1)) 0 0 0 0 in
  let yesterdayEnd := setHours tz yesterday 23 59 59 999 in
  let students := Student_find (yesterdayQuery yesterday yesterdayEnd) (db w) in
  let leaveTime := setHours tz yesterday 18 30 0 0 in
  foldl (previousDayStudent yesterday yesterdayEnd leaveTime) w students.

End Service.
End AutoAttendance.

(** ** models/student.model.js *)

Module StudentModel.
Section Model.
Variable tz : Z.

(** Modelled from the spec: the aggregate rules of its section 4.2 (the
    model file is not among the sources).  [attendanceCount] counts the
    records whose status is present or entered, [attendancePercentage] is
    that count over the number of records times 100 (0 for no records),
    [lastAttendance] is the latest [leaveTime] of the history, or the latest
    [entryTime] when the record just touched has no [leaveTime]. *)
Definition recompute (student : Student) (history : list AttendanceRecord)
    (touched : AttendanceRecord) : Student :=
  mkStudent (name student) (indexNumber student) (parent_telephone student)
    (active student) history
    (length (List.filter countsAsPresent history))
    (percentageOf history)
    (match leaveTime touched with
     | Some _ => latest (leaveTime <$> history)
     | None => latest (entryTime <$> history)
     end)
    (messages student).

(** The record is of the calendar day of [now]: local midnight to midnight. *)
Definition onDay (now : Z) (record : AttendanceRecord) : bool :=
  bool_decide (localDay tz (date record) = localDay tz now).

(** Modelled from the spec: the record a first mark of the day creates, its
    [date] the local midnight of the day; an entry stamps [entryTime], an
    exit [leaveTime], the other statuses no time. *)
Definition newRecord (st : Status) (now : Z) (deviceInfo scanLocation : string)
    : AttendanceRecord :=
  mkRecord (setHours tz now 0 0 0 0) st
    (if decide (st = Entered) then Some now else None)
    (if decide (st = Left) then Some now else None)
    scanLocation deviceInfo.

(** Modelled from the spec: the day's record rewritten in place.  An entry
    on a closed day re-opens it with a fresh [entryTime], and the day being
    open again its [leaveTime] is unset; an entry on a record without times
    stamps [entryTime]; an exit stamps [leaveTime]; a time that is set and
    not re-opened is kept, and so is the provenance. *)
Definition applyStatus (st : Status) (now : Z) (r : AttendanceRecord) : AttendanceRecord :=
  match st with
  | Entered =>
      mkRecord (date r) Entered
        (match leaveTime r, entryTime r with
         | None, Some e => Some e
         | _, _ => Some now
         end)
        None (scanLocation r) (deviceInfo r)
  | Left =>
      mkRecord (date r) Left (entryTime r)
        (match leaveTime r with Some l => Some l | None => Some now end)
        (scanLocation r) (deviceInfo r)
  | _ => mkRecord (date r) st (entryTime r) (leaveTime r) (scanLocation r) (deviceInfo r)
  end.

(** Modelled from the spec: [student.markAttendance(status, adminId,
    deviceInfo, scanLocation)], the method of the absent model file that
    the scan handler, the manual override and the auto checkout call.  It
    locates the record of today, creates it when there is none, rewrites it
    in place otherwise, and recomputes the aggregates.  [now] is the clock
    reading, taken to be the caller's. *)
Definition markAttendance (st : Status) (adminId : option N)
    (deviceInfo scanLocation : string) (now : Z) (student : Student) : Student :=
  let history := attendanceHistory student in
  match list_find (fun r => onDay now r) history with
  | None =>
      let r := newRecord st now deviceInfo scanLocation in
      recompute student (history ++ [r]) r
  | Some (i, r0) =>
      let r := applyStatus st now r0 in
      recompute student (<[i := r]> history) r
  end.

End Model.
End StudentModel.

(** ** controllers/students.controller.js: the QR scan *)

Module StudentsController.
Section Controller.
Variable tz : Z.
Variable saveOk : N -> bool.
(** The [success] flag of [sendAttendanceNotification(id, status, time)]. *)
Variable sendAttendanceNotification : N -> Status -> Z -> bool.

Definition sameIsoDate (todayDate : Z) (entry : AttendanceRecord) : bool :=
  bool_decide (isoDate (date entry) = todayDate).

Definition todayAttendanceIndex (currentScanTime : Z) (student : Student) : option nat :=
  let todayDate := isoDate currentScanTime in
  findIndex (sameIsoDate todayDate) (attendanceHistory student).

Definition statusToSave (currentScanTime : Z) (student : Student) : Status :=
  match todayAttendanceIndex currentScanTime student with
  | None => Entered
  | Some i =>
      match attendanceHistory student !! i with
      | Some todayRecord =>
          if isSet (leaveTime todayRecord) then Entered
          else if isSet (entryTime todayRecord) then Left
          else Entered
      | None => Entered
      end
  end.

Inductive Response :=
| Recorded (attendanceStatus : Status) (attendanceRecord : option AttendanceRecord)
| NotFound
| ServerError.

(** The handler from the point where the QR payload has named a document:
    [id] is the [_id] the lookups resolve to. *)
Definition markAttendance (id : N) (deviceInfo scanLocation userAgentHeader : option string)
    (currentScanTime : Z) (w : World) : Response * World :=
  match db w !! id with
  | None => (NotFound, w)
  | Some student =>
      let st := statusToSave currentScanTime student in
      let userAgent := orElse deviceInfo (orElse userAgentHeader "Unknown Device") in
      let location := orElse scanLocation "Main Entrance" in
      if saveOk id then
        let student1 :=
          StudentModel.markAttendance tz st None userAgent location currentScanTime student in
        let student2 :=
          match truthy (parent_telephone student1) with
          | Some phone =>
              if sendAttendanceNotification id st currentScanTime then
                mkStudent (name student1) (indexNumber student1) (parent_telephone student1)
                  (active student1) (attendanceHistory student1) (attendanceCount student1)
                  (attendancePercentage student1) (lastAttendance student1)
                  (messages student1 ++ [mkSent currentScanTime phone])
              else student1
          | None => student1
          end in
        let latestAttendanceRecord :=
          snd <$> list_find (fun r => sameIsoDate (isoDate currentScanTime) r)
                    (attendanceHistory student2) in
        (Recorded st latestAttendanceRecord,
         mkWorld (<[id := student2]> (db w)) (outbox w) (logs w))
      else (ServerError, w)
  end.

End Controller.
End StudentsController.

(** ** controllers/attendance.controller.js *)

Module AttendanceController.
Section Controller.
Variable tz : Z.
Variable saveOk : N -> bool.

(** *** markStudentAttendance: the manual override *)

Definition validStatus : list string := ["entered"; "left"; "present"; "absent"]%string.

(** The record status a status text names. *)
Definition status_of_name (s : string) : option Status :=
  List.find (fun st => bool_decide (status_name st = s)) [Entered; Left; Present; Absent; Late].

(** [validStatus.includes(status)] *)
Definition includes (l : list string) (v : option string) : bool :=
  match v with
  | Some s => bool_decide (s ∈ l)
  | None => false
  end.

Inductive Response :=
| StudentIdRequired   (* 400 *)
| StudentNotFound     (* 404 *)
| InvalidStatus       (* 400 *)
| Success             (* 200 *)
| Failed.             (* 500 *)

(** [studentId] is [None] when the body has none; [status] is [None] when
    the body's [status] is not a string.  The notification that follows the
    mark does not touch the store and its failure is swallowed: it is left
    out. *)
Definition markStudentAttendance (studentId : option N) (status : option string)
    (adminId : option N) (deviceInfo scanLocation : option string)
    (now : Z) (w : World) : Response * World :=
  match studentId with
  | None => (StudentIdRequired, w)
  | Some id =>
      match db w !! id with
      | None => (StudentNotFound, w)
      | Some student =>
          if includes validStatus status then
            match status ≫= status_of_name with
            | Some st =>
                if saveOk id then
                  let student' :=
                    StudentModel.markAttendance tz st adminId
                      (orElse deviceInfo "Manual entry by admin")
                      (orElse scanLocation "Admin Portal") now student in
                  (Success, mkWorld (<[id := student']> (db w)) (outbox w) (logs w))
                else (Failed, w)
            | None => (Failed, w)
            end
          else (InvalidStatus, w)
      end
  end.

(** *** runAutoCheckout *)

Definition checkoutQuery (today : Z) (student : Student) : bool :=
  let h := attendanceHistory student in
  existsb (fun r => today <=? date r) h
  && existsb (fun r => bool_decide (status r = Entered)) h
  && existsb noLeaveTime h.

Definition openToday (today : Z) (record : AttendanceRecord) : bool :=
  bool_decide (setHours tz (date record) 0 0 0 0 = today)
  && bool_decide (status record = Entered) && noLeaveTime record.

(** The state of the loop: the world and the counters [processed], [failed].
    The notification of each checkout is left out, as above. *)
Definition checkoutStudent (adminId : option N) (today now : Z)
    (acc : World * nat * nat) (ks : N * Student) : World * nat * nat :=
  let '(w, processed, failed) := acc in
  match List.find (openToday today) (attendanceHistory ks.2) with
  | Some todayRecord =>
      if saveOk ks.1 then
        let student' :=
          StudentModel.markAttendance tz Left adminId "Auto checkout system"
            "Auto Checkout" now ks.2 in
        (mkWorld (<[ks.1 := student']> (db w)) (outbox w) (logs w), S processed, failed)
      else (w, processed, S failed)
  | None => acc
  end.

Definition runAutoCheckout (adminId : option N) (now : Z) (w : World) : World * nat * nat :=
  let today := setHours tz now 0 0 0 0 in
  let students := Student_find (checkoutQuery today) (db w) in
  foldl (checkoutStudent adminId today now) (w, 0%nat, 0%nat) students.

(** *** getScannedStudentsToday *)

(** An entry of [studentAttendanceMap]. *)
Record Attendance := mkAttendance {
  att_status : Status;
  att_timestamp : Z;
  att_entryTime : option Z;
  att_leaveTime : option Z
}.

(** A row of a day view: the student, the status shown, the two times. *)
Record Row := mkRow {
  row_id : N;
  row_status : Status;
  row_entryTime : option Z;
  row_leaveTime : option Z
}.

(** The body of [todayAttendance.forEach]. *)
Definition track (a : Attendance) (record : AttendanceRecord) : Attendance :=
  let a1 :=
    if bool_decide (status record = Entered) || isSet (entryTime record) then
      if isSet (att_entryTime a) then a
      else mkAttendance (att_status a) (att_timestamp a)
             (Some (default (date record) (entryTime record))) (att_leaveTime a)
    else a in
  if bool_decide (status record = Left) || isSet (leaveTime record) then
    if isSet (att_leaveTime a1) then a1
    else mkAttendance (att_status a1) (att_timestamp a1) (att_entryTime a1)
           (Some (default (date record) (leaveTime record)))
  else a1.

Definition inUtcDay (today endOfDay : Z) (record : AttendanceRecord) : bool :=
  (today <=? date record) && (date record <=? endOfDay).

(** What the first [forEach] leaves in the map for one student. *)
Definition attendanceOf (today endOfDay : Z) (student : Student) : option Attendance :=
  match sortByDateDesc (List.filter (inUtcDay today endOfDay) (attendanceHistory student)) with
  | [] => None
  | first :: rest =>
      Some (foldl track (mkAttendance (status first) (date first) None None) (first :: rest))
  end.

Definition studentAttendanceMap (today endOfDay : Z) (allStudents : list (N * Student))
    : gmap N Attendance :=
  foldl (fun m ks =>
           match attendanceOf today endOfDay ks.2 with
           | Some a => <[ks.1 := a]> m
           | None => m
           end) ∅ allStudents.

(** [.sort('indexNumber')] *)
Fixpoint insertByIndexNumber (a : N * Student) (l : list (N * Student)) :=
  match l with
  | [] => [a]
  | b :: l' =>
      if String.leb (indexNumber a.2) (indexNumber b.2) then a :: b :: l'
      else b :: insertByIndexNumber a l'
  end.

Definition sortByIndexNumber (l : list (N * Student)) : list (N * Student) :=
  foldr insertByIndexNumber [] l.

Definition todayRow (m : gmap N Attendance) (ks : N * Student) : Row :=
  match m !! ks.1 with
  | None => mkRow ks.1 Absent None None
  | Some attendance =>
      mkRow ks.1 (att_status attendance)
        (Some (default (att_timestamp attendance) (att_entryTime attendance)))
        (att_leaveTime attendance)
  end.

Definition getScannedStudentsToday (now : Z) (w : World) : list Row :=
  let today := setUTCHours now 0 0 0 0 in
  let allStudents := sortByIndexNumber (Student_find active (db w)) in
  let endOfDay := setUTCHours today 23 59 59 999 in
  todayRow (studentAttendanceMap today endOfDay allStudents) <$> allStudents.

(** *** getAttendanceByDate *)

Definition getDateRange (d : Z) : Z * Z := (startOfDay tz d, endOfDay tz d).

Definition dateQuery (startOfDay endOfDay : Z) (student : Student) : bool :=
  existsb (fun r => (startOfDay <=? date r) && (date r <? endOfDay))
    (attendanceHistory student).

Definition dateRow (startOfDay : Z) (ks : N * Student) : Row :=
  let dateAttendance :=
    List.find (fun record => hasSameDay tz (date record) startOfDay)
      (attendanceHistory ks.2) in
  mkRow ks.1
    (default Absent (status <$> dateAttendance))
    (dateAttendance ≫= entryTime)
    (dateAttendance ≫= leaveTime).

(** [d] is [new Date(date)] of the [YYYY-MM-DD] parameter. *)
Definition getAttendanceByDate (d : Z) (w : World) : list Row :=
  let '(startOfDay, endOfDay) := getDateRange d in
  let students := Student_find (dateQuery startOfDay endOfDay) (db w) in
  dateRow startOfDay <$> students.

End Controller.
End AttendanceController.

(** ** The operations on the ledger *)

Inductive Operation :=
| Scan (id : N) (deviceInfo scanLocation userAgent : option string)
| ManualMark (studentId : option N) (status : option string) (adminId : option N)
    (deviceInfo scanLocation : option string)
| CutoffSweep (later : Z)
| BacklogSweep
| PreviousDaySweep (later : Z)
| AutoCheckout (adminId : option N).

(** An operation, the clock when it runs, and how the store and the
    messaging service behave while it runs.  The cutoff sweep and the
    previous-day sweep read the clock a second time: [later]. *)
Record Event := mkEvent {
  operation : Operation;
  clock : Z;
  saves : N -> bool;
  texts : string -> Message -> bool;
  alerts : N -> Status -> Z -> bool
}.

Definition perform (tz : Z) (w : World) (e : Event) : World :=
  match operation e with
  | Scan id deviceInfo scanLocation userAgent =>
      (StudentsController.markAttendance tz (saves e) (alerts e) id deviceInfo
         scanLocation userAgent (clock e) w).2
  | ManualMark studentId status adminId deviceInfo scanLocation =>
      (AttendanceController.markStudentAttendance tz (saves e) studentId status adminId
         deviceInfo scanLocation (clock e) w).2
  | CutoffSweep later =>
      AutoAttendance.autoMarkLeaveAttendance tz (saves e) (texts e) (clock e) later w
  | BacklogSweep => AutoAttendance.checkAllPastAttendance tz (saves e) (texts e) (clock e) w
  | PreviousDaySweep later =>
      AutoAttendance.checkPreviousDayAttendance tz (saves e) (texts e) (clock e) later w
  | AutoCheckout adminId =>
      (AttendanceController.runAutoCheckout tz (saves e) adminId (clock e) w).1.1
  end.

(** The local calendar days of the records of a student, in order. *)
Definition daysOf (tz : Z) (s : Student) : list Z :=
  localDay tz ∘ date <$> attendanceHistory s.

(** At most one record for each calendar day. *)
Definition oneRecordPerDay (tz : Z) (s : Student) : Prop := NoDup (daysOf tz s).

Definition ledgerOneRecordPerDay (tz : Z) (w : World) : Prop :=
  forall k s, db w !! k = Some s -> oneRecordPerDay tz s.

(** ** What the loops save, and what is observed of a run *)

(** What the backlog sweep saves for a document, if anything. *)
Definition pastUpd (tz : Z) (saveOk : N -> bool) (today : Z) (k : N) (s : Student)
    : option Student :=
  match AutoAttendance.closePast tz today s with
  | Some (s', _) => if saveOk k then Some s' else None
  | None => None
  end.

(** What the cutoff sweep saves for a document, if anything. *)
Definition todayUpd (tz : Z) (saveOk : N -> bool) (today leaveTime : Z) (k : N)
    (s : Student) : option Student :=
  match AutoAttendance.markLeaveToday tz today leaveTime s with
  | Some s' => if saveOk k then Some s' else None
  | None => None
  end.

(** What the second pass of the previous-day sweep saves for a document. *)
Definition yesterdayUpd (saveOk : N -> bool) (yesterday yesterdayEnd leaveTime : Z)
    (k : N) (s : Student) : option Student :=
  match AutoAttendance.markLeaveYesterday yesterday yesterdayEnd leaveTime s with
  | Some s' => if saveOk k then Some s' else None
  | None => None
  end.

(** What the auto checkout saves for a document, if anything. *)
Definition checkoutUpd (tz : Z) (saveOk : N -> bool) (adminId : option N)
    (today now : Z) (k : N) (s : Student) : option Student :=
  match List.find (AttendanceController.openToday tz today) (attendanceHistory s) with
  | Some _ =>
      if saveOk k
      then Some (StudentModel.markAttendance tz Left adminId "Auto checkout system"
                   "Auto Checkout" now s)
      else None
  | None => None
  end.

(** What a sweep leaves behind apart from its log: the store and the
    messages it attempted. *)
Definition ledgerAndOutbox (w : World) : gmap N Student * list (string * Message) :=
  (db w, outbox w).

(** The number of records whose status is present or entered. *)
Definition presentOrEntered (h : list AttendanceRecord) : nat :=
  length (filter (fun r => status r = Present \/ status r = Entered) h).

(** The percentage a document holds is the one of its history. *)
Definition percentageCurrent (s : Student) : Prop :=
  attendancePercentage s = percentageOf (attendanceHistory s).

(** What a scan makes of the record of the day: a closed day is re-opened,
    an open day is closed, a record without times is entered. *)
Definition scanned (now : Z) (r : AttendanceRecord) : AttendanceRecord :=
  match leaveTime r, entryTime r with
  | Some _, _ => mkRecord (date r) Entered (Some now) None (scanLocation r) (deviceInfo r)
  | None, Some e => mkRecord (date r) Left (Some e) (Some now) (scanLocation r) (deviceInfo r)
  | None, None => mkRecord (date r) Entered (Some now) None (scanLocation r) (deviceInfo r)
  end.

(** ** A school in Colombo: the data of the worked cases *)

Module Scenario.

(** UTC+05:30, the zone the scan handler prints its times in. *)
Definition colombo : Z := timeOfDay 5 30 0 0.

(** 2024-01-15 00:00 in Colombo. *)
Definition jan15 : Z := 1705257000000.

(** [h:m] local time, [n] days from 15 January. *)
Definition on (n h m : Z) : Z := jan15 + n * msPerDay + timeOfDay h m 0 0.

Definition resolves (k : N) : bool := true.
Definition delivered (phone : string) (text : Message) : bool := true.
Definition undelivered (phone : string) (text : Message) : bool := false.
Definition notified (k : N) (st : Status) (t : Z) : bool := true.

Definition pupil (history : list AttendanceRecord) : Student :=
  mkStudent "Nimal" "IX001" (Some "0771234567"%string) true history 0 Double.zero None [].

Definition ledger (history : list AttendanceRecord) : World :=
  mkWorld {[ 1%N := pupil history ]} [] [].

(** A record of [n] days from 15 January, entered at 08:00. *)
Definition entry (n : Z) (st : Status) (leave : option Z) : AttendanceRecord :=
  mkRecord (on n 0 0) st (Some (on n 8 0)) leave "Main Entrance" "scanner".

End Scenario.

(** ** services/whatsapp.service.js *)

Module WhatsApp.

(** A JavaScript string is kept as the bytes of its UTF-8 text: the digits
    are single bytes and no byte of another character is a digit, so the
    two functions below, which only tell digits from the rest, do to the
    bytes what the source does to the characters. *)
Definition isDigit (c : Ascii.ascii) : bool :=
  (48 <=? Ascii.N_of_ascii c)%N && (Ascii.N_of_ascii c <=? 57)%N.

(** [s.replace(/\D/g, '')] *)
Fixpoint removeNonDigits (s : string) : string :=
  match s with
  | EmptyString => EmptyString
  | String c s' => if isDigit c then String c (removeNonDigits s') else removeNonDigits s'
  end.

(** [s.substring(1)] *)
Definition substring1 (s : string) : string :=
  match s with
  | EmptyString => EmptyString
  | String _ s' => s'
  end.

Definition formatPhoneNumber (phoneNumber : string) : string :=
  let formatted := removeNonDigits phoneNumber in
  let formatted :=
    if String.prefix "0" formatted then String.append "94" (substring1 formatted)
    else formatted in
  if negb (String.prefix "94" formatted) then String.append "94" formatted else formatted.

Inductive EventStatus := StatusInfo | StatusSuccess | StatusWarning | StatusError.

Record ConnectionEvent := mkConnectionEvent {
  ev_timestamp : Z;
  ev_event : string;
  ev_status : EventStatus
}.

Record MessageStats := mkStats {
  total : Z;
  successful : Z;
  failed : Z;
  pending : Z
}.

(** The variables of the module. *)
Record State := mkState {
  isClientReady : bool;
  clientError : option string;
  currentQR : option string;
  lastConnectionTime : option Z;
  connectionEvents : list ConnectionEvent;
  messageStats : MessageStats
}.

(** The module as it is loaded. *)
Definition initial : State :=
  mkState false None None None [] (mkStats 0 0 0 0).

Definition addConnectionEvent (now : Z) (event : string) (status : EventStatus)
    (st : State) : State :=
  let events := mkConnectionEvent now event status :: connectionEvents st in
  mkState (isClientReady st) (clientError st) (currentQR st) (lastConnectionTime st)
    (if (50 <? length events)%nat then take 50 events else events)
    (messageStats st).

(** What [getClientState()] shows of the history. *)
Definition shownEvents (st : State) : list ConnectionEvent := take 10 (connectionEvents st).

(** The handlers registered on the client when the module is loaded. *)
Definition onQr (now : Z) (qr : string) (st : State) : State :=
  addConnectionEvent now "QR Code Generated" StatusInfo
    (mkState (isClientReady st) (clientError st) (Some qr) (lastConnectionTime st)
       (connectionEvents st) (messageStats st)).

Definition onAuthenticated (now : Z) (st : State) : State :=
  addConnectionEvent now "Authenticated" StatusSuccess
    (mkState (isClientReady st) (clientError st) None (lastConnectionTime st)
       (connectionEvents st) (messageStats st)).

Definition onReady (now : Z) (st : State) : State :=
  addConnectionEvent now "Connected" StatusSuccess
    (mkState true None (currentQR st) (Some now) (connectionEvents st) (messageStats st)).

(** [error] is the payload of the event, kept in [clientError] as it is;
    [message] is what [`${error.message}`] prints of it: the text
    [undefined] for a payload that is a string. *)
Definition onAuthFailure (now : Z) (error message : string) (st : State) : State :=
  addConnectionEvent now (String.append "Authentication Failed: " message) StatusError
    (mkState false (Some error) (currentQR st) (lastConnectionTime st)
       (connectionEvents st) (messageStats st)).

Definition onDisconnected (now : Z) (reason : string) (st : State) : State :=
  addConnectionEvent now (String.append "Disconnected: " reason) StatusWarning
    (mkState false (clientError st) (currentQR st) (lastConnectionTime st)
       (connectionEvents st) (messageStats st)).

(** The handlers [resetQR] and [logout] register on the client they create:
    the same assignments, another text in the history.  ([resetQR]
    registers the first and the third only.) *)
Definition onQrAfterReset (now : Z) (qr : string) (st : State) : State :=
  addConnectionEvent now "QR Code Generated (After Reset)" StatusInfo
    (mkState (isClientReady st) (clientError st) (Some qr) (lastConnectionTime st)
       (connectionEvents st) (messageStats st)).

Definition onAuthenticatedAfterReset (now : Z) (st : State) : State :=
  addConnectionEvent now "Authenticated After Reset" StatusSuccess
    (mkState (isClientReady st) (clientError st) None (lastConnectionTime st)
       (connectionEvents st) (messageStats st)).

Definition onReadyAfterReset (now : Z) (st : State) : State :=
  addConnectionEvent now "Connected After Reset" StatusSuccess
    (mkState true None (currentQR st) (Some now) (connectionEvents st) (messageStats st)).

Definition onAuthFailureAfterReset (now : Z) (error message : string) (st : State)
    : State :=
  addConnectionEvent now (String.append "Authentication Failed After Reset: " message)
    StatusError
    (mkState false (Some error) (currentQR st) (lastConnectionTime st)
       (connectionEvents st) (messageStats st)).

Definition onDisconnectedAfterReset (now : Z) (reason : string) (st : State) : State :=
  addConnectionEvent now (String.append "Disconnected After Reset: " reason) StatusWarning
    (mkState false (clientError st) (currentQR st) (lastConnectionTime st)
       (connectionEvents st) (messageStats st)).

(** [resetQR()] and [logout()] up to their first [await]: the assignments
    and the first event.  What they add to the history once the client has
    been replaced (a reset error, a logout error, the note of a logout
    done) is an event of its own, [addConnectionEvent] at that time. *)
Definition resetQR (now : Z) (st : State) : State :=
  addConnectionEvent now "Resetting QR Code" StatusInfo
    (mkState false (clientError st) None (lastConnectionTime st)
       (connectionEvents st) (messageStats st)).

Definition logout (now : Z) (st : State) : State :=
  addConnectionEvent now "Logging Out" StatusWarning
    (mkState false None None (lastConnectionTime st)
       (connectionEvents st) (messageStats st)).

(** What the client does when asked to send to a chat: [client.info] is
    missing; [client.sendMessage] resolves with an id and a timestamp; it
    rejects with an [Error] of the given message; or it rejects with a value
    that has no message text, so that the test for the wid error throws a
    [TypeError], of the given message. *)
Inductive ClientReply :=
| NoInfo
| Sent (messageId : string) (timestamp : Z)
| Rejects (message : string)
| RejectsOddly (typeError : string).

Inductive Code :=
| CLIENT_NOT_READY | INVALID_PHONE | AUTH_LOST | INVALID_WID | SEND_ERROR | GENERAL_ERROR.

Inductive Result :=
| Success (messageId : string) (timestamp : Z) (message : string)
| Failure (error : string) (code : Code).

(** [text.includes(part)] *)
Definition includes (part text : string) : bool :=
  match String.index 0 part text with
  | Some _ => true
  | None => false
  end.

Definition withStats (st : State) (stats : MessageStats) : State :=
  mkState (isClientReady st) (clientError st) (currentQR st) (lastConnectionTime st)
    (connectionEvents st) stats.

Definition lostClient (st : State) (error : string) : State :=
  mkState false (Some error) (currentQR st) (lastConnectionTime st)
    (connectionEvents st) (messageStats st).

(** [sendTextMessage(phoneNumber, message)], for a [phoneNumber] that is a
    string; [client] answers for the chat id it is asked about. *)
Definition sendTextMessage (client : string -> string -> ClientReply) (now : Z)
    (phoneNumber message : string) (st : State) : Result * State :=
  let stats := messageStats st in
  let stats := mkStats (total stats + 1) (successful stats) (failed stats) (pending stats + 1) in
  let st := withStats st stats in
  let failedOne :=
    mkStats (total stats) (successful stats) (failed stats + 1) (pending stats - 1) in
  if negb (isClientReady st) then
    (Failure "WhatsApp client not ready. Please scan QR code to connect." CLIENT_NOT_READY,
     addConnectionEvent now "Message Failed: Client not ready" StatusError
       (withStats st failedOne))
  else
    let formattedNumber := formatPhoneNumber phoneNumber in
    if bool_decide (formattedNumber = EmptyString) then
      (Failure "Invalid phone number format" INVALID_PHONE,
       addConnectionEvent now "Message Failed: Invalid phone number" StatusError
         (withStats st failedOne))
    else
      let chatId := String.append formattedNumber "@c.us" in
      match client chatId message with
      | NoInfo =>
          (Failure "WhatsApp client lost authentication. Please scan QR code again." AUTH_LOST,
           addConnectionEvent now "Client lost authentication" StatusError
             (lostClient st "Client lost authentication"))
      | Sent messageId timestamp =>
          (Success messageId timestamp message,
           addConnectionEvent now (String.append "Message sent to " phoneNumber) StatusSuccess
             (withStats st
                (mkStats (total stats) (successful stats + 1) (failed stats)
                   (pending stats - 1))))
      | Rejects errorMessage =>
          if includes "wid error: invalid wid" errorMessage then
            (Failure "WhatsApp client needs re-authentication. Please scan QR code again."
               INVALID_WID,
             addConnectionEvent now "Invalid WhatsApp ID detected" StatusError
               (lostClient st "Invalid WhatsApp ID"))
          else
            (Failure errorMessage SEND_ERROR,
             addConnectionEvent now (String.append "Message Failed: " errorMessage) StatusError
               (withStats st failedOne))
      | RejectsOddly typeError =>
          (Failure typeError GENERAL_ERROR,
           addConnectionEvent now (String.append "Message Error: " typeError) StatusError
             (withStats st failedOne))
      end.

(** [results.successful] and [results.failed] of [sendBulkMessages]: the
    phone with the message id, the phone with the error. *)
Record BulkResults := mkBulk {
  successfulSends : list (string * string);
  failedSends : list (string * string)
}.

Record Summary := mkSummary {
  sum_total : nat;
  sum_successful : nat;
  sum_failed : nat
}.

(** What happens to the module: an event of the client it was loaded with
    or of a client made by a reset, a reset or a logout and the events they
    add later, or a message to send. *)
Inductive Step :=
| Qr (qr : string)
| Authenticated
| Ready
| AuthFailure (error message : string)
| Disconnected (reason : string)
| QrAfterReset (qr : string)
| AuthenticatedAfterReset
| ReadyAfterReset
| AuthFailureAfterReset (error message : string)
| DisconnectedAfterReset (reason : string)
| ResetQR
| Logout
| Noted (event : string) (status : EventStatus)
| SendText (client : string -> string -> ClientReply) (phoneNumber message : string).

Definition step (st : State) (at_step : Z * Step) : State :=
  match at_step.2 with
  | Qr qr => onQr at_step.1 qr st
  | Authenticated => onAuthenticated at_step.1 st
  | Ready => onReady at_step.1 st
  | AuthFailure error message => onAuthFailure at_step.1 error message st
  | Disconnected reason => onDisconnected at_step.1 reason st
  | QrAfterReset qr => onQrAfterReset at_step.1 qr st
  | AuthenticatedAfterReset => onAuthenticatedAfterReset at_step.1 st
  | ReadyAfterReset => onReadyAfterReset at_step.1 st
  | AuthFailureAfterReset error message =>
      onAuthFailureAfterReset at_step.1 error message st
  | DisconnectedAfterReset reason => onDisconnectedAfterReset at_step.1 reason st
  | ResetQR => resetQR at_step.1 st
  | Logout => logout at_step.1 st
  | Noted event status => addConnectionEvent at_step.1 event status st
  | SendText client phoneNumber message =>
      (sendTextMessage client at_step.1 phoneNumber message st).2
  end.

(** The loop of [sendBulkMessages].  The [n]-th call finds the client and
    the clock as [client n] and [clock n]; while it waits for the client,
    other things may happen to the module: [between n]. *)
Fixpoint bulkLoop (client : nat -> string -> string -> ClientReply) (clock : nat -> Z)
    (between : nat -> list (Z * Step))
    (n : nat) (phoneNumbers : list string) (message : string)
    (results : BulkResults) (st : State) : BulkResults * State :=
  match phoneNumbers with
  | [] => (results, st)
  | phone :: rest =>
      let '(result, st') := sendTextMessage (client n) (clock n) phone message st in
      let results' :=
        match result with
        | Success messageId _ _ =>
            mkBulk (successfulSends results ++ [(phone, messageId)]) (failedSends results)
        | Failure error _ =>
            mkBulk (successfulSends results) (failedSends results ++ [(phone, error)])
        end in
      bulkLoop client clock between (S n) rest message results'
        (foldl step st' (between n))
  end.

Definition sendBulkMessages (client : nat -> string -> string -> ClientReply)
    (clock : nat -> Z) (between : nat -> list (Z * Step))
    (phoneNumbers : list string) (message : string) (st : State)
    : Summary * BulkResults * State :=
  let '(results, st') :=
    bulkLoop client clock between 0 phoneNumbers message (mkBulk [] []) st in
  (mkSummary (length phoneNumbers) (length (successfulSends results))
     (length (failedSends results)),
   results, st').

End WhatsApp.

(** ** Notions used in the properties of the messaging service *)

(** The text holds digits only. *)
Fixpoint allDigits (s : string) : bool :=
  match s with
  | EmptyString => true
  | String c s' => WhatsApp.isDigit c && allDigits s'
  end.

(** The code of a failed send. *)
Definition codeOf (r : WhatsApp.Result) : option WhatsApp.Code :=
  match r with
  | WhatsApp.Success _ _ _ => None
  | WhatsApp.Failure _ code => Some code
  end.

(** The send lost the client: it was answered AUTH_LOST or INVALID_WID. *)
Definition lostAuthentication (r : WhatsApp.Result) : bool :=
  match codeOf r with
  | Some WhatsApp.AUTH_LOST | Some WhatsApp.INVALID_WID => true
  | _ => false
  end.

Definition isReadyStep (s : Z * WhatsApp.Step) : bool :=
  match s.2 with
  | WhatsApp.Ready | WhatsApp.ReadyAfterReset => true
  | _ => false
  end.

(** The counters add up, and none is negative. *)
Definition statsBalanced (stats : WhatsApp.MessageStats) : Prop :=
  WhatsApp.total stats
  = WhatsApp.successful stats + WhatsApp.failed stats + WhatsApp.pending stats
  /\ 0 <= WhatsApp.successful stats /\ 0 <= WhatsApp.failed stats
  /\ 0 <= WhatsApp.pending stats.

(** ** Clients of the worked cases of the messaging service *)

Module Chat.

(** A client that delivers, one that has lost its session, one that rejects
    the chat id. *)
Definition delivering (chatId message : string) : WhatsApp.ClientReply :=
  WhatsApp.Sent (String.append "msg-" chatId) 0.
Definition signedOut (chatId message : string) : WhatsApp.ClientReply := WhatsApp.NoInfo.
Definition rejecting (chatId message : string) : WhatsApp.ClientReply :=
  WhatsApp.Rejects "Evaluation failed: wid error: invalid wid".

(** The module after the client has reported ready at time 0. *)
Definition connected : WhatsApp.State := WhatsApp.onReady 0 WhatsApp.initial.

End Chat.

(** ** services/schedulerService.js *)

Module Scheduler.
Section Service.
Variable tz : Z.

(** [scheduleAutoMarkAttendance]: [now] and [targetTime] are two readings
    of the clock, [now] and [now'].  The result is [targetTime] as it is
    when the timer is set. *)
Definition targetTime (now now' : Z) : Z :=
  let targetTime := setHours tz now' 18 45 0 0 in
  if bool_decide (now > targetTime) then addDays targetTime 1 else targetTime.

(** The delay given to [setTimeout]. *)
Definition timeUntilTarget (now now' : Z) : Z := targetTime now now' - now.

End Service.
End Scheduler.

(** ** controllers/students.controller.js: the scan request *)

Module QrScan.

(** A field of the payload that a query is made of, as JSON gives it:
    absent or falsy; a text, or a number or a boolean, which the query casts
    to its text; an object of query operators ([{ $ne: null }] and the
    like), which the query takes for the condition they put on the stored
    value; or a value the query cannot cast, on which it throws. *)
Inductive Field (A : Type) :=
| Missing
| Text (s : string)
| Operators (holds : A -> bool)
| Uncastable.
Arguments Missing {A}.
Arguments Text {A} s.
Arguments Operators {A} holds.
Arguments Uncastable {A}.

(** JavaScript truthiness of a field. *)
Definition given {A} (f : Field A) : bool :=
  match f with
  | Missing => false
  | Text s => negb (bool_decide (s = EmptyString))
  | Operators _ | Uncastable => true
  end.

(** The condition a field puts on a stored value; [isText v s] tells
    whether the text [s] casts to [v]. *)
Definition selects {A} (isText : A -> string -> bool) (f : Field A) (v : A) : bool :=
  match f with
  | Text s => isText v s
  | Operators holds => holds v
  | Missing | Uncastable => false
  end.

Definition throws {A} (f : Field A) : bool :=
  match f with
  | Uncastable => true
  | _ => false
  end.

(** [secureHash]: absent or falsy, a text, or a truthy value of another
    type, which no text is [===] to. *)
Inductive Hash :=
| NoHash
| HashText (secureHash : string)
| NotText.

(** The four fields the handler reads off the payload. *)
Record StudentData := mkData {
  qr_indexNumber : Field string;
  qr_name : Field string;
  qr_id : Field N;
  qr_secureHash : Hash
}.

(** [req.body.qrCodeData]: absent or falsy; a text [JSON.parse] rejects; a
    text that parses to [null]; any other value, given as such or parsed
    from a text, with what it has of the four fields. *)
Inductive QrCodeData :=
| Falsy
| Unparsable
| JsonNull
| Data (studentData : StudentData).

Inductive Response :=
| DidNotScan                                  (* 400 *)
| InvalidFormat                               (* 400 *)
| InformationRequired                         (* 400 *)
| InvalidAuthentication (name indexNumber : string)   (* 401 *)
| Handled (r : StudentsController.Response).  (* 200, 404, 500 *)

Section Handler.
Variable tz : Z.
Variable saveOk : N -> bool.
Variable sendAttendanceNotification : N -> Status -> Z -> bool.
(** The cast of a text to an [_id]: [None] where mongoose cannot cast it and
    [findById] throws. *)
Variable objectId : string -> option N.
(** The first 16 hex digits of the SHA-256 of
    [`${student._id}${student.indexNumber}${secret}`]. *)
Variable expectedHash : N -> string -> string.

Definition isString (v s : string) : bool := bool_decide (v = s).
Definition isId (k : N) (s : string) : bool := bool_decide (objectId s = Some k).

(** [Student.findOne({ indexNumber, name })]: the first document that meets
    both conditions, [None] where the query throws.  Which of several such
    documents comes first is the store's affair: here the one of the
    least [_id]. *)
Definition findOne (indexNumber' name' : Field string) (w : World)
    : option (option (N * Student)) :=
  if throws indexNumber' || throws name' then None
  else
    Some (head (Student_find
                  (fun s => selects isString indexNumber' (indexNumber s)
                            && selects isString name' (name s))
                  (db w))).

(** [Student.findById(id)] *)
Definition findById (id : Field N) (w : World) : option (option (N * Student)) :=
  match id with
  | Text s =>
      match objectId s with
      | Some k => Some ((fun student => (k, student)) <$> db w !! k)
      | None => None
      end
  | Operators holds =>
      Some (head (List.filter (fun ks : N * Student => holds ks.1) (map_to_list (db w))))
  | Uncastable => None
  | Missing => Some None
  end.

(** Lines 99 to 106: the document the payload selects, [None] where a query
    throws. *)
Definition lookup (studentData : StudentData) (w : World) : option (option (N * Student)) :=
  let byId := if given (qr_id studentData) then findById (qr_id studentData) w
              else Some None in
  match byId with
  | Some (Some student) => Some (Some student)
  | Some None => findOne (qr_indexNumber studentData) (qr_name studentData) w
  | None => None
  end.

Definition markAttendance (qrCodeData : QrCodeData)
    (deviceInfo scanLocation userAgentHeader : option string)
    (currentScanTime : Z) (w : World) : Response * World :=
  match qrCodeData with
  | Falsy => (DidNotScan, w)
  | Unparsable => (InvalidFormat, w)
  | JsonNull => (Handled StudentsController.ServerError, w)
  | Data studentData =>
      if given (qr_indexNumber studentData) && given (qr_name studentData) then
        match lookup studentData w with
        | None => (Handled StudentsController.ServerError, w)
        | Some None => (Handled StudentsController.NotFound, w)
        | Some (Some (id, student)) =>
            let proceed :=
              let '(r, w') :=
                StudentsController.markAttendance tz saveOk sendAttendanceNotification
                  id deviceInfo scanLocation userAgentHeader currentScanTime w in
              (Handled r, w') in
            let refuse := (InvalidAuthentication (name student) (indexNumber student), w) in
            match qr_secureHash studentData with
            | NoHash => proceed
            | HashText secureHash =>
                if bool_decide (secureHash = EmptyString) then proceed
                else if bool_decide (secureHash <> expectedHash id (indexNumber student))
                     then refuse
                     else proceed
            | NotText => refuse
            end
        end
      else (InformationRequired, w)
  end.

End Handler.

(** The payload with its [secureHash] taken out. *)
Definition withoutHash (studentData : StudentData) : StudentData :=
  mkData (qr_indexNumber studentData) (qr_name studentData) (qr_id studentData) NoHash.

Definition isRecorded (r : Response) : bool :=
  match r with
  | Handled (StudentsController.Recorded _ _) => true
  | _ => false
  end.

Definition isInvalidAuthentication (r : Response) : bool :=
  match r with
  | InvalidAuthentication _ _ => true
  | _ => false
  end.

End QrScan.

(** ** QR payloads of the worked cases *)

Module Badge.

(** The one [_id] of the ledger of the worked cases. *)
Definition objectId (id : string) : option N :=
  if bool_decide (id = "65a4f0c2e1b2a3d4c5f60718"%string) then Some 1%N else None.

Definition expectedHash (id : N) (indexNumber : string) : string := "9f2b4c6d8e0a1b3c".

(** The payload of the pupil's badge, and one with another hash. *)
Definition genuine : QrScan.StudentData :=
  QrScan.mkData (QrScan.Text "IX001") (QrScan.Text "Nimal")
    (QrScan.Text "65a4f0c2e1b2a3d4c5f60718") (QrScan.HashText "9f2b4c6d8e0a1b3c").
Definition forged : QrScan.StudentData :=
  QrScan.mkData (QrScan.Text "IX001") (QrScan.Text "Nimal")
    (QrScan.Text "65a4f0c2e1b2a3d4c5f60718") (QrScan.HashText "0000000000000000").
(** A payload with the pupil's [_id] and the name of somebody else. *)
Definition renamed : QrScan.StudentData :=
  QrScan.mkData (QrScan.Text "IX999") (QrScan.Text "Kamal")
    (QrScan.Text "65a4f0c2e1b2a3d4c5f60718") (QrScan.HashText "9f2b4c6d8e0a1b3c").
(** A payload of query operators in place of the texts: any index number,
    any name, no [id], no hash. *)
Definition anybody : QrScan.StudentData :=
  QrScan.mkData (QrScan.Operators (fun _ => true)) (QrScan.Operators (fun _ => true))
    QrScan.Missing QrScan.NoHash.

End Badge.

(** ** controllers/students.controller.js: getDashboardStats *)

Module Dashboard.
Section Handler.
Variable tz : Z.

(** [Student.countDocuments(query)] *)
Definition countDocuments (query : Student -> bool) (w : World) : nat :=
  length (Student_find query (db w)).

(** ['attendanceHistory.entryTime': { $gte: start, $lte: end }]: a range on
    a path through an array asks for an element at or after [start] and an
    element at or before [end], not for one element within both. *)
Definition entryTimeQuery (start end' : Z) (student : Student) : bool :=
  existsb (fun r => match entryTime r with Some t => start <=? t | None => false end)
    (attendanceHistory student)
  && existsb (fun r => match entryTime r with Some t => t <=? end' | None => false end)
       (attendanceHistory student).

(** The four queries of the metrics.  ['attendanceHistory.leaveTime': null]
    asks for an element without leave time, [{ $ne: null }] for there being
    none. *)
Definition totalQuery (student : Student) : bool := active student.
Definition presentQuery (start end' : Z) (student : Student) : bool :=
  entryTimeQuery start end' student && active student.
Definition inSchoolQuery (start end' : Z) (student : Student) : bool :=
  entryTimeQuery start end' student
  && existsb noLeaveTime (attendanceHistory student) && active student.
Definition leftQuery (start end' : Z) (student : Student) : bool :=
  entryTimeQuery start end' student
  && negb (existsb noLeaveTime (attendanceHistory student)) && active student.

(** The counts of [metrics]; [attendanceRate] is left out. *)
Record Metrics := mkMetrics {
  totalStudents : nat;
  studentsPresent : nat;
  studentsAbsent : Z;
  studentsInSchool : nat;
  studentsLeft : nat
}.

(** [startDate] and [endDate] are the dates the query names, [None] where it
    names none; [now] and [now'] are the readings of the clock that stand in
    for them. *)
Definition metrics (startDate endDate : option Z) (now now' : Z) (w : World) : Metrics :=
  let start := setHours tz (default now startDate) 0 0 0 0 in
  let end' := setHours tz (default now' endDate) 23 59 59 999 in
  let totalStudents := countDocuments totalQuery w in
  let studentsPresent := countDocuments (presentQuery start end') w in
  mkMetrics totalStudents studentsPresent
    (Z.of_nat totalStudents - Z.of_nat studentsPresent)
    (countDocuments (inSchoolQuery start end') w)
    (countDocuments (leftQuery start end') w).

(** ['attendanceHistory.date': { $gte: day, $lt: nextDay }] *)
Definition dayQuery (day nextDay : Z) (student : Student) : bool :=
  existsb (fun r => day <=? date r) (attendanceHistory student)
  && existsb (fun r => date r <? nextDay) (attendanceHistory student)
  && active student.

(** One turn of the loop of [last7Days]; [now] is its reading of the clock.
    The entry is the date text, kept as the UTC day number it names, and
    the count. *)
Definition dayEntry (w : World) (now : Z) (i : Z) : Z * nat :=
  let day := setHours tz (addDays now (- i)) 0 0 0 0 in
  let nextDay := addDays day 1 in
  (isoDate day, countDocuments (dayQuery day nextDay) w).

(** [clock i] is the reading of the clock in the turn of [i]. *)
Definition last7Days (clock : Z -> Z) (w : World) : list (Z * nat) :=
  (fun i => dayEntry w (clock i) i) <$> [6; 5; 4; 3; 2; 1; 0].

End Handler.
End Dashboard.

(** ** Notions used in the properties of the sweeps *)

(** A record after the backlog sweep, against the record it was: the same,
    or an open record of an earlier day closed at 18:30 of its own day. *)
Definition closedFrom (tz today : Z) (r r' : AttendanceRecord) : Prop :=
  r' = r
  \/ (AutoAttendance.incomplete today r = true
      /\ r' = set_leave (setHours tz (date r) 18 30 0 0) r).

(** The record at place [i] of document [k] is closed in the store of [w']:
    its status is left and its leaveTime is [leave]. *)
Definition closedIn (w' : World) (k : N) (i : nat) (leave : Z) : Prop :=
  exists s' r',
    db w' !! k = Some s' /\ attendanceHistory s' !! i = Some r'
    /\ status r' = Left /\ leaveTime r' = Some leave.

(** A record of document [k] that was open in [w], with status entered or
    present and no leaveTime, is closed in the store of [w']. *)
Definition closureStored (w w' : World) (k : N) : Prop :=
  exists s i r leave,
    db w !! k = Some s /\ attendanceHistory s !! i = Some r
    /\ enteredOrPresent r = true /\ leaveTime r = None
    /\ closedIn w' k i leave.

(** Every message handed to the messaging service between [w] and [w'] goes
    to the guardian of a student whose save resolved and whose closure is in
    the store of [w']. *)
Definition notifiedAfterSaving (saveOk : N -> bool) (w w' : World) : Prop :=
  exists new,
    outbox w' = outbox w ++ new
    /\ forall phone text, (phone, text) ∈ new ->
         exists k s,
           db w !! k = Some s /\ truthy (parent_telephone s) = Some phone
           /\ saveOk k = true /\ closureStored w w' k.

(** ** controllers/attendance.controller.js: the counts of the day views *)

Module DayStats.

Definition hasStatus (st : Status) (student : AttendanceController.Row) : bool :=
  bool_decide (AttendanceController.row_status student = st).

(** [getScannedStudentsToday]: [totalCount], [presentCount], [leftCount],
    [absentCount]. *)
Record Today := mkToday {
  totalCount : nat;
  presentCount : nat;
  leftCount : nat;
  absentCount : nat
}.

Definition today (students : list AttendanceController.Row) : Today :=
  mkToday (length students)
    (length (List.filter (hasStatus Entered) students))
    (length (List.filter (hasStatus Left) students))
    (length (List.filter (hasStatus Absent) students)).

(** [getAttendanceByDate]: the [stats] of the [reduce]. *)
Record Stats := mkStats {
  stats_totalCount : nat;
  stats_presentCount : nat;
  stats_absentCount : nat;
  stats_lateCount : nat
}.

Definition tally (acc : Stats) (student : AttendanceController.Row) : Stats :=
  let acc := mkStats (S (stats_totalCount acc)) (stats_presentCount acc)
               (stats_absentCount acc) (stats_lateCount acc) in
  match AttendanceController.row_status student with
  | Present | Entered =>
      mkStats (stats_totalCount acc) (S (stats_presentCount acc))
        (stats_absentCount acc) (stats_lateCount acc)
  | Late =>
      mkStats (stats_totalCount acc) (stats_presentCount acc)
        (stats_absentCount acc) (S (stats_lateCount acc))
  | Absent =>
      mkStats (stats_totalCount acc) (stats_presentCount acc)
        (S (stats_absentCount acc)) (stats_lateCount acc)
  | Left => acc
  end.

Definition stats (processedStudents : list AttendanceController.Row) : Stats :=
  foldl tally (mkStats 0 0 0 0) processedStudents.

End DayStats.

(** ** controllers/messaging.controller.js: the attendance notification *)

Module Messaging.

(** [\s] on one byte: tab, line feed, vertical tab, form feed, carriage
    return, space. *)
Definition isSpace (c : Ascii.ascii) : bool :=
  let n := Ascii.N_of_ascii c in
  ((9 <=? n) && (n <=? 13) || (n =? 32))%N.

(** [\s] on the two bytes of U+00A0. *)
Definition isSpace2 (c1 c2 : Ascii.ascii) : bool :=
  ((Ascii.N_of_ascii c1 =? 194) && (Ascii.N_of_ascii c2 =? 160))%N.

(** [\s] on three bytes: U+1680, U+2000 to U+200A, U+2028, U+2029, U+202F,
    U+205F, U+3000, U+FEFF. *)
Definition isSpace3 (c1 c2 c3 : Ascii.ascii) : bool :=
  let a := Ascii.N_of_ascii c1 in
  let b := Ascii.N_of_ascii c2 in
  let c := Ascii.N_of_ascii c3 in
  ((a =? 225) && (b =? 154) && (c =? 128)
   || (a =? 226) && (b =? 128)
      && ((128 <=? c) && (c <=? 138) || (c =? 168) || (c =? 169) || (c =? 175))
   || (a =? 226) && (b =? 129) && (c =? 159)
   || (a =? 227) && (b =? 128) && (c =? 128)
   || (a =? 239) && (b =? 187) && (c =? 191))%N.

(** [s.replace(/\s+/g, '')] on the bytes of the text. *)
Fixpoint removeWhitespace (s : string) : string :=
  match s with
  | EmptyString => EmptyString
  | String c1 s1 =>
      if isSpace c1 then removeWhitespace s1
      else
        match s1 with
        | String c2 s2 =>
            if isSpace2 c1 c2 then removeWhitespace s2
            else
              match s2 with
              | String c3 s3 =>
                  if isSpace3 c1 c2 c3 then removeWhitespace s3
                  else String c1 (removeWhitespace s1)
              | EmptyString => String c1 (removeWhitespace s1)
              end
        | EmptyString => String c1 (removeWhitespace s1)
        end
  end.

Inductive Code :=
| CLIENT_NOT_READY | STUDENT_NOT_FOUND | NO_PHONE_NUMBER | MISSING_PHONE
| Service (code : WhatsApp.Code).

Inductive Result :=
| Success (messageId : string) (timestamp : Z) (message : string)
| Failure (error : string) (code : Code).

Section Controller.
(** The client of the messaging service, and the text [sendAttendanceAlert]
    composes for a telephone, a student, a status and a time. *)
Variable client : string -> string -> WhatsApp.ClientReply.
Variable alertMessage : string -> Student -> Status -> Z -> string.

(** [sendAttendanceAlert(phoneNumber, student, status, timestamp)] of the
    messaging service; [now] is the clock of [sendTextMessage]. *)
Definition sendAttendanceAlert (now : Z) (phoneNumber : string) (student : Student)
    (status : Status) (timestamp : Z) (st : WhatsApp.State) : Result * WhatsApp.State :=
  if bool_decide (phoneNumber = EmptyString) then
    (Failure "No phone number provided" MISSING_PHONE, st)
  else
    let message := alertMessage phoneNumber student status timestamp in
    match WhatsApp.sendTextMessage client now phoneNumber message st with
    | (WhatsApp.Success messageId sentAt _, st') => (Success messageId sentAt message, st')
    | (WhatsApp.Failure error code, st') => (Failure error (Service code), st')
    end.

(** [sendAttendanceNotification(studentId, status, timestamp)], for a
    [studentId] that is an [_id] and a read of the store that resolves: the
    codes ALERT_ERROR and NOTIFICATION_ERROR of the two [catch] blocks, for
    what throws otherwise, are left out. *)
Definition sendAttendanceNotification (now : Z) (studentId : N) (status : Status)
    (timestamp : option Z) (w : World) (st : WhatsApp.State) : Result * WhatsApp.State :=
  if negb (WhatsApp.isClientReady st) then
    (Failure "WhatsApp service not ready" CLIENT_NOT_READY, st)
  else
    match db w !! studentId with
    | None => (Failure "Student not found" STUDENT_NOT_FOUND, st)
    | Some student =>
        match truthy (parent_telephone student) with
        | None => (Failure "No parent phone number available" NO_PHONE_NUMBER, st)
        | Some parent_telephone =>
            let scanTime := default now timestamp in
            let phoneNumber := removeWhitespace parent_telephone in
            sendAttendanceAlert now phoneNumber student status scanTime st
        end
    end.

End Controller.

Definition success (r : Result) : bool :=
  match r with
  | Success _ _ _ => true
  | Failure _ _ => false
  end.

End Messaging.

(** ** Notions used in the properties of the percentage *)

(** The double [x] is the rational [num / den] exactly ([den] positive). *)
Definition isExactly (x : spec_float) (num den : Z) : Prop :=
  match x with
  | S754_zero _ => num = 0
  | S754_finite s m e =>
      let v := if s then Z.neg m else Z.pos m in
      if e <? 0 then v * den = num * 2 ^ (- e) else v * 2 ^ e * den = num
  | _ => False
  end.

(** * Properties *)

(** ** Dates *)

Lemma msPerDay_pos : 0 < msPerDay.
Proof. reflexivity. Qed.

Lemma localDay_setHours tz d h m s ms :
  0 <= timeOfDay h m s ms < msPerDay ->
  localDay tz (setHours tz d h m s ms) = localDay tz d.
Proof.
  intros Hin. unfold setHours, localDay.
  replace (((d + tz) / msPerDay) * msPerDay - tz + timeOfDay h m s ms + tz)
    with (timeOfDay h m s ms + ((d + tz) / msPerDay) * msPerDay) by ring.
  rewrite Z.div_add by (pose proof msPerDay_pos; lia).
  rewrite Z.div_small by exact Hin. ring.
Qed.

(** With a zero offset the UTC day and the local day coincide. *)
Lemma isoDate_localDay_utc d : isoDate d = localDay 0 d.
Proof. unfold isoDate, localDay. by rewrite Z.add_0_r. Qed.

(** ** [findIndex] *)

Lemma findIndex_Some {A} (p : A -> bool) (l : list A) (i : nat) :
  findIndex p l = Some i ->
  exists x, l !! i = Some x /\ p x = true /\
            forall j y, l !! j = Some y -> (j < i)%nat -> p y = false.
Proof.
  unfold findIndex. intros H.
  destruct (list_find (fun x => p x) l) as [[j x]|] eqn:E; simplify_eq/=.
  apply list_find_Some in E as (Hl & Hp & Hmin).
  exists x. split; [done|]. split; [by apply Is_true_true|].
  intros j y Hy Hj. specialize (Hmin j y Hy Hj).
  destruct (p y); [by destruct Hmin|done].
Qed.

Lemma findIndex_None {A} (p : A -> bool) (l : list A) :
  findIndex p l = None -> forall x, x ∈ l -> p x = false.
Proof.
  unfold findIndex. intros H x Hx.
  destruct (list_find (fun x => p x) l) as [[j y]|] eqn:E; simplify_eq/=.
  rewrite list_find_None in E. rewrite Forall_forall in E.
  specialize (E x Hx). destruct (p x); [by destruct E|done].
Qed.

(** ** The store and the loops over it *)

Lemma Student_find_spec (q : Student -> bool) (d : gmap N Student) k s :
  (k, s) ∈ Student_find q d <-> d !! k = Some s /\ q s = true.
Proof.
  unfold Student_find. rewrite elem_of_map_to_list, map_lookup_filter_Some. done.
Qed.

Lemma Student_find_nil (q : Student -> bool) (d : gmap N Student) :
  (forall k s, d !! k = Some s -> q s = false) -> Student_find q d = [].
Proof.
  intros H. unfold Student_find. apply map_to_list_empty_iff, map_empty. intros k.
  apply map_lookup_filter_None. right. intros s Hs Hq. simpl in Hq.
  rewrite (H k s Hs) in Hq. done.
Qed.

Section Loop.
Context {S : Type} (store : S -> gmap N Student) (step : S -> N * Student -> S).
Variable upd : N -> Student -> option Student.
Hypothesis step_store : forall w ks,
  store (step w ks) =
  match upd ks.1 ks.2 with
  | Some s' => <[ks.1 := s']> (store w)
  | None => store w
  end.

Lemma loop_lookup (l : list (N * Student)) (w : S) (k : N) :
  NoDup l.*1 ->
  store (foldl step w l) !! k =
  match (list_to_map l : gmap N Student) !! k with
  | Some s => match upd k s with Some s' => Some s' | None => store w !! k end
  | None => store w !! k
  end.
Proof.
  revert w. induction l as [|[k0 s0] l IH]; intros w Hnd; simpl.
  - by rewrite lookup_empty.
  - apply NoDup_cons in Hnd as [Hk0 Hnd]. rewrite (IH _ Hnd), step_store. simpl.
    destruct (decide (k = k0)) as [->|Hne].
    + rewrite lookup_insert_eq.
      rewrite (proj1 (not_elem_of_list_to_map l k0) Hk0).
      destruct (upd k0 s0); [by rewrite lookup_insert_eq|done].
    + rewrite lookup_insert_ne by done.
      assert (Hsame : (match upd k0 s0 with
                       | Some s' => <[k0 := s']> (store w)
                       | None => store w
                       end) !! k = store w !! k).
      { destruct (upd k0 s0); [by rewrite lookup_insert_ne|done]. }
      by rewrite Hsame.
Qed.

(** The loop over the documents a query selects saves, for each, what
    [upd] makes of it, and touches no other document. *)
Lemma sweep_lookup (q : Student -> bool) (w : S) (k : N) :
  store (foldl step w (Student_find q (store w))) !! k =
  match store w !! k with
  | Some s => if q s then Some (default s (upd k s)) else Some s
  | None => None
  end.
Proof.
  unfold Student_find. rewrite loop_lookup by apply NoDup_fst_map_to_list.
  rewrite list_to_map_to_list.
  destruct (filter _ (store w) !! k) as [s|] eqn:F.
  - apply map_lookup_filter_Some in F as [Hs Hq]. simpl in Hq.
    rewrite Hs, Hq. by destruct (upd k s).
  - apply map_lookup_filter_None in F as [Hn|Hn]; [by rewrite Hn|].
    destruct (store w !! k) as [s|] eqn:E; [|done].
    specialize (Hn s eq_refl). simpl in Hn. by destruct (q s).
Qed.

End Loop.

(** Two loops over the same documents whose steps agree on what is observed
    of the state end with the same observation. *)
Lemma loop_agree {S1 S2 T : Type} (obs1 : S1 -> T) (obs2 : S2 -> T)
    (step1 : S1 -> N * Student -> S1) (step2 : S2 -> N * Student -> S2)
    (l : list (N * Student)) :
  (forall w1 w2 ks, obs1 w1 = obs2 w2 -> obs1 (step1 w1 ks) = obs2 (step2 w2 ks)) ->
  forall w1 w2, obs1 w1 = obs2 w2 ->
  obs1 (foldl step1 w1 l) = obs2 (foldl step2 w2 l).
Proof.
  intros Hstep. induction l as [|ks l IH]; intros w1 w2 Hw; simpl; [done|].
  apply IH, Hstep, Hw.
Qed.

(** ** The sweeps, student by student *)

Section SweepFacts.
Variable tz : Z.
Variable saveOk : N -> bool.
Variable sendTextMessage : string -> Message -> bool.

Lemma persistAndNotify_db k student text w :
  db (AutoAttendance.persistAndNotify saveOk sendTextMessage k student text w) =
  if saveOk k then <[k := student]> (db w) else db w.
Proof.
  unfold AutoAttendance.persistAndNotify.
  destruct (saveOk k); [|done]. by destruct (truthy (parent_telephone student)).
Qed.

Lemma checkPastStudent_db today w ks :
  db (AutoAttendance.checkPastStudent tz saveOk sendTextMessage today w ks) =
  match pastUpd tz saveOk today ks.1 ks.2 with
  | Some s' => <[ks.1 := s']> (db w)
  | None => db w
  end.
Proof.
  unfold AutoAttendance.checkPastStudent, pastUpd.
  destruct (AutoAttendance.closePast tz today ks.2) as [[s' c]|]; [|done].
  rewrite persistAndNotify_db. by destruct (saveOk ks.1).
Qed.

Lemma autoMarkStudent_db today leaveTime w ks :
  db (AutoAttendance.autoMarkStudent tz saveOk sendTextMessage today leaveTime w ks) =
  match todayUpd tz saveOk today leaveTime ks.1 ks.2 with
  | Some s' => <[ks.1 := s']> (db w)
  | None => db w
  end.
Proof.
  unfold AutoAttendance.autoMarkStudent, todayUpd.
  destruct (AutoAttendance.markLeaveToday tz today leaveTime ks.2) as [s'|]; [|done].
  rewrite persistAndNotify_db. by destruct (saveOk ks.1).
Qed.

Lemma previousDayStudent_db yesterday yesterdayEnd leaveTime w ks :
  db (AutoAttendance.previousDayStudent tz saveOk sendTextMessage
        yesterday yesterdayEnd leaveTime w ks) =
  match yesterdayUpd saveOk yesterday yesterdayEnd leaveTime ks.1 ks.2 with
  | Some s' => <[ks.1 := s']> (db w)
  | None => db w
  end.
Proof.
  unfold AutoAttendance.previousDayStudent, yesterdayUpd.
  destruct (AutoAttendance.markLeaveYesterday yesterday yesterdayEnd leaveTime ks.2)
    as [s'|]; [|done].
  rewrite persistAndNotify_db. by destruct (saveOk ks.1).
Qed.

Lemma checkAllPastAttendance_lookup now w k :
  db (AutoAttendance.checkAllPastAttendance tz saveOk sendTextMessage now w) !! k =
  match db w !! k with
  | Some s =>
      if AutoAttendance.pastQuery (setHours tz now 0 0 0 0) s
      then Some (default s (pastUpd tz saveOk (setHours tz now 0 0 0 0) k s))
      else Some s
  | None => None
  end.
Proof.
  unfold AutoAttendance.checkAllPastAttendance.
  apply (sweep_lookup db _ (pastUpd tz saveOk (setHours tz now 0 0 0 0))).
  intros. apply checkPastStudent_db.
Qed.

Lemma autoMarkLeaveAttendance_lookup now now' w k :
  db (AutoAttendance.autoMarkLeaveAttendance tz saveOk sendTextMessage now now' w) !! k =
  match db w !! k with
  | Some s =>
      if AutoAttendance.todayQuery (setHours tz now 0 0 0 0) s
      then Some (default s (todayUpd tz saveOk (setHours tz now 0 0 0 0)
                              (setHours tz now' 18 30 0 0) k s))
      else Some s
  | None => None
  end.
Proof.
  unfold AutoAttendance.autoMarkLeaveAttendance.
  apply (sweep_lookup db _ (todayUpd tz saveOk (setHours tz now 0 0 0 0)
                              (setHours tz now' 18 30 0 0))).
  intros. apply autoMarkStudent_db.
Qed.

(** *** Closing the past records of one student *)

Lemma enteredOrPresent_set_leave l r : enteredOrPresent (set_leave l r) = false.
Proof. reflexivity. Qed.

Lemma incomplete_closeOwnDay today r :
  AutoAttendance.incomplete today (AutoAttendance.closeOwnDay tz r) = false.
Proof.
  unfold AutoAttendance.incomplete, AutoAttendance.closeOwnDay.
  rewrite enteredOrPresent_set_leave. by rewrite andb_false_r.
Qed.

Lemma closePast_Some today s :
  AutoAttendance.pastQuery today s = true ->
  exists closed,
    AutoAttendance.closePast tz today s =
    Some (swept s
            ((fun r => if AutoAttendance.incomplete today r
                       then AutoAttendance.closeOwnDay tz r else r)
               <$> attendanceHistory s)
            (head (sortByDateDesc closed) ≫= leaveTime),
          closed)
    /\ closed = AutoAttendance.closeOwnDay tz
                  <$> List.filter (AutoAttendance.incomplete today) (attendanceHistory s).
Proof.
  unfold AutoAttendance.pastQuery, AutoAttendance.closePast. intros Hq.
  eexists. split; [|reflexivity].
  apply existsb_exists in Hq as (r & Hin & Hr).
  assert (Hin' : In r (List.filter (AutoAttendance.incomplete today) (attendanceHistory s))).
  { apply filter_In. done. }
  rewrite length_fmap.
  destruct (List.filter (AutoAttendance.incomplete today) (attendanceHistory s));
    [destruct Hin'|]. done.
Qed.

Lemma closePast_history today s s' c :
  AutoAttendance.closePast tz today s = Some (s', c) ->
  attendanceHistory s' =
  (fun r => if AutoAttendance.incomplete today r
            then AutoAttendance.closeOwnDay tz r else r) <$> attendanceHistory s
  /\ attendancePercentage s' = percentageOf (attendanceHistory s').
Proof.
  unfold AutoAttendance.closePast. intros H.
  destruct (0 <? _)%nat; simplify_eq/=. done.
Qed.

Lemma pastQuery_closed today s s' c :
  AutoAttendance.closePast tz today s = Some (s', c) ->
  AutoAttendance.pastQuery today s' = false.
Proof.
  intros H. apply closePast_history in H as [Hh _].
  unfold AutoAttendance.pastQuery. rewrite Hh.
  apply not_true_is_false. intros Hex.
  apply existsb_exists in Hex as (r & Hin & Hr).
  apply list_elem_of_In, list_elem_of_fmap in Hin as (r0 & -> & _).
  destruct (AutoAttendance.incomplete today r0) eqn:E.
  - by rewrite incomplete_closeOwnDay in Hr.
  - congruence.
Qed.

End SweepFacts.

(** ** C2: the backlog sweep closes a record at the cutoff of its own day *)


(** C2, as amended: for every record dated before today's local midnight whose
    status is entered or present and whose leaveTime is unset, in a document
    whose save resolves, [checkAllPastAttendance] leaves the record, at its
    place in the history, with leaveTime 18:30 local time of the record's own
    date (whenever the sweep runs) and status left; date and entryTime stay.
    A record with any other status, open or not, is after the sweep what it
    was before, at its place in the history, whatever the saves do. *)
Theorem backlog_sweep_closes_at_own_cutoff
    (tz : Z) (saveOk : N -> bool) (sendTextMessage : string -> Message -> bool)
    (now : Z) (w : World) (k : N) (s : Student) (i : nat) (r : AttendanceRecord) :
  db w !! k = Some s ->
  attendanceHistory s !! i = Some r ->
  let w' := AutoAttendance.checkAllPastAttendance tz saveOk sendTextMessage now w in
  (date r < setHours tz now 0 0 0 0 ->
   status r = Entered \/ status r = Present ->
   leaveTime r = None ->
   saveOk k = true ->
   exists s' r',
     db w' !! k = Some s'
     /\ length (attendanceHistory s') = length (attendanceHistory s)
     /\ attendanceHistory s' !! i = Some r'
     /\ leaveTime r' = Some (setHours tz (date r) 18 30 0 0)
     /\ localDay tz (setHours tz (date r) 18 30 0 0) = localDay tz (date r)
     /\ status r' = Left
     /\ date r' = date r /\ entryTime r' = entryTime r)
  /\ (status r <> Entered -> status r <> Present ->
      exists s',
        db w' !! k = Some s'
        /\ length (attendanceHistory s') = length (attendanceHistory s)
        /\ attendanceHistory s' !! i = Some r).
Proof.
  intros Hk Hi w'. split.
  - intros Hdate Hst Hleave Hsave.
    assert (Hinc : AutoAttendance.incomplete (setHours tz now 0 0 0 0) r = true).
    { unfold AutoAttendance.incomplete, enteredOrPresent, noLeaveTime.
      rewrite Hleave. apply Z.ltb_lt in Hdate. rewrite Hdate.
      by destruct Hst as [-> | ->]. }
    assert (Hq : AutoAttendance.pastQuery (setHours tz now 0 0 0 0) s = true).
    { apply existsb_exists. exists r. split; [|done].
      apply list_elem_of_In. by eapply list_elem_of_lookup_2. }
    destruct (closePast_Some tz _ _ Hq) as (closed & Hclose & _).
    unfold w'. rewrite checkAllPastAttendance_lookup, Hk, Hq.
    unfold pastUpd. rewrite Hclose, Hsave. simpl.
    eexists _, (AutoAttendance.closeOwnDay tz r).
    split; [reflexivity|]. simpl. rewrite length_fmap, list_lookup_fmap, Hi. simpl.
    rewrite Hinc. repeat split.
    apply localDay_setHours. by vm_compute.
  - intros Hne Hnp.
    assert (Hinc : AutoAttendance.incomplete (setHours tz now 0 0 0 0) r = false).
    { unfold AutoAttendance.incomplete, enteredOrPresent.
      destruct (status r); try done; by rewrite andb_false_r. }
    unfold w'. rewrite checkAllPastAttendance_lookup, Hk.
    destruct (AutoAttendance.pastQuery _ s); [|by eauto].
    unfold pastUpd.
    destruct (AutoAttendance.closePast tz _ s) as [[s1 c]|] eqn:E; [|by eauto].
    destruct (saveOk k); [|by eauto]. simpl.
    apply closePast_history in E as [Hh _].
    exists s1. split; [done|]. rewrite Hh, length_fmap, list_lookup_fmap, Hi. simpl.
    by rewrite Hinc.
Qed.

Lemma backlog_sweep_closes_at_own_cutoff_witness :
  let h := [Scenario.entry (-3) Entered None; Scenario.entry (-2) Absent None] in
  let w' := AutoAttendance.checkAllPastAttendance Scenario.colombo Scenario.resolves
              Scenario.delivered (Scenario.on 0 10 0) (Scenario.ledger h) in
  (exists s' r',
     db w' !! 1%N = Some s'
     /\ length (attendanceHistory s') = 2%nat
     /\ attendanceHistory s' !! 0%nat = Some r'
     /\ leaveTime r' = Some (Scenario.on (-3) 18 30)
     /\ localDay Scenario.colombo (Scenario.on (-3) 18 30)
        = localDay Scenario.colombo (Scenario.on (-3) 0 0)
     /\ status r' = Left
     /\ date r' = Scenario.on (-3) 0 0 /\ entryTime r' = Some (Scenario.on (-3) 8 0))
  /\ (exists s',
        db w' !! 1%N = Some s'
        /\ length (attendanceHistory s') = 2%nat
        /\ attendanceHistory s' !! 1%nat = Some (Scenario.entry (-2) Absent None)).
Proof.
  intros h w'. split.
  - apply (backlog_sweep_closes_at_own_cutoff Scenario.colombo Scenario.resolves
             Scenario.delivered (Scenario.on 0 10 0) (Scenario.ledger h) 1%N
             (Scenario.pupil h) 0%nat (Scenario.entry (-3) Entered None)).
    + vm_compute. reflexivity.
    + reflexivity.
    + vm_compute. reflexivity.
    + left. reflexivity.
    + reflexivity.
    + reflexivity.
  - apply (backlog_sweep_closes_at_own_cutoff Scenario.colombo Scenario.resolves
             Scenario.delivered (Scenario.on 0 10 0) (Scenario.ledger h) 1%N
             (Scenario.pupil h) 1%nat (Scenario.entry (-2) Absent None)).
    + vm_compute. reflexivity.
    + reflexivity.
    + discriminate.
    + discriminate.
Defined.

(** C2, as stated, fails: a record with entryTime set and leaveTime unset,
    dated three days back, whose status an override has set to absent, is
    not closed by the sweep. *)
Lemma open_record_marked_absent_stays_open :
  let r := Scenario.entry (-3) Absent None in
  let w' := AutoAttendance.checkAllPastAttendance Scenario.colombo Scenario.resolves
              Scenario.delivered (Scenario.on 0 10 0) (Scenario.ledger [r]) in
  (isSet (entryTime r) = true /\ leaveTime r = None
   /\ date r < setHours Scenario.colombo (Scenario.on 0 10 0) 0 0 0 0)
  /\ attendanceHistory <$> db w' !! 1%N = Some [r].
Proof. vm_compute. repeat split. Qed.

(** ** C7: the backlog sweep run twice *)




(** ** The store and the outbox do not depend on the notifications *)

Lemma persistAndNotify_agree saveOk send send' k student text w w' :
  ledgerAndOutbox w = ledgerAndOutbox w' ->
  ledgerAndOutbox (AutoAttendance.persistAndNotify saveOk send k student text w) =
  ledgerAndOutbox (AutoAttendance.persistAndNotify saveOk send' k student text w').
Proof.
  unfold ledgerAndOutbox, AutoAttendance.persistAndNotify. intros [= Hd Ho].
  destruct (saveOk k); simpl; [|by rewrite Hd, Ho].
  destruct (truthy (parent_telephone student)); simpl; by rewrite Hd, Ho.
Qed.

Lemma autoMarkLeaveAttendance_agree tz saveOk send send' now now' w :
  ledgerAndOutbox (AutoAttendance.autoMarkLeaveAttendance tz saveOk send now now' w) =
  ledgerAndOutbox (AutoAttendance.autoMarkLeaveAttendance tz saveOk send' now now' w).
Proof.
  unfold AutoAttendance.autoMarkLeaveAttendance.
  apply loop_agree; [|done]. intros w1 w2 ks Hw.
  unfold AutoAttendance.autoMarkStudent.
  destruct (AutoAttendance.markLeaveToday _ _ _ _); [by apply persistAndNotify_agree|].
  unfold ledgerAndOutbox in *. simpl. done.
Qed.

Lemma checkAllPastAttendance_agree tz saveOk send send' now w :
  ledgerAndOutbox (AutoAttendance.checkAllPastAttendance tz saveOk send now w) =
  ledgerAndOutbox (AutoAttendance.checkAllPastAttendance tz saveOk send' now w).
Proof.
  unfold AutoAttendance.checkAllPastAttendance.
  apply loop_agree; [|done]. intros w1 w2 ks Hw.
  unfold AutoAttendance.checkPastStudent.
  destruct (AutoAttendance.closePast _ _ _) as [[s' c]|]; [|done].
  by apply persistAndNotify_agree.
Qed.

Lemma checkPreviousDayAttendance_agree tz saveOk send send' now now' w :
  ledgerAndOutbox (AutoAttendance.checkPreviousDayAttendance tz saveOk send now now' w) =
  ledgerAndOutbox (AutoAttendance.checkPreviousDayAttendance tz saveOk send' now now' w).
Proof.
  unfold AutoAttendance.checkPreviousDayAttendance.
  pose proof (checkAllPastAttendance_agree tz saveOk send send' now w) as Hpast.
  assert (Hdb : db (AutoAttendance.checkAllPastAttendance tz saveOk send now w) =
                db (AutoAttendance.checkAllPastAttendance tz saveOk send' now w)).
  { by injection Hpast. }
  simpl. rewrite Hdb.
  apply loop_agree; [|done]. intros w1 w2 ks Hw.
  unfold AutoAttendance.previousDayStudent.
  destruct (AutoAttendance.markLeaveYesterday _ _ _ _); [|done].
  by apply persistAndNotify_agree.
Qed.

(** A record of the local day of [today], a midnight, lies in the range the
    cutoff sweep queries. *)
Lemma same_day_in_range tz now d :
  toDateString tz d = toDateString tz (setHours tz now 0 0 0 0) ->
  setHours tz now 0 0 0 0 <= d < setHours tz now 0 0 0 0 + 24 * 60 * 60 * 1000.
Proof.
  unfold toDateString. rewrite localDay_setHours by (by vm_compute).
  unfold setHours, localDay, timeOfDay. intros Hd. rewrite <- Hd.
  change (24 * 60 * 60 * 1000) with msPerDay.
  pose proof msPerDay_pos as Hpos.
  pose proof (Z.mul_div_le (d + tz) msPerDay Hpos).
  pose proof (Z.mul_succ_div_gt (d + tz) msPerDay Hpos). lia.
Qed.

Lemma markLeaveToday_query tz now leaveTime s s' :
  AutoAttendance.markLeaveToday tz (setHours tz now 0 0 0 0) leaveTime s = Some s' ->
  AutoAttendance.todayQuery (setHours tz now 0 0 0 0) s = true.
Proof.
  unfold AutoAttendance.markLeaveToday. intros H.
  destruct (findIndex _ _) as [i|] eqn:E; [|done].
  apply findIndex_Some in E as (r & Hr & Hp & _).
  apply list_elem_of_lookup_2, list_elem_of_In in Hr.
  unfold AutoAttendance.eligibleToday in Hp.
  apply andb_prop in Hp as [Hp Hleave]. apply andb_prop in Hp as [Hday Hst].
  apply bool_decide_eq_true in Hday. apply same_day_in_range in Hday.
  unfold AutoAttendance.todayQuery. repeat (apply andb_true_intro; split);
    apply existsb_exists; exists r; (split; [done|]); try done.
  - apply Z.leb_le. lia.
  - apply Z.ltb_lt. lia.
Qed.


(** ** C4: the percentage after a sweep *)

Lemma presentOrEntered_filter h :
  length (List.filter countsAsPresent h) = presentOrEntered h.
Proof.
  unfold presentOrEntered. induction h as [|r h IH]; [done|]. simpl.
  rewrite filter_cons. unfold countsAsPresent at 1.
  destruct (decide (status r = Present \/ status r = Entered)) as [Hd|Hd];
    destruct (status r); simpl; rewrite ?IH; try done;
    try (by destruct Hd); exfalso; apply Hd; auto.
Qed.


Lemma checkPreviousDayAttendance_lookup tz saveOk send now now' w k :
  let w1 := AutoAttendance.checkAllPastAttendance tz saveOk send now w in
  let yesterday := setHours tz (addDays now' (-1)) 0 0 0 0 in
  let yesterdayEnd := setHours tz yesterday 23 59 59 999 in
  db (AutoAttendance.checkPreviousDayAttendance tz saveOk send now now' w) !! k =
  match db w1 !! k with
  | Some s =>
      if AutoAttendance.yesterdayQuery yesterday yesterdayEnd s
      then Some (default s (yesterdayUpd saveOk yesterday yesterdayEnd
                              (setHours tz yesterday 18 30 0 0) k s))
      else Some s
  | None => None
  end.
Proof.
  intros w1 yesterday yesterdayEnd.
  unfold AutoAttendance.checkPreviousDayAttendance.
  apply (sweep_lookup db _ (yesterdayUpd saveOk yesterday yesterdayEnd
                              (setHours tz yesterday 18 30 0 0))).
  intros. apply previousDayStudent_db.
Qed.

Lemma alter_nonempty {A} (f : A -> A) (i : nat) (l : list A) x :
  l !! i = Some x -> alter f i l <> [].
Proof. intros H. destruct l; [done|]. by destruct i. Qed.

Lemma autoMarkLeaveAttendance_changed tz saveOk send now now' w k s' :
  db (AutoAttendance.autoMarkLeaveAttendance tz saveOk send now now' w) !! k = Some s' ->
  db w !! k = Some s' \/ (percentageCurrent s' /\ attendanceHistory s' <> []).
Proof.
  rewrite autoMarkLeaveAttendance_lookup. intros H.
  destruct (db w !! k) as [s|]; [|done].
  destruct (AutoAttendance.todayQuery _ s); [|by left].
  unfold todayUpd, AutoAttendance.markLeaveToday in H.
  destruct (findIndex _ _) as [i|] eqn:Hi; [|by left].
  destruct (saveOk k); simplify_eq/=; [right|by left].
  split; [done|]. apply findIndex_Some in Hi as (r & Hr & _).
  by eapply alter_nonempty.
Qed.

Lemma checkAllPastAttendance_changed tz saveOk send now w k s' :
  db (AutoAttendance.checkAllPastAttendance tz saveOk send now w) !! k = Some s' ->
  db w !! k = Some s' \/ (percentageCurrent s' /\ attendanceHistory s' <> []).
Proof.
  rewrite checkAllPastAttendance_lookup. intros H.
  destruct (db w !! k) as [s|]; [|done].
  destruct (AutoAttendance.pastQuery _ s) eqn:Hq; [|by left].
  unfold pastUpd in H.
  destruct (AutoAttendance.closePast tz _ s) as [[s1 c]|] eqn:E; [|by left].
  destruct (saveOk k); simplify_eq/=; [|by left].
  right. apply closePast_history in E as [Hh ?]. split; [done|].
  rewrite Hh. unfold AutoAttendance.pastQuery in Hq.
  destruct (attendanceHistory s); [done|]. done.
Qed.

Lemma checkPreviousDayAttendance_changed tz saveOk send now now' w k s' :
  db (AutoAttendance.checkPreviousDayAttendance tz saveOk send now now' w) !! k = Some s' ->
  db w !! k = Some s' \/ (percentageCurrent s' /\ attendanceHistory s' <> []).
Proof.
  rewrite checkPreviousDayAttendance_lookup. intros H.
  destruct (db (AutoAttendance.checkAllPastAttendance tz saveOk send now w) !! k)
    as [s|] eqn:E1; [|done].
  assert (Hkeep : Some s = Some s' ->
            db w !! k = Some s' \/ (percentageCurrent s' /\ attendanceHistory s' <> [])).
  { intros [= ->]. by eapply checkAllPastAttendance_changed. }
  destruct (AutoAttendance.yesterdayQuery _ _ s); [|by apply Hkeep].
  unfold yesterdayUpd, AutoAttendance.markLeaveYesterday in H.
  destruct (findIndex _ _) as [i|] eqn:Hi; [|by apply Hkeep].
  destruct (saveOk k); [|by apply Hkeep]. simplify_eq/=. right.
  split; [done|]. apply findIndex_Some in Hi as (r & Hr & _).
  by eapply alter_nonempty.
Qed.


Lemma percentageOf_nonempty h :
  h <> [] ->
  percentageOf h =
  Double.mul (Double.div (Double.ofNat (presentOrEntered h)) (Double.ofNat (length h)))
    (Double.ofNat 100).
Proof.
  intros Hh. unfold percentageOf. rewrite presentOrEntered_filter.
  destruct h; [done|]. reflexivity.
Qed.

(** C4, as amended: a student document that the cutoff sweep, the backlog
    sweep or the previous-day sweep has changed has a history that is not
    empty and holds as attendancePercentage the double
    [(count / total) * 100]: the number of its records with status present
    or entered (a record with status left is not among them) divided by the
    number of its records, rounded to a double, then multiplied by 100 and
    rounded again.  For an empty history the sweeps' formula gives 0. *)
Theorem percentage_recomputed_by_sweeps
    (tz : Z) (saveOk : N -> bool) (send : string -> Message -> bool)
    (now now' : Z) (w w' : World) (k : N) (s' : Student) :
  w' = AutoAttendance.autoMarkLeaveAttendance tz saveOk send now now' w
  \/ w' = AutoAttendance.checkAllPastAttendance tz saveOk send now w
  \/ w' = AutoAttendance.checkPreviousDayAttendance tz saveOk send now now' w ->
  db w' !! k = Some s' ->
  db w !! k <> Some s' ->
  attendanceHistory s' <> []
  /\ attendancePercentage s' =
     Double.mul
       (Double.div (Double.ofNat (presentOrEntered (attendanceHistory s')))
          (Double.ofNat (length (attendanceHistory s'))))
       (Double.ofNat 100)
  /\ percentageOf [] = Double.zero.
Proof.
  intros Hsweep Hk Hchanged.
  assert (Hcur : percentageCurrent s' /\ attendanceHistory s' <> []).
  { destruct Hsweep as [-> | [-> | ->]].
    - by destruct (autoMarkLeaveAttendance_changed _ _ _ _ _ _ _ _ Hk).
    - by destruct (checkAllPastAttendance_changed _ _ _ _ _ _ _ Hk).
    - by destruct (checkPreviousDayAttendance_changed _ _ _ _ _ _ _ _ Hk). }
  destruct Hcur as [Hcur Hne]. split; [done|]. split; [|done].
  unfold percentageCurrent in Hcur. rewrite Hcur. by apply percentageOf_nonempty.
Qed.

Lemma percentage_recomputed_by_sweeps_witness :
  let h := [Scenario.entry (-4) Entered None;
            Scenario.entry (-3) Entered None;
            Scenario.entry (-2) Left (Some (Scenario.on (-2) 15 0));
            Scenario.entry (-1) Present (Some (Scenario.on (-1) 15 0))] in
  let h' := [Scenario.entry (-4) Left (Some (Scenario.on (-4) 18 30));
             Scenario.entry (-3) Left (Some (Scenario.on (-3) 18 30));
             Scenario.entry (-2) Left (Some (Scenario.on (-2) 15 0));
             Scenario.entry (-1) Present (Some (Scenario.on (-1) 15 0))] in
  let s' := swept (Scenario.pupil h) h' (Some (Scenario.on (-3) 18 30)) in
  attendanceHistory s' <> []
  /\ attendancePercentage s' =
     Double.mul
       (Double.div (Double.ofNat (presentOrEntered (attendanceHistory s')))
          (Double.ofNat (length (attendanceHistory s'))))
       (Double.ofNat 100)
  /\ percentageOf [] = Double.zero.
Proof.
  intros h h' s'.
  apply (percentage_recomputed_by_sweeps Scenario.colombo Scenario.resolves
           Scenario.delivered (Scenario.on 0 10 0) (Scenario.on 0 10 0) (Scenario.ledger h)
           (AutoAttendance.checkAllPastAttendance Scenario.colombo Scenario.resolves
              Scenario.delivered (Scenario.on 0 10 0) (Scenario.ledger h))
           1%N s').
  - right. left. reflexivity.
  - vm_compute. reflexivity.
  - vm_compute. intros H. discriminate H.
Defined.

(** C4, as stated, fails: after the backlog sweep a history of three
    records of which one counts holds the double 33.33333333333333
    ([4691249611844266 * 2^-47]), which is neither 100 / 3 nor the double
    [100 * 1 / 3] = 33.333333333333336 that multiplying first gives. *)
Lemma percentage_of_one_in_three_is_not_100_thirds :
  let h := [Scenario.entry (-3) Entered None;
            Scenario.entry (-2) Left (Some (Scenario.on (-2) 15 0));
            Scenario.entry (-1) Present (Some (Scenario.on (-1) 15 0))] in
  let w := Scenario.ledger h in
  let w' := AutoAttendance.checkAllPastAttendance Scenario.colombo Scenario.resolves
              Scenario.delivered (Scenario.on 0 10 0) w in
  exists s',
    db w' !! 1%N = Some s' /\ db w !! 1%N <> Some s'
    /\ presentOrEntered (attendanceHistory s') = 1%nat
    /\ length (attendanceHistory s') = 3%nat
    /\ attendancePercentage s' = S754_finite false 4691249611844266 (-47)
    /\ ~ isExactly (attendancePercentage s') (100 * 1) 3
    /\ attendancePercentage s' <>
       Double.div (Double.mul (Double.ofNat 100) (Double.ofNat 1)) (Double.ofNat 3).
Proof.
  intros h w w'. eexists. split; [vm_compute; reflexivity|].
  split; [vm_compute; intros H; discriminate H|].
  split; [reflexivity|]. split; [reflexivity|]. split; [reflexivity|].
  split; vm_compute; intros H; discriminate H.
Qed.

(** ** C8: [lastAttendance] after the backlog sweep *)

(** C8, on a ledger where the code departs from it: a student with an open
    record five days back and a record of yesterday closed at 15:00 has
    lastAttendance yesterday 15:00.  The backlog sweep closes the old record
    and sets lastAttendance to 18:30 of five days back, while the latest
    leaveTime of the history is still yesterday 15:00. *)
Theorem backlog_sweep_sets_lastAttendance_back :
  let h := [Scenario.entry (-5) Entered None;
            Scenario.entry (-1) Left (Some (Scenario.on (-1) 15 0))] in
  let s := mkStudent "Nimal" "IX001" (Some "0771234567"%string) true h 1
             (percentageOf h) (Some (Scenario.on (-1) 15 0)) [] in
  let w' := AutoAttendance.checkAllPastAttendance Scenario.colombo Scenario.resolves
              Scenario.delivered (Scenario.on 0 10 0) (mkWorld {[ 1%N := s ]} [] []) in
  lastAttendance <$> db w' !! 1%N = Some (Some (Scenario.on (-5) 18 30))
  /\ (fun s' => latest (leaveTime <$> attendanceHistory s')) <$> db w' !! 1%N
     = Some (Some (Scenario.on (-1) 15 0))
  /\ Scenario.on (-5) 18 30 < Scenario.on (-1) 15 0.
Proof. vm_compute. repeat split. Qed.

(** The sorted copy starts with a record of the latest date. *)
Lemma head_sortByDateDesc (l : list AttendanceRecord) :
  l <> [] ->
  exists r, head (sortByDateDesc l) = Some r /\ r ∈ l /\ forall x, x ∈ l -> date x <= date r.
Proof.
  induction l as [|a l IH]; [done|]. intros _. simpl.
  destruct l as [|b l].
  - exists a. simpl. split; [done|]. split; [apply list_elem_of_here|].
    intros x Hx. apply list_elem_of_singleton in Hx. subst. lia.
  - destruct IH as (r & Hhead & Hin & Hmax); [done|].
    destruct (sortByDateDesc (b :: l)) as [|r0 l0] eqn:E; [done|].
    simpl in Hhead. simplify_eq. simpl.
    destruct (date r <=? date a) eqn:Hle.
    + apply Z.leb_le in Hle. exists a. split; [done|]. split; [apply list_elem_of_here|].
      intros x Hx. apply elem_of_cons in Hx as [->|Hx]; [lia|].
      specialize (Hmax x Hx). lia.
    + apply Z.leb_gt in Hle. exists r. split; [done|].
      split; [by apply list_elem_of_further|].
      intros x Hx. apply elem_of_cons in Hx as [->|Hx]; [lia|]. by apply Hmax.
Qed.

(** What the backlog sweep does assign: the cutoff of the latest day among
    the records it closes, whatever else the history holds. *)
Lemma lastAttendance_after_closePast tz today s :
  AutoAttendance.pastQuery today s = true ->
  exists s' closed r,
    AutoAttendance.closePast tz today s = Some (s', closed)
    /\ r ∈ attendanceHistory s
    /\ AutoAttendance.incomplete today r = true
    /\ (forall r', r' ∈ attendanceHistory s ->
                   AutoAttendance.incomplete today r' = true -> date r' <= date r)
    /\ lastAttendance s' = Some (setHours tz (date r) 18 30 0 0).
Proof.
  intros Hq. destruct (closePast_Some tz today s Hq) as (closed & Hclose & Hclosed).
  assert (Hne : closed <> []).
  { subst closed. apply existsb_exists in Hq as (r & Hin & Hr).
    assert (Hf : In r (List.filter (AutoAttendance.incomplete today) (attendanceHistory s)))
      by (by apply filter_In).
    destruct (List.filter _ _); [destruct Hf|done]. }
  destruct (head_sortByDateDesc closed Hne) as (rc & Hhead & Hin & Hmax).
  rewrite Hclosed in Hin. apply list_elem_of_fmap in Hin as (r & -> & Hr).
  apply list_elem_of_In, filter_In in Hr as [Hr Hinc].
  eexists _, closed, r. split; [exact Hclose|].
  split; [by apply list_elem_of_In|]. split; [done|]. split.
  - intros r' Hr' Hinc'.
    apply (Hmax (AutoAttendance.closeOwnDay tz r')).
    rewrite Hclosed. apply list_elem_of_fmap. exists r'. split; [done|].
    apply list_elem_of_In, filter_In. split; [by apply list_elem_of_In|done].
  - simpl. by rewrite Hhead.
Qed.

(** ** C5: the day of the scan path and the day of the sweep path *)

(** With a zero offset the two paths name the same day. *)
Lemma scan_day_sweep_day_utc (t : Z) (r : AttendanceRecord) :
  StudentsController.sameIsoDate (isoDate t) r =
  bool_decide (toDateString 0 (date r) = toDateString 0 t).
Proof.
  unfold StudentsController.sameIsoDate, toDateString.
  by rewrite <- !isoDate_localDay_utc.
Qed.

(** C5, on an input where the code departs from it: in Colombo at 05:00 on
    15 January the scan path computes the day 14 January (UTC) and the sweep
    path 15 January (local); for a scan at 13:00 the scan handler finds no
    record of today in a history where the cutoff sweep of that day finds
    one. *)
Theorem scan_day_differs_from_sweep_day :
  let r := mkRecord (Scenario.on 0 0 0) Entered (Some (Scenario.on 0 5 0)) None
             "Main Entrance" "scanner" in
  isoDate (Scenario.on 0 5 0) = 19736
  /\ toDateString Scenario.colombo (Scenario.on 0 5 0) = 19737
  /\ StudentsController.todayAttendanceIndex (Scenario.on 0 13 0) (Scenario.pupil [r]) = None
  /\ findIndex (AutoAttendance.eligibleToday Scenario.colombo
                  (setHours Scenario.colombo (Scenario.on 0 13 0) 0 0 0 0))
       (attendanceHistory (Scenario.pupil [r])) = Some 0%nat.
Proof. vm_compute. repeat split. Qed.

(** ** C3: the scans of one day *)

(** C3, on an input where the code departs from it: in Colombo a student
    with no record scans at 05:00 and again at 13:00 of 15 January.  The
    first scan creates the record of the day with status entered.  At the
    second scan the record has entryTime set and leaveTime unset, but the
    handler, comparing UTC dates, finds no record of today and saves
    entered once more: the record is not closed. *)
Theorem second_scan_recorded_as_entry :
  let scan t w :=
    StudentsController.markAttendance Scenario.colombo Scenario.resolves
      Scenario.notified 1%N None None None t w in
  let opened := mkRecord (Scenario.on 0 0 0) Entered (Some (Scenario.on 0 5 0)) None
                  "Main Entrance" "Unknown Device" in
  let w1 := (scan (Scenario.on 0 5 0) (Scenario.ledger [])).2 in
  let w2 := (scan (Scenario.on 0 13 0) w1).2 in
  localDay Scenario.colombo (Scenario.on 0 5 0) = localDay Scenario.colombo (Scenario.on 0 13 0)
  /\ attendanceHistory <$> db w1 !! 1%N = Some [opened]
  /\ StudentsController.statusToSave (Scenario.on 0 13 0) (Scenario.pupil [opened]) = Entered
  /\ (scan (Scenario.on 0 13 0) w1).1 = StudentsController.Recorded Entered None
  /\ attendanceHistory <$> db w2 !! 1%N = Some [opened].
Proof. vm_compute. repeat split. Qed.

(** The same at school hours: the record of the day is dated at local
    midnight, the evening before in UTC, so the scans of 09:00 and 15:00 are
    both saved as entries. *)
Example scans_at_school_hours_recorded_as_entries :
  let scan t w :=
    StudentsController.markAttendance Scenario.colombo Scenario.resolves
      Scenario.notified 1%N None None None t w in
  let w1 := (scan (Scenario.on 0 9 0) (Scenario.ledger [])).2 in
  let w2 := (scan (Scenario.on 0 15 0) w1).2 in
  (fun s => (fun r => (status r, entryTime r, leaveTime r)) <$> attendanceHistory s)
    <$> db w2 !! 1%N
  = Some [(Entered, Some (Scenario.on 0 9 0), None)].
Proof. vm_compute. reflexivity. Qed.

(** ** C9: the statuses the manual override takes *)

Lemma includes_validStatus (status : option string) :
  AttendanceController.includes AttendanceController.validStatus status = true <->
  status ∈ [Some "entered"; Some "left"; Some "present"; Some "absent"]%string.
Proof.
  unfold AttendanceController.includes, AttendanceController.validStatus.
  destruct status as [s|].
  - rewrite bool_decide_eq_true. rewrite !elem_of_cons, !elem_of_nil.
    split.
    + intros [-> | [-> | [-> | [-> | []]]]]; auto 6.
    + intros [[= ->] | [[= ->] | [[= ->] | [[= ->] | []]]]]; auto 6.
  - rewrite !elem_of_cons, elem_of_nil.
    split; [done|]. intros [? | [? | [? | [? | []]]]]; discriminate.
Qed.

(** C9, as amended: for a student that exists, [markStudentAttendance] takes
    exactly the statuses entered, left, present and absent.  Either the
    requested status is one of these four and the student is marked with it
    (the answer is 200, or 500 with the store as before when the save
    fails), or it is none of them, late for one, and the answer is the
    invalid-status error with the store as before. *)
Theorem manual_override_takes_four_statuses
    (tz : Z) (saveOk : N -> bool) (id : N) (status : option string)
    (adminId : option N) (deviceInfo scanLocation : option string)
    (now : Z) (w : World) (student : Student) :
  db w !! id = Some student ->
  let result :=
    AttendanceController.markStudentAttendance tz saveOk (Some id) status adminId
      deviceInfo scanLocation now w in
  (exists st,
     st ∈ [Entered; Left; Present; Absent]
     /\ status = Some (status_name st)
     /\ result =
        if saveOk id then
          (AttendanceController.Success,
           mkWorld (<[id := StudentModel.markAttendance tz st adminId
                              (orElse deviceInfo "Manual entry by admin")
                              (orElse scanLocation "Admin Portal") now student]> (db w))
             (outbox w) (logs w))
        else (AttendanceController.Failed, w))
  \/ ((forall st, st ∈ [Entered; Left; Present; Absent] -> status <> Some (status_name st))
      /\ result = (AttendanceController.InvalidStatus, w)).
Proof.
  intros Hk result. unfold result, AttendanceController.markStudentAttendance.
  rewrite Hk.
  destruct (AttendanceController.includes AttendanceController.validStatus status) eqn:E.
  - left. apply includes_validStatus in E.
    rewrite !elem_of_cons, elem_of_nil in E.
    destruct E as [-> | [-> | [-> | [-> | []]]]]; simpl.
    + exists Entered. split; [set_solver|]. split; [done|]. by destruct (saveOk id).
    + exists Left. split; [set_solver|]. split; [done|]. by destruct (saveOk id).
    + exists Present. split; [set_solver|]. split; [done|]. by destruct (saveOk id).
    + exists Absent. split; [set_solver|]. split; [done|]. by destruct (saveOk id).
  - right. split; [|done]. intros st Hst Hs.
    assert (Hin : AttendanceController.includes AttendanceController.validStatus status = true);
      [|congruence].
    apply includes_validStatus. subst status.
    rewrite !elem_of_cons, elem_of_nil in Hst.
    destruct Hst as [-> | [-> | [-> | [-> | []]]]]; simpl; set_solver.
Qed.

Lemma manual_override_takes_four_statuses_witness :
  let w := Scenario.ledger [] in
  let result :=
    AttendanceController.markStudentAttendance Scenario.colombo Scenario.resolves
      (Some 1%N) (Some "absent"%string) None None None (Scenario.on 0 9 0) w in
  (exists st,
     st ∈ [Entered; Left; Present; Absent]
     /\ Some "absent"%string = Some (status_name st)
     /\ result =
        if Scenario.resolves 1%N then
          (AttendanceController.Success,
           mkWorld (<[1%N := StudentModel.markAttendance Scenario.colombo st None
                               (orElse None "Manual entry by admin")
                               (orElse None "Admin Portal") (Scenario.on 0 9 0)
                               (Scenario.pupil [])]> (db w))
             (outbox w) (logs w))
        else (AttendanceController.Failed, w))
  \/ ((forall st, st ∈ [Entered; Left; Present; Absent] ->
                  Some "absent"%string <> Some (status_name st))
      /\ result = (AttendanceController.InvalidStatus, w)).
Proof.
  apply (manual_override_takes_four_statuses Scenario.colombo Scenario.resolves 1%N
           (Some "absent"%string) None None None (Scenario.on 0 9 0)
           (Scenario.ledger []) (Scenario.pupil [])).
  vm_compute. reflexivity.
Defined.

(** C9, as stated, fails: late is a status of the records, and the manual
    override refuses it. *)
Lemma manual_override_refuses_late :
  AttendanceController.status_of_name "late" = Some Late
  /\ AttendanceController.markStudentAttendance Scenario.colombo Scenario.resolves
       (Some 1%N) (Some "late"%string) None None None (Scenario.on 0 9 0)
       (Scenario.ledger [])
     = (AttendanceController.InvalidStatus, Scenario.ledger []).
Proof. split; reflexivity. Qed.

(** ** C10: students without a record in the day views *)

Lemma elem_of_insertByIndexNumber a l x :
  x ∈ AttendanceController.insertByIndexNumber a l <-> x = a \/ x ∈ l.
Proof.
  induction l as [|b l IH]; simpl.
  - rewrite list_elem_of_singleton, elem_of_nil. tauto.
  - destruct (String.leb _ _).
    + by rewrite elem_of_cons.
    + rewrite !elem_of_cons, IH. tauto.
Qed.

Lemma elem_of_sortByIndexNumber l x :
  x ∈ AttendanceController.sortByIndexNumber l <-> x ∈ l.
Proof.
  unfold AttendanceController.sortByIndexNumber.
  induction l as [|a l IH]; simpl; [done|].
  by rewrite elem_of_insertByIndexNumber, elem_of_cons, IH.
Qed.

Lemma filter_none {A} (p : A -> bool) (l : list A) :
  (forall x, x ∈ l -> p x = false) -> List.filter p l = [].
Proof.
  induction l as [|a l IH]; intros H; simpl; [done|].
  rewrite (H a) by apply list_elem_of_here.
  apply IH. intros x Hx. apply H. by apply list_elem_of_further.
Qed.

(** An entry of the map comes from a student of the list. *)
Lemma studentAttendanceMap_Some today endOfDay l k a :
  AttendanceController.studentAttendanceMap today endOfDay l !! k = Some a ->
  exists s, (k, s) ∈ l /\ AttendanceController.attendanceOf today endOfDay s = Some a.
Proof.
  unfold AttendanceController.studentAttendanceMap.
  assert (Hgen : forall (m0 : gmap N AttendanceController.Attendance),
    foldl (fun m ks =>
             match AttendanceController.attendanceOf today endOfDay ks.2 with
             | Some a => <[ks.1 := a]> m
             | None => m
             end) m0 l !! k = Some a ->
    m0 !! k = Some a \/
    exists s, (k, s) ∈ l /\ AttendanceController.attendanceOf today endOfDay s = Some a).
  { induction l as [|[k0 s0] l IH]; intros m0 H; simpl in *; [by left|].
    destruct (IH _ H) as [Hm | (s & Hin & Hs)].
    - destruct (AttendanceController.attendanceOf today endOfDay s0) as [a0|] eqn:E;
        [|by left].
      destruct (decide (k0 = k)) as [->|Hne].
      + rewrite lookup_insert_eq in Hm. simplify_eq.
        right. exists s0. split; [apply list_elem_of_here|done].
      + rewrite lookup_insert_ne in Hm by done. by left.
    - right. exists s. split; [by apply list_elem_of_further|done]. }
  intros H. destruct (Hgen ∅ H) as [Hm|]; [|done].
  by rewrite lookup_empty in Hm.
Qed.

(** C10, as amended: today's view lists every active student none of whose
    records is dated within today's UTC day with status absent and both
    times null; the view by date lists only students that have a record
    within the queried day, and no row for a student that has none. *)
Theorem day_views_and_students_without_record
    (tz : Z) (now d : Z) (w : World) (k : N) (s : Student) :
  db w !! k = Some s ->
  (active s = true ->
   (forall r, r ∈ attendanceHistory s ->
      ~ (setUTCHours now 0 0 0 0 <= date r
         <= setUTCHours (setUTCHours now 0 0 0 0) 23 59 59 999)) ->
   AttendanceController.mkRow k Absent None None
     ∈ AttendanceController.getScannedStudentsToday now w)
  /\ ((forall r, r ∈ attendanceHistory s ->
         ~ (startOfDay tz d <= date r < endOfDay tz d)) ->
      forall row, row ∈ AttendanceController.getAttendanceByDate tz d w ->
                  AttendanceController.row_id row <> k).
Proof.
  intros Hk. split.
  - intros Hact Hnone. unfold AttendanceController.getScannedStudentsToday.
    set (today := setUTCHours now 0 0 0 0).
    set (endOfDay := setUTCHours today 23 59 59 999).
    set (all := AttendanceController.sortByIndexNumber (Student_find active (db w))).
    assert (Hin : (k, s) ∈ all).
    { apply elem_of_sortByIndexNumber, Student_find_spec. done. }
    assert (Hatt : AttendanceController.attendanceOf today endOfDay s = None).
    { unfold AttendanceController.attendanceOf. rewrite filter_none; [done|].
      intros r Hr. unfold AttendanceController.inUtcDay.
      apply not_true_is_false. intros Hb. apply andb_prop in Hb as [H1 H2].
      apply (Hnone r Hr). split; [by apply Z.leb_le|by apply Z.leb_le]. }
    assert (Hm : AttendanceController.studentAttendanceMap today endOfDay all !! k = None).
    { destruct (AttendanceController.studentAttendanceMap today endOfDay all !! k)
        as [a|] eqn:E; [|done].
      apply studentAttendanceMap_Some in E as (s2 & Hs2 & Ha).
      apply elem_of_sortByIndexNumber, Student_find_spec in Hs2 as [Hs2 _].
      rewrite Hk in Hs2. by simplify_eq. }
    apply list_elem_of_fmap. exists (k, s). split; [|done].
    unfold AttendanceController.todayRow. simpl. by rewrite Hm.
  - intros Hnone row Hrow Hid.
    unfold AttendanceController.getAttendanceByDate, AttendanceController.getDateRange in Hrow.
    apply list_elem_of_fmap in Hrow as ([k2 s2] & -> & Hin).
    simpl in Hid. subst k2.
    apply Student_find_spec in Hin as [Hs2 Hq].
    rewrite Hk in Hs2. simplify_eq.
    unfold AttendanceController.dateQuery in Hq.
    apply existsb_exists in Hq as (r & Hr & Hb).
    apply andb_prop in Hb as [H1 H2].
    apply (Hnone r); [by apply list_elem_of_In|].
    split; [by apply Z.leb_le|by apply Z.ltb_lt].
Qed.

Lemma day_views_and_students_without_record_witness :
  let w := mkWorld (<[2%N := Scenario.pupil [Scenario.entry (-1) Entered None]]>
                      (db (Scenario.ledger [Scenario.entry 0 Entered None]))) [] [] in
  AttendanceController.mkRow 2%N Absent None None
    ∈ AttendanceController.getScannedStudentsToday (Scenario.on 0 10 0) w
  /\ forall row,
       row ∈ AttendanceController.getAttendanceByDate Scenario.colombo
               (Scenario.on 0 5 30) w ->
       AttendanceController.row_id row <> 2%N.
Proof.
  intros w.
  destruct (day_views_and_students_without_record Scenario.colombo (Scenario.on 0 10 0)
              (Scenario.on 0 5 30) w 2%N (Scenario.pupil [Scenario.entry (-1) Entered None]))
    as [Htoday Hdate].
  - vm_compute. reflexivity.
  - split.
    + apply Htoday; [reflexivity|].
      intros r Hr. apply list_elem_of_singleton in Hr. subst r.
      vm_compute. intros [H _]. apply H. reflexivity.
    + apply Hdate.
      intros r Hr. apply list_elem_of_singleton in Hr. subst r.
      vm_compute. intros [H _]. apply H. reflexivity.
Defined.

(** C10, as stated, fails for the view by date: of two students, one with a
    record on 15 January and one without, the view of that date has a row
    for the first only. *)
Lemma view_by_date_omits_student_without_record :
  let w := mkWorld (<[2%N := Scenario.pupil []]>
                      (db (Scenario.ledger [Scenario.entry 0 Entered None]))) [] [] in
  (active <$> db w !! 2%N = Some true /\ attendanceHistory <$> db w !! 2%N = Some [])
  /\ AttendanceController.getAttendanceByDate Scenario.colombo (Scenario.on 0 5 30) w
     = [AttendanceController.mkRow 1%N Entered (Some (Scenario.on 0 8 0)) None].
Proof. vm_compute. repeat split. Qed.

(** ** C1: one record for each day *)

Lemma fmap_alter_same {A B} (g : A -> B) (f : A -> A) (i : nat) (l : list A) :
  (forall x, g (f x) = g x) -> g <$> alter f i l = g <$> l.
Proof.
  intros Hg. revert i. induction l as [|a l IH]; intros [|i]; csimpl; try done.
  - by rewrite Hg.
  - by rewrite IH.
Qed.

Lemma fmap_insert_same {A B} (g : A -> B) (i : nat) (x y : A) (l : list A) :
  l !! i = Some x -> g y = g x -> g <$> <[i := y]> l = g <$> l.
Proof.
  intros Hl Hg. rewrite list_fmap_insert, Hg.
  apply list_insert_id. by rewrite list_lookup_fmap, Hl.
Qed.

Lemma date_applyStatus st now r : date (StudentModel.applyStatus st now r) = date r.
Proof. by destruct st. Qed.

(** The method of the model keeps the days of the records it finds, and
    adds the day of [now] only when no record has it. *)
Lemma markAttendance_days tz st adminId deviceInfo scanLocation now s :
  let s' := StudentModel.markAttendance tz st adminId deviceInfo scanLocation now s in
  match list_find (fun r => StudentModel.onDay tz now r) (attendanceHistory s) with
  | None =>
      attendanceHistory s' =
        attendanceHistory s ++ [StudentModel.newRecord tz st now deviceInfo scanLocation]
      /\ localDay tz now ∉ daysOf tz s
  | Some (i, r0) =>
      attendanceHistory s !! i = Some r0
      /\ localDay tz (date r0) = localDay tz now
      /\ attendanceHistory s' = <[i := StudentModel.applyStatus st now r0]> (attendanceHistory s)
  end.
Proof.
  unfold StudentModel.markAttendance.
  destruct (list_find _ _) as [[i r0]|] eqn:E; simpl.
  - apply list_find_Some in E as (Hi & Hday & _).
    unfold StudentModel.onDay in Hday. apply Is_true_true, bool_decide_eq_true in Hday.
    done.
  - split; [done|]. rewrite list_find_None, Forall_forall in E.
    unfold daysOf. intros Hin. apply list_elem_of_fmap in Hin as (r & Hr & Hin).
    apply (E r Hin). unfold StudentModel.onDay. apply Is_true_true, bool_decide_eq_true.
    by simpl in Hr.
Qed.

Lemma markAttendance_oneRecordPerDay tz st adminId deviceInfo scanLocation now s :
  oneRecordPerDay tz s ->
  oneRecordPerDay tz (StudentModel.markAttendance tz st adminId deviceInfo scanLocation now s).
Proof.
  unfold oneRecordPerDay. intros Hinv.
  pose proof (markAttendance_days tz st adminId deviceInfo scanLocation now s) as H.
  simpl in H. destruct (list_find _ _) as [[i r0]|].
  - destruct H as (Hi & _ & Hh). unfold daysOf. rewrite Hh.
    rewrite (fmap_insert_same _ i r0); [done|done|].
    simpl. by rewrite date_applyStatus.
  - destruct H as (Hh & Hfresh). unfold daysOf. rewrite Hh, fmap_app. simpl.
    rewrite localDay_setHours by (by vm_compute).
    apply NoDup_app. split; [done|]. split; [|apply NoDup_singleton].
    intros x Hx Hx'. apply list_elem_of_singleton in Hx'. subst x. by apply Hfresh.
Qed.

Lemma daysOf_swept_alter tz s l i last :
  daysOf tz (swept s (alter (set_leave l) i (attendanceHistory s)) last) = daysOf tz s.
Proof. unfold daysOf. simpl. by apply fmap_alter_same. Qed.

Lemma pastUpd_days tz saveOk today k s s' :
  pastUpd tz saveOk today k s = Some s' -> daysOf tz s' = daysOf tz s.
Proof.
  unfold pastUpd. intros H.
  destruct (AutoAttendance.closePast tz today s) as [[s1 c]|] eqn:E; [|done].
  destruct (saveOk k); simplify_eq.
  apply closePast_history in E as [Hh _]. unfold daysOf. rewrite Hh.
  rewrite <- list_fmap_compose. apply list_fmap_ext. intros j r _. simpl.
  by destruct (AutoAttendance.incomplete today r).
Qed.

Lemma todayUpd_days tz saveOk today leaveTime k s s' :
  todayUpd tz saveOk today leaveTime k s = Some s' -> daysOf tz s' = daysOf tz s.
Proof.
  unfold todayUpd, AutoAttendance.markLeaveToday. intros H.
  destruct (findIndex _ _); [|done].
  destruct (saveOk k); simplify_eq. apply daysOf_swept_alter.
Qed.

Lemma yesterdayUpd_days tz saveOk yesterday yesterdayEnd leaveTime k s s' :
  yesterdayUpd saveOk yesterday yesterdayEnd leaveTime k s = Some s' ->
  daysOf tz s' = daysOf tz s.
Proof.
  unfold yesterdayUpd, AutoAttendance.markLeaveYesterday. intros H.
  destruct (findIndex _ _); [|done].
  destruct (saveOk k); simplify_eq. apply daysOf_swept_alter.
Qed.

Lemma sweep_preserves {S : Type} (store : S -> gmap N Student)
    (step : S -> N * Student -> S) (upd : N -> Student -> option Student)
    (q : Student -> bool) (P : Student -> Prop) (w : S) :
  (forall w ks, store (step w ks) =
                match upd ks.1 ks.2 with
                | Some s' => <[ks.1 := s']> (store w)
                | None => store w
                end) ->
  (forall k s s', upd k s = Some s' -> P s -> P s') ->
  (forall k s, store w !! k = Some s -> P s) ->
  forall k s, store (foldl step w (Student_find q (store w))) !! k = Some s -> P s.
Proof.
  intros Hstep Hupd Hinv k s'. rewrite (sweep_lookup store step upd Hstep).
  destruct (store w !! k) as [s|] eqn:Hk; [|done].
  destruct (q s); [|intros [= <-]; by eapply Hinv].
  destruct (upd k s) as [s1|] eqn:E; simpl; intros [= <-]; [|by eapply Hinv].
  eapply Hupd; [done|]. by eapply Hinv.
Qed.

Lemma checkoutStudent_db tz saveOk adminId today now acc ks :
  db (AttendanceController.checkoutStudent tz saveOk adminId today now acc ks).1.1 =
  match checkoutUpd tz saveOk adminId today now ks.1 ks.2 with
  | Some s' => <[ks.1 := s']> (db acc.1.1)
  | None => db acc.1.1
  end.
Proof.
  unfold AttendanceController.checkoutStudent, checkoutUpd.
  destruct acc as [[w processed] failed]. simpl.
  destruct (List.find _ _); [|done]. by destruct (saveOk ks.1).
Qed.

(** The store after a scan: as before, or with the student as the method of
    the model leaves it, but for the messages. *)
Lemma scan_db tz saveOk alerts id deviceInfo scanLocation userAgent now w :
  let w' := (StudentsController.markAttendance tz saveOk alerts id deviceInfo scanLocation
               userAgent now w).2 in
  w' = w \/
  exists student s',
    db w !! id = Some student
    /\ attendanceHistory s' =
       attendanceHistory
         (StudentModel.markAttendance tz (StudentsController.statusToSave now student) None
            (orElse deviceInfo (orElse userAgent "Unknown Device"))
            (orElse scanLocation "Main Entrance") now student)
    /\ db w' = <[id := s']> (db w).
Proof.
  unfold StudentsController.markAttendance.
  destruct (db w !! id) as [student|] eqn:Hk; [|by left].
  destruct (saveOk id); [|by left]. right. simpl.
  eexists student, _. split; [done|]. split; [|reflexivity].
  destruct (truthy _); [|done]. by destruct (alerts _ _ _).
Qed.

Lemma statusToSave_scan now student :
  StudentsController.statusToSave now student = Entered
  \/ StudentsController.statusToSave now student = Left.
Proof.
  unfold StudentsController.statusToSave.
  destruct (StudentsController.todayAttendanceIndex now student); [|by left].
  destruct (_ !! _) as [r|]; [|by left].
  destruct (isSet (leaveTime r)); [by left|].
  destruct (isSet (entryTime r)); [by right|by left].
Qed.

Lemma perform_preserves tz w e :
  ledgerOneRecordPerDay tz w -> ledgerOneRecordPerDay tz (perform tz w e).
Proof.
  unfold ledgerOneRecordPerDay. intros Hinv.
  assert (Hpast : forall now,
    forall k s, db (AutoAttendance.checkAllPastAttendance tz (saves e) (texts e) now w) !! k
                = Some s -> oneRecordPerDay tz s).
  { intros now. unfold AutoAttendance.checkAllPastAttendance.
    apply (sweep_preserves db _ (pastUpd tz (saves e) (setHours tz now 0 0 0 0))
             (AutoAttendance.pastQuery (setHours tz now 0 0 0 0)) (oneRecordPerDay tz) w).
    - intros. apply checkPastStudent_db.
    - intros k s s' Hu. unfold oneRecordPerDay. by rewrite (pastUpd_days _ _ _ _ _ _ Hu).
    - done. }
  unfold perform. destruct (operation e) as [id d l u|sid st a d l|later| |later|a].
  - destruct (scan_db tz (saves e) (alerts e) id d l u (clock e) w)
      as [-> | (student & s' & Hk & Hh & Hdb)]; [done|].
    intros k s Hs. rewrite Hdb in Hs.
    destruct (decide (id = k)) as [->|Hne].
    + rewrite lookup_insert_eq in Hs. simplify_eq.
      unfold oneRecordPerDay, daysOf. rewrite Hh.
      apply markAttendance_oneRecordPerDay. by eapply Hinv.
    + rewrite lookup_insert_ne in Hs by done. by eapply Hinv.
  - unfold AttendanceController.markStudentAttendance.
    destruct sid as [id|]; [|done].
    destruct (db w !! id) as [student|] eqn:Hk; [|done].
    destruct (AttendanceController.includes _ _); [|done].
    destruct (st ≫= AttendanceController.status_of_name) as [st'|]; [|done].
    destruct (saves e id); [|done]. simpl.
    intros k s Hs.
    destruct (decide (id = k)) as [->|Hne].
    + rewrite lookup_insert_eq in Hs. simplify_eq.
      apply markAttendance_oneRecordPerDay. by eapply Hinv.
    + rewrite lookup_insert_ne in Hs by done. by eapply Hinv.
  - unfold AutoAttendance.autoMarkLeaveAttendance.
    apply (sweep_preserves db _
             (todayUpd tz (saves e) (setHours tz (clock e) 0 0 0 0)
                (setHours tz later 18 30 0 0))
             (AutoAttendance.todayQuery (setHours tz (clock e) 0 0 0 0))
             (oneRecordPerDay tz) w).
    + intros. apply autoMarkStudent_db.
    + intros k s s' Hu. unfold oneRecordPerDay. by rewrite (todayUpd_days _ _ _ _ _ _ _ Hu).
    + done.
  - apply Hpast.
  - unfold AutoAttendance.checkPreviousDayAttendance.
    set (yesterday := setHours tz (addDays later (-1)) 0 0 0 0).
    apply (sweep_preserves db _
             (yesterdayUpd (saves e) yesterday (setHours tz yesterday 23 59 59 999)
                (setHours tz yesterday 18 30 0 0))
             (AutoAttendance.yesterdayQuery yesterday (setHours tz yesterday 23 59 59 999))
             (oneRecordPerDay tz)
             (AutoAttendance.checkAllPastAttendance tz (saves e) (texts e) (clock e) w)).
    + intros. apply previousDayStudent_db.
    + intros k s s' Hu. unfold oneRecordPerDay.
      by rewrite (yesterdayUpd_days tz _ _ _ _ _ _ _ Hu).
    + apply Hpast.
  - unfold AttendanceController.runAutoCheckout.
    apply (sweep_preserves (fun acc : World * nat * nat => db acc.1.1) _
             (checkoutUpd tz (saves e) a (setHours tz (clock e) 0 0 0 0) (clock e))
             (AttendanceController.checkoutQuery (setHours tz (clock e) 0 0 0 0))
             (oneRecordPerDay tz) (w, 0%nat, 0%nat)).
    + intros. apply checkoutStudent_db.
    + intros k s s'. unfold checkoutUpd.
      destruct (List.find _ _); [|done]. destruct (saves e k); [|done].
      intros [= <-]. apply markAttendance_oneRecordPerDay.
    + done.
Qed.



(** The ledger the sequence above ends with: four days, four records. *)
Example ledger_after_four_days :
  let day (t : Z) (o : Operation) :=
    mkEvent o t Scenario.resolves Scenario.undelivered Scenario.notified in
  let events :=
    [day (Scenario.on 0 5 0) (Scan 1%N None None None);
     day (Scenario.on 0 13 0) (Scan 1%N None None None);
     day (Scenario.on 0 14 0) (ManualMark (Some 1%N) (Some "present"%string) None None None);
     day (Scenario.on 1 8 0) (Scan 1%N None None None);
     day (Scenario.on 2 9 0) BacklogSweep;
     day (Scenario.on 2 9 30) (Scan 1%N None None None);
     day (Scenario.on 2 18 45) (CutoffSweep (Scenario.on 2 18 45));
     day (Scenario.on 3 7 0) (PreviousDaySweep (Scenario.on 3 7 0));
     day (Scenario.on 3 8 0) (Scan 1%N None None None);
     day (Scenario.on 3 17 0) (AutoCheckout None)] in
  (fun s => (fun r => (localDay Scenario.colombo (date r), status r, leaveTime r))
              <$> attendanceHistory s)
    <$> db (foldl (perform Scenario.colombo) (Scenario.ledger []) events) !! 1%N
  = Some [(19737, Left, Some (Scenario.on 0 18 30));
          (19738, Left, Some (Scenario.on 1 18 30));
          (19739, Left, Some (Scenario.on 2 18 30));
          (19740, Left, Some (Scenario.on 3 17 0))].
Proof. vm_compute. reflexivity. Qed.

(** ** The scan handler where both day conventions agree *)

Lemma scan_saved tz saveOk alerts id deviceInfo scanLocation userAgent now w s :
  db w !! id = Some s ->
  saveOk id = true ->
  exists s',
    db (StudentsController.markAttendance tz saveOk alerts id deviceInfo scanLocation
          userAgent now w).2 !! id = Some s'
    /\ attendanceHistory s' =
       attendanceHistory
         (StudentModel.markAttendance tz (StudentsController.statusToSave now s) None
            (orElse deviceInfo (orElse userAgent "Unknown Device"))
            (orElse scanLocation "Main Entrance") now s).
Proof.
  intros Hk Hsave. unfold StudentsController.markAttendance. rewrite Hk, Hsave. simpl.
  eexists. split; [apply lookup_insert_eq|].
  destruct (truthy _); [|done]. by destruct (alerts _ _ _).
Qed.

Lemma applyStatus_scanned now r :
  StudentModel.applyStatus
    (if isSet (leaveTime r) then Entered else if isSet (entryTime r) then Left else Entered)
    now r = scanned now r.
Proof. destruct r as [d st [e|] [l|] loc dev]; reflexivity. Qed.

(** When the handler's lookup by UTC date and the model's lookup by local
    day pick the same record (or both none), a scan whose save resolves
    creates the record of the day as an entry, or rewrites it in place:
    exit after an entry, entry after an exit or on a record without times. *)
Lemma scan_state_machine tz saveOk alerts id deviceInfo scanLocation userAgent now w s :
  db w !! id = Some s ->
  saveOk id = true ->
  StudentsController.todayAttendanceIndex now s =
    findIndex (StudentModel.onDay tz now) (attendanceHistory s) ->
  exists s',
    db (StudentsController.markAttendance tz saveOk alerts id deviceInfo scanLocation
          userAgent now w).2 !! id = Some s'
    /\ match findIndex (StudentModel.onDay tz now) (attendanceHistory s) with
       | None =>
           attendanceHistory s' =
             attendanceHistory s ++
               [mkRecord (setHours tz now 0 0 0 0) Entered (Some now) None
                  (orElse scanLocation "Main Entrance")
                  (orElse deviceInfo (orElse userAgent "Unknown Device"))]
       | Some i =>
           exists r, attendanceHistory s !! i = Some r
                     /\ attendanceHistory s' = <[i := scanned now r]> (attendanceHistory s)
       end.
Proof.
  intros Hk Hsave Hagree.
  destruct (scan_saved tz saveOk alerts id deviceInfo scanLocation userAgent now w s Hk Hsave)
    as (s' & Hs' & Hh).
  exists s'. split; [done|]. rewrite Hh.
  pose proof (markAttendance_days tz (StudentsController.statusToSave now s) None
                (orElse deviceInfo (orElse userAgent "Unknown Device"))
                (orElse scanLocation "Main Entrance") now s) as Hm.
  simpl in Hm. unfold StudentsController.statusToSave in *. rewrite Hagree in *.
  unfold findIndex in *.
  destruct (list_find (fun r => StudentModel.onDay tz now r) (attendanceHistory s))
    as [[i r0]|]; simpl in *.
  - destruct Hm as (Hi & _ & Hm). exists r0. split; [done|].
    rewrite Hi in Hm |- *. by rewrite Hm, applyStatus_scanned.
  - by destruct Hm as [-> _].
Qed.

(** On a server whose zone is UTC the two lookups always agree. *)
Lemma lookups_agree_utc now s :
  StudentsController.todayAttendanceIndex now s =
    findIndex (StudentModel.onDay 0 now) (attendanceHistory s).
Proof.
  unfold StudentsController.todayAttendanceIndex, findIndex. f_equal.
  apply list_find_ext. intros r.
  unfold StudentsController.sameIsoDate, StudentModel.onDay.
  by rewrite <- !isoDate_localDay_utc.
Qed.

(** * Further properties of the sources *)

(** ** services/whatsapp.service.js: phone numbers *)

Lemma removeNonDigits_allDigits s : allDigits (WhatsApp.removeNonDigits s) = true.
Proof.
  induction s as [|c s IH]; simpl; [done|].
  destruct (WhatsApp.isDigit c) eqn:E; simpl; [by rewrite E|done].
Qed.

Lemma removeNonDigits_id s : allDigits s = true -> WhatsApp.removeNonDigits s = s.
Proof.
  induction s as [|c s IH]; simpl; [done|]. intros H.
  apply andb_prop in H as [-> H]. by rewrite IH.
Qed.

Lemma removeNonDigits_append s t :
  WhatsApp.removeNonDigits (String.append s t)
  = String.append (WhatsApp.removeNonDigits s) (WhatsApp.removeNonDigits t).
Proof.
  induction s as [|c s IH]; simpl; [done|].
  destruct (WhatsApp.isDigit c); simpl; by rewrite IH.
Qed.

Lemma prefix_cons a s b t :
  String.prefix (String a s) (String b t)
  = if Ascii.ascii_dec a b then String.prefix s t else false.
Proof. reflexivity. Qed.

Lemma prefix_empty s : String.prefix "" s = true.
Proof. by destruct s. Qed.

Lemma prefix_94 d : String.prefix "94" (String.append "94" d) = true.
Proof.
  change (String.append "94" d) with (String "9"%char (String "4"%char d)).
  rewrite !prefix_cons.
  destruct (Ascii.ascii_dec "9"%char "9"%char); [|done].
  destruct (Ascii.ascii_dec "4"%char "4"%char); [by destruct d|done].
Qed.

Lemma prefix_0_inv d :
  String.prefix "0" d = true -> exists d', d = String.append "0" d'.
Proof.
  destruct d as [|c d']; [done|]. rewrite prefix_cons.
  destruct (Ascii.ascii_dec "0"%char c) as [<-|]; [|done]. intros _. by exists d'.
Qed.

Lemma prefix_94_not_0 d : String.prefix "94" d = true -> String.prefix "0" d = false.
Proof.
  destruct d as [|c d]; [done|]. rewrite !prefix_cons.
  destruct (Ascii.ascii_dec "9"%char c) as [<-|]; [|done]. intros _.
  by destruct (Ascii.ascii_dec "0"%char "9"%char).
Qed.

(** The result in terms of the digits of the text. *)
Lemma formatPhoneNumber_cases p :
  let d := WhatsApp.removeNonDigits p in
  (exists d', d = String.append "0" d' /\ WhatsApp.formatPhoneNumber p = String.append "94" d')
  \/ (String.prefix "94" d = true /\ WhatsApp.formatPhoneNumber p = d)
  \/ (String.prefix "0" d = false /\ String.prefix "94" d = false
      /\ WhatsApp.formatPhoneNumber p = String.append "94" d).
Proof.
  intros d. unfold WhatsApp.formatPhoneNumber. fold d. clearbody d.
  destruct (String.prefix "0" d) eqn:E0.
  - left. destruct (prefix_0_inv d E0) as (d' & ->). exists d'. split; [done|].
    change (WhatsApp.substring1 (String.append "0" d')) with d'.
    by rewrite prefix_94.
  - destruct (String.prefix "94" d) eqn:E94.
    + right. left. done.
    + right. right. done.
Qed.

(** X1: whatever text it is given, [formatPhoneNumber] answers with digits
    only, beginning with the country code 94, and formatting its own answer
    again changes nothing. *)
Theorem formatPhoneNumber_normal_form (phoneNumber : string) :
  let r := WhatsApp.formatPhoneNumber phoneNumber in
  allDigits r = true
  /\ String.prefix "94" r = true
  /\ WhatsApp.formatPhoneNumber r = r.
Proof.
  intros r.
  assert (Hd : allDigits (WhatsApp.removeNonDigits phoneNumber) = true)
    by apply removeNonDigits_allDigits.
  assert (H : allDigits r = true /\ String.prefix "94" r = true).
  { unfold r.
    destruct (formatPhoneNumber_cases phoneNumber)
      as [(d' & Hd' & ->) | [(H94 & ->) | (_ & _ & ->)]].
    - rewrite Hd' in Hd. split; [exact Hd|apply prefix_94].
    - done.
    - split; [exact Hd|apply prefix_94]. }
  destruct H as [Hall H94]. split; [done|]. split; [done|].
  unfold WhatsApp.formatPhoneNumber.
  rewrite (removeNonDigits_id r Hall), (prefix_94_not_0 r H94), H94. done.
Qed.

(** X2: the punctuation of a number does not matter, and a number written
    the local way, with a leading 0, and the same number written with +94
    are formatted alike: 94 followed by the digits that come after. *)
Theorem formatPhoneNumber_local_and_international (rest phoneNumber : string) :
  WhatsApp.formatPhoneNumber (String.append "0" rest)
  = String.append "94" (WhatsApp.removeNonDigits rest)
  /\ WhatsApp.formatPhoneNumber (String.append "+94" rest)
     = String.append "94" (WhatsApp.removeNonDigits rest)
  /\ WhatsApp.formatPhoneNumber (WhatsApp.removeNonDigits phoneNumber)
     = WhatsApp.formatPhoneNumber phoneNumber.
Proof.
  assert (Hrd : forall t, WhatsApp.removeNonDigits (WhatsApp.removeNonDigits t)
                          = WhatsApp.removeNonDigits t).
  { intros t. apply removeNonDigits_id, removeNonDigits_allDigits. }
  split; [|split].
  - destruct (formatPhoneNumber_cases (String.append "0" rest))
      as [(d' & Hd' & ->) | [(H94 & _) | (H0 & _)]].
    + change (WhatsApp.removeNonDigits (String.append "0" rest))
        with (String "0"%char (WhatsApp.removeNonDigits rest)) in Hd'.
      change (String.append "0" d') with (String "0"%char d') in Hd'.
      by injection Hd' as <-.
    + apply prefix_94_not_0 in H94.
      change (WhatsApp.removeNonDigits (String.append "0" rest))
        with (String "0"%char (WhatsApp.removeNonDigits rest)) in H94.
      rewrite prefix_cons, prefix_empty in H94.
      by destruct (Ascii.ascii_dec "0"%char "0"%char).
    + change (WhatsApp.removeNonDigits (String.append "0" rest))
        with (String "0"%char (WhatsApp.removeNonDigits rest)) in H0.
      rewrite prefix_cons, prefix_empty in H0.
      by destruct (Ascii.ascii_dec "0"%char "0"%char).
  - destruct (formatPhoneNumber_cases (String.append "+94" rest))
      as [(d' & Hd' & _) | [(_ & ->) | (_ & H94 & _)]].
    + change (WhatsApp.removeNonDigits (String.append "+94" rest))
        with (String "9"%char (String "4"%char (WhatsApp.removeNonDigits rest))) in Hd'.
      change (String.append "0" d') with (String "0"%char d') in Hd'.
      by injection Hd'.
    + done.
    + change (WhatsApp.removeNonDigits (String.append "+94" rest))
        with (String.append "94" (WhatsApp.removeNonDigits rest)) in H94.
      by rewrite prefix_94 in H94.
  - unfold WhatsApp.formatPhoneNumber. by rewrite Hrd.
Qed.

(** ** services/whatsapp.service.js: sending *)

Lemma formatPhoneNumber_nonempty p : WhatsApp.formatPhoneNumber p <> EmptyString.
Proof.
  destruct (formatPhoneNumber_cases p) as [(d' & _ & ->) | [(H94 & ->) | (_ & _ & ->)]];
    [done| |done].
  by destruct (WhatsApp.removeNonDigits p).
Qed.

(** X3: [sendTextMessage] refuses no text as a phone number.  When the
    module is not ready it answers CLIENT_NOT_READY; otherwise it always
    asks the client, for the chat of the formatted number, and its answer
    is the client's: the code INVALID_PHONE never comes, and GENERAL_ERROR
    only when the client rejects with a value that has no message text. *)
Theorem sendTextMessage_answer
    (client : string -> string -> WhatsApp.ClientReply) (now : Z)
    (phoneNumber message : string) (st : WhatsApp.State) :
  (WhatsApp.sendTextMessage client now phoneNumber message st).1 =
  if WhatsApp.isClientReady st then
    match client (String.append (WhatsApp.formatPhoneNumber phoneNumber) "@c.us") message with
    | WhatsApp.NoInfo =>
        WhatsApp.Failure "WhatsApp client lost authentication. Please scan QR code again."
          WhatsApp.AUTH_LOST
    | WhatsApp.Sent messageId timestamp => WhatsApp.Success messageId timestamp message
    | WhatsApp.Rejects errorMessage =>
        if WhatsApp.includes "wid error: invalid wid" errorMessage
        then WhatsApp.Failure
               "WhatsApp client needs re-authentication. Please scan QR code again."
               WhatsApp.INVALID_WID
        else WhatsApp.Failure errorMessage WhatsApp.SEND_ERROR
    | WhatsApp.RejectsOddly typeError => WhatsApp.Failure typeError WhatsApp.GENERAL_ERROR
    end
  else
    WhatsApp.Failure "WhatsApp client not ready. Please scan QR code to connect."
      WhatsApp.CLIENT_NOT_READY.
Proof.
  unfold WhatsApp.sendTextMessage. cbn [WhatsApp.withStats WhatsApp.isClientReady].
  destruct (WhatsApp.isClientReady st); [|done]. cbn [negb].
  rewrite bool_decide_eq_false_2 by apply formatPhoneNumber_nonempty.
  destruct (client _ _) as [| |e|e]; [done|done| |done].
  by destruct (WhatsApp.includes _ e).
Qed.

Lemma addConnectionEvent_stats now e s st :
  WhatsApp.messageStats (WhatsApp.addConnectionEvent now e s st) = WhatsApp.messageStats st.
Proof. reflexivity. Qed.

Lemma addConnectionEvent_ready now e s st :
  WhatsApp.isClientReady (WhatsApp.addConnectionEvent now e s st) = WhatsApp.isClientReady st.
Proof. reflexivity. Qed.

(** The counters after a send, by its answer. *)
Lemma sendTextMessage_stats client now phoneNumber message st :
  let r := (WhatsApp.sendTextMessage client now phoneNumber message st).1 in
  let stats := WhatsApp.messageStats st in
  WhatsApp.messageStats (WhatsApp.sendTextMessage client now phoneNumber message st).2 =
  match r with
  | WhatsApp.Success _ _ _ =>
      WhatsApp.mkStats (WhatsApp.total stats + 1) (WhatsApp.successful stats + 1)
        (WhatsApp.failed stats) (WhatsApp.pending stats + 1 - 1)
  | WhatsApp.Failure _ code =>
      if lostAuthentication r
      then WhatsApp.mkStats (WhatsApp.total stats + 1) (WhatsApp.successful stats)
             (WhatsApp.failed stats) (WhatsApp.pending stats + 1)
      else WhatsApp.mkStats (WhatsApp.total stats + 1) (WhatsApp.successful stats)
             (WhatsApp.failed stats + 1) (WhatsApp.pending stats + 1 - 1)
  end.
Proof.
  unfold WhatsApp.sendTextMessage. cbn [WhatsApp.withStats WhatsApp.isClientReady].
  destruct (WhatsApp.isClientReady st); [|done]. cbn [negb].
  rewrite bool_decide_eq_false_2 by apply formatPhoneNumber_nonempty.
  destruct (client _ _) as [| |e|e]; [done|done| |done].
  by destruct (WhatsApp.includes _ e).
Qed.

Lemma step_stats st s :
  WhatsApp.messageStats (WhatsApp.step st s) = WhatsApp.messageStats st
  \/ exists client phoneNumber message,
       s.2 = WhatsApp.SendText client phoneNumber message
       /\ WhatsApp.step st s = (WhatsApp.sendTextMessage client s.1 phoneNumber message st).2.
Proof.
  unfold WhatsApp.step.
  destruct s.2 as [qr| | |y m|r|qr| | |y m|r| | |e x|client p m]; try by left.
  right. by exists client, p, m.
Qed.

Lemma step_balanced st s :
  statsBalanced (WhatsApp.messageStats st) ->
  statsBalanced (WhatsApp.messageStats (WhatsApp.step st s)).
Proof.
  intros Hb. destruct (step_stats st s) as [-> | (client & p & m & _ & ->)]; [done|].
  rewrite sendTextMessage_stats. unfold statsBalanced in *.
  destruct (WhatsApp.sendTextMessage client s.1 p m st).1 as [id ts msg|e code]; simpl.
  - lia.
  - destruct (lostAuthentication _); simpl; lia.
Qed.

(** X4: after any sequence of client events, resets, logouts and sends
    since the module was loaded, the counters of [messageStats] add up: total is successful plus
    failed plus pending, and none of them is negative. *)
Theorem messageStats_balanced (steps : list (Z * WhatsApp.Step)) :
  statsBalanced (WhatsApp.messageStats (foldl WhatsApp.step WhatsApp.initial steps)).
Proof.
  assert (H : forall st, statsBalanced (WhatsApp.messageStats st) ->
                         statsBalanced (WhatsApp.messageStats (foldl WhatsApp.step st steps))).
  { induction steps as [|s steps IH]; intros st Hb; simpl; [done|].
    by apply IH, step_balanced. }
  apply H. unfold statsBalanced. simpl. lia.
Qed.

Lemma step_pending st s :
  WhatsApp.pending (WhatsApp.messageStats st)
  <= WhatsApp.pending (WhatsApp.messageStats (WhatsApp.step st s)).
Proof.
  destruct (step_stats st s) as [-> | (client & p & m & _ & ->)]; [done|].
  rewrite sendTextMessage_stats.
  destruct (WhatsApp.sendTextMessage client s.1 p m st).1 as [id ts msg|e code]; simpl.
  - lia.
  - destruct (lostAuthentication _); simpl; lia.
Qed.

(** X5: a send answered AUTH_LOST or INVALID_WID leaves its message counted
    as pending, any other send leaves the count as it was, and nothing that
    happens to the module afterwards lowers the count. *)
Theorem pending_never_settles
    (client : string -> string -> WhatsApp.ClientReply) (now : Z)
    (phoneNumber message : string) (st : WhatsApp.State)
    (steps : list (Z * WhatsApp.Step)) :
  let sent := WhatsApp.sendTextMessage client now phoneNumber message st in
  WhatsApp.pending (WhatsApp.messageStats sent.2)
  = WhatsApp.pending (WhatsApp.messageStats st) + (if lostAuthentication sent.1 then 1 else 0)
  /\ WhatsApp.pending (WhatsApp.messageStats sent.2)
     <= WhatsApp.pending (WhatsApp.messageStats (foldl WhatsApp.step sent.2 steps)).
Proof.
  intros sent. split.
  - unfold sent. rewrite sendTextMessage_stats.
    destruct (WhatsApp.sendTextMessage client now phoneNumber message st).1
      as [id ts msg|e code]; simpl; [lia|].
    destruct (lostAuthentication _); simpl; lia.
  - generalize sent.2. intros st0. revert st0.
    induction steps as [|s steps IH]; intros st0; simpl; [lia|].
    etrans; [apply (step_pending st0 s)|apply IH].
Qed.

(** ** services/whatsapp.service.js: the connection history *)

Lemma addConnectionEvent_events now e s st :
  WhatsApp.connectionEvents (WhatsApp.addConnectionEvent now e s st)
  = take 50 (WhatsApp.mkConnectionEvent now e s :: WhatsApp.connectionEvents st).
Proof.
  unfold WhatsApp.addConnectionEvent. cbn [WhatsApp.connectionEvents].
  destruct (50 <? _)%nat eqn:E; [done|].
  apply Nat.ltb_ge in E. by rewrite take_ge.
Qed.

Lemma step_events st s :
  exists now e status st0,
    WhatsApp.connectionEvents (WhatsApp.step st s)
    = take 50 (WhatsApp.mkConnectionEvent now e status :: WhatsApp.connectionEvents st0)
    /\ WhatsApp.connectionEvents st0 = WhatsApp.connectionEvents st.
Proof.
  unfold WhatsApp.step. destruct s.2 as [qr| | |y m|r|qr| | |y m|r| | |e x|client p m];
    try (eexists _, _, _, _; split; [apply addConnectionEvent_events|done]).
  unfold WhatsApp.sendTextMessage. cbn [WhatsApp.withStats WhatsApp.isClientReady].
  destruct (negb _);
    [eexists _, _, _, _; split; [apply addConnectionEvent_events|done]|].
  destruct (bool_decide _);
    [eexists _, _, _, _; split; [apply addConnectionEvent_events|done]|].
  destruct (client _ _) as [| |e|e];
    [eexists _, _, _, _; split; [apply addConnectionEvent_events|done]..|
     |eexists _, _, _, _; split; [apply addConnectionEvent_events|done]].
  destruct (WhatsApp.includes _ e);
    eexists _, _, _, _; (split; [apply addConnectionEvent_events|done]).
Qed.

(** X6: the connection history never holds more than 50 events, however
    long the module runs, and [getClientState] shows at most 10 of them;
    adding an event puts it first and keeps the 49 newest of the others in
    their order. *)
Theorem connectionEvents_bounded (steps : list (Z * WhatsApp.Step))
    (now : Z) (event : string) (status : WhatsApp.EventStatus) (st : WhatsApp.State) :
  (length (WhatsApp.connectionEvents (foldl WhatsApp.step WhatsApp.initial steps)) <= 50)%nat
  /\ (length (WhatsApp.shownEvents (foldl WhatsApp.step WhatsApp.initial steps)) <= 10)%nat
  /\ WhatsApp.connectionEvents (WhatsApp.addConnectionEvent now event status st)
     = WhatsApp.mkConnectionEvent now event status :: take 49 (WhatsApp.connectionEvents st).
Proof.
  split; [|split].
  - assert (H : forall st0,
      (length (WhatsApp.connectionEvents st0) <= 50)%nat ->
      (length (WhatsApp.connectionEvents (foldl WhatsApp.step st0 steps)) <= 50)%nat).
    { induction steps as [|s steps IH]; intros st0 H0; simpl; [done|].
      apply IH. destruct (step_events st0 s) as (n & e & x & st1 & -> & _).
      rewrite length_take. lia. }
    apply H. simpl. lia.
  - unfold WhatsApp.shownEvents. rewrite length_take. lia.
  - by rewrite addConnectionEvent_events.
Qed.

(** ** services/whatsapp.service.js: a client that is not ready *)

Lemma step_stays_unready st s :
  isReadyStep s = false ->
  WhatsApp.isClientReady st = false ->
  WhatsApp.isClientReady (WhatsApp.step st s) = false.
Proof.
  unfold isReadyStep, WhatsApp.step. intros Hs Hst.
  destruct s.2 as [qr| | |y m|r|qr| | |y m|r| | |e x|client p m]; try done.
  unfold WhatsApp.sendTextMessage. cbn [WhatsApp.withStats WhatsApp.isClientReady].
  by rewrite Hst.
Qed.

Lemma steps_stay_unready st steps :
  forallb (fun s => negb (isReadyStep s)) steps = true ->
  WhatsApp.isClientReady st = false ->
  WhatsApp.isClientReady (foldl WhatsApp.step st steps) = false.
Proof.
  revert st. induction steps as [|s steps IH]; intros st Hs Hst; simpl; [done|].
  simpl in Hs. apply andb_prop in Hs as [Hs Hrest].
  apply IH; [done|]. apply step_stays_unready; [|done]. by destruct (isReadyStep s).
Qed.

Lemma lostAuthentication_unready client now phoneNumber message st :
  lostAuthentication (WhatsApp.sendTextMessage client now phoneNumber message st).1 = true ->
  WhatsApp.isClientReady (WhatsApp.sendTextMessage client now phoneNumber message st).2 = false.
Proof.
  unfold WhatsApp.sendTextMessage. cbn [WhatsApp.withStats WhatsApp.isClientReady].
  destruct (WhatsApp.isClientReady st); [|done]. cbn [negb].
  destruct (bool_decide _); [done|].
  destruct (client _ _) as [| |e|e]; [done|done| |done].
  by destruct (WhatsApp.includes _ e).
Qed.

(** X7: once a send has been answered AUTH_LOST or INVALID_WID, every later
    send is answered CLIENT_NOT_READY, without the client being asked,
    until the client reports ready again. *)
Theorem no_send_after_lost_authentication
    (client client' : string -> string -> WhatsApp.ClientReply) (now now' : Z)
    (phoneNumber message phoneNumber' message' : string) (st : WhatsApp.State)
    (steps : list (Z * WhatsApp.Step)) :
  lostAuthentication (WhatsApp.sendTextMessage client now phoneNumber message st).1 = true ->
  forallb (fun s => negb (isReadyStep s)) steps = true ->
  (WhatsApp.sendTextMessage client' now' phoneNumber' message'
     (foldl WhatsApp.step (WhatsApp.sendTextMessage client now phoneNumber message st).2
        steps)).1
  = WhatsApp.Failure "WhatsApp client not ready. Please scan QR code to connect."
      WhatsApp.CLIENT_NOT_READY.
Proof.
  intros Hlost Hsteps.
  pose proof (steps_stay_unready _ steps Hsteps
                (lostAuthentication_unready _ _ _ _ _ Hlost)) as Hunready.
  unfold WhatsApp.sendTextMessage at 1. cbn [WhatsApp.withStats WhatsApp.isClientReady].
  by rewrite Hunready.
Qed.

Lemma no_send_after_lost_authentication_witness :
  (WhatsApp.sendTextMessage Chat.delivering 30 "0712345678" "again"
     (foldl WhatsApp.step
        (WhatsApp.sendTextMessage Chat.signedOut 10 "0771234567" "hello" Chat.connected).2
        [(20, WhatsApp.Qr "qr"); (25, WhatsApp.Authenticated)])).1
  = WhatsApp.Failure "WhatsApp client not ready. Please scan QR code to connect."
      WhatsApp.CLIENT_NOT_READY.
Proof.
  apply (no_send_after_lost_authentication Chat.signedOut Chat.delivering 10 30
           "0771234567" "hello" "0712345678" "again" Chat.connected
           [(20, WhatsApp.Qr "qr"); (25, WhatsApp.Authenticated)]).
  - reflexivity.
  - reflexivity.
Defined.

(** ** services/whatsapp.service.js: bulk sending *)

Lemma bulkLoop_accounts client clock between n phoneNumbers message results st :
  let out := (WhatsApp.bulkLoop client clock between n phoneNumbers message results st).1 in
  (WhatsApp.successfulSends out).*1 ++ (WhatsApp.failedSends out).*1
  ≡ₚ ((WhatsApp.successfulSends results).*1 ++ (WhatsApp.failedSends results).*1)
     ++ phoneNumbers.
Proof.
  revert n results st.
  induction phoneNumbers as [|phone rest IH]; intros n results st; simpl.
  - by rewrite app_nil_r.
  - destruct (WhatsApp.sendTextMessage (client n) (clock n) phone message st)
      as [result st'] eqn:E.
    rewrite IH. destruct result as [id ts msg|e code]; simpl.
    + rewrite fmap_app. simpl.
      rewrite <- !app_assoc. apply Permutation_app_head. simpl.
      apply Permutation_middle.
    + rewrite fmap_app. simpl. rewrite <- !app_assoc. done.
Qed.

(** X8: [sendBulkMessages] accounts for every number it is given: each
    ends, once for each time it is listed, either among the successful sends
    or among the failed ones, and the summary counts add up to the total,
    also when other events reach the module while it waits for the
    client. *)
Theorem sendBulkMessages_accounts_for_all
    (client : nat -> string -> string -> WhatsApp.ClientReply) (clock : nat -> Z)
    (between : nat -> list (Z * WhatsApp.Step))
    (phoneNumbers : list string) (message : string) (st : WhatsApp.State) :
  let out := WhatsApp.sendBulkMessages client clock between phoneNumbers message st in
  WhatsApp.sum_total out.1.1 = length phoneNumbers
  /\ (WhatsApp.sum_successful out.1.1 + WhatsApp.sum_failed out.1.1)%nat
     = WhatsApp.sum_total out.1.1
  /\ (WhatsApp.successfulSends out.1.2).*1 ++ (WhatsApp.failedSends out.1.2).*1
     ≡ₚ phoneNumbers.
Proof.
  unfold WhatsApp.sendBulkMessages.
  pose proof (bulkLoop_accounts client clock between 0 phoneNumbers message
                (WhatsApp.mkBulk [] []) st) as H.
  destruct (WhatsApp.bulkLoop _ _ _ _ _ _ _ _) as [results st'].
  simpl in *. split; [done|]. split; [|done].
  apply Permutation_length in H. rewrite length_app, !length_fmap in H. done.
Qed.

Lemma sendTextMessage_unready client now phoneNumber message st :
  WhatsApp.isClientReady st = false ->
  (WhatsApp.sendTextMessage client now phoneNumber message st).1
  = WhatsApp.Failure "WhatsApp client not ready. Please scan QR code to connect."
      WhatsApp.CLIENT_NOT_READY
  /\ WhatsApp.isClientReady (WhatsApp.sendTextMessage client now phoneNumber message st).2
     = false.
Proof.
  intros Hst. unfold WhatsApp.sendTextMessage.
  cbn [WhatsApp.withStats WhatsApp.isClientReady]. by rewrite Hst.
Qed.

Lemma bulkLoop_unready client clock between n phoneNumbers message results st :
  (forall i, forallb (fun s => negb (isReadyStep s)) (between i) = true) ->
  WhatsApp.isClientReady st = false ->
  let out := (WhatsApp.bulkLoop client clock between n phoneNumbers message results st).1 in
  WhatsApp.successfulSends out = WhatsApp.successfulSends results
  /\ WhatsApp.failedSends out
     = WhatsApp.failedSends results
       ++ ((fun phone =>
              (phone, "WhatsApp client not ready. Please scan QR code to connect."%string))
             <$> phoneNumbers).
Proof.
  intros Hbetween. revert n results st.
  induction phoneNumbers as [|phone rest IH]; intros n results st Hst; simpl.
  - by rewrite app_nil_r.
  - destruct (sendTextMessage_unready (client n) (clock n) phone message st Hst)
      as [Hans Hun].
    destruct (WhatsApp.sendTextMessage (client n) (clock n) phone message st)
      as [result st'] eqn:E.
    simpl in Hans, Hun. subst result.
    destruct (IH (S n)
                (WhatsApp.mkBulk (WhatsApp.successfulSends results)
                   (WhatsApp.failedSends results ++
                      [(phone, "WhatsApp client not ready. Please scan QR code to connect."%string)]))
                (foldl WhatsApp.step st' (between n))
                (steps_stay_unready st' (between n) (Hbetween n) Hun)) as [Hs Hf].
    split; [exact Hs|]. rewrite Hf. simpl. by rewrite <- app_assoc.
Qed.

(** X9: a bulk send started while the module is not ready delivers nothing:
    as long as the client does not report ready in between, every number
    is listed as failed, in the order given, with the not-ready error, and
    none as successful. *)
Theorem sendBulkMessages_unready_all_fail
    (client : nat -> string -> string -> WhatsApp.ClientReply) (clock : nat -> Z)
    (between : nat -> list (Z * WhatsApp.Step))
    (phoneNumbers : list string) (message : string) (st : WhatsApp.State) :
  WhatsApp.isClientReady st = false ->
  (forall i, forallb (fun s => negb (isReadyStep s)) (between i) = true) ->
  let out := WhatsApp.sendBulkMessages client clock between phoneNumbers message st in
  WhatsApp.successfulSends out.1.2 = []
  /\ WhatsApp.failedSends out.1.2
     = (fun phone =>
          (phone, "WhatsApp client not ready. Please scan QR code to connect."%string))
         <$> phoneNumbers
  /\ WhatsApp.sum_failed out.1.1 = length phoneNumbers.
Proof.
  intros Hst Hbetween. unfold WhatsApp.sendBulkMessages.
  pose proof (bulkLoop_unready client clock between 0 phoneNumbers message
                (WhatsApp.mkBulk [] []) st Hbetween Hst) as [Hs Hf].
  destruct (WhatsApp.bulkLoop _ _ _ _ _ _ _ _) as [results st'].
  simpl in *. rewrite Hs, Hf. split; [done|]. split; [done|]. by rewrite length_fmap.
Qed.

Lemma sendBulkMessages_unready_all_fail_witness :
  let out :=
    WhatsApp.sendBulkMessages (fun _ => Chat.delivering) (fun n => Z.of_nat n)
      (fun _ => []) ["0771234567"; "0712345678"]%string "Parents' meeting on Friday"
      WhatsApp.initial in
  WhatsApp.successfulSends out.1.2 = []
  /\ WhatsApp.failedSends out.1.2
     = (fun phone =>
          (phone, "WhatsApp client not ready. Please scan QR code to connect."%string))
         <$> ["0771234567"; "0712345678"]%string
  /\ WhatsApp.sum_failed out.1.1 = 2%nat.
Proof.
  apply (sendBulkMessages_unready_all_fail (fun _ => Chat.delivering) (fun n => Z.of_nat n)
           (fun _ => []) ["0771234567"; "0712345678"]%string "Parents' meeting on Friday"
           WhatsApp.initial).
  - reflexivity.
  - intros i. reflexivity.
Defined.

(** ** services/schedulerService.js: the daily timer *)

Lemma setHours_fixed tz t h m s ms :
  0 <= timeOfDay h m s ms < msPerDay ->
  setHours tz t h m s ms = t <-> exists k, t + tz = k * msPerDay + timeOfDay h m s ms.
Proof.
  intros Hin. unfold setHours, localDay. split.
  - intros H. exists ((t + tz) / msPerDay). lia.
  - intros [k Hk]. rewrite Hk.
    rewrite (Z.add_comm (k * msPerDay)), Z.div_add by (pose proof msPerDay_pos; lia).
    rewrite Z.div_small by exact Hin. lia.
Qed.

(** X10: when both readings of the clock fall on one local day, the timer of
    [scheduleAutoMarkAttendance] is set for the first 18:45 local time at or
    after [now]: the delay is at least 0 and less than a day (so within the
    range of [setTimeout]), the target is an 18:45, and no 18:45 lies
    between [now] and the target. *)
Theorem timer_set_for_next_1845 (tz now now' : Z) :
  localDay tz now = localDay tz now' ->
  let target := Scheduler.targetTime tz now now' in
  0 <= Scheduler.timeUntilTarget tz now now' < msPerDay
  /\ Scheduler.timeUntilTarget tz now now' < 2 ^ 31
  /\ now + Scheduler.timeUntilTarget tz now now' = target
  /\ setHours tz target 18 45 0 0 = target
  /\ forall t, now <= t < target -> setHours tz t 18 45 0 0 <> t.
Proof.
  intros Hday target.
  assert (Hin : 0 <= timeOfDay 18 45 0 0 < msPerDay) by (by vm_compute).
  assert (Htarget : exists k, target + tz = k * msPerDay + timeOfDay 18 45 0 0
                              /\ now <= target
                              /\ target - msPerDay < now).
  { subst target. unfold Scheduler.targetTime, setHours, addDays. rewrite <- Hday.
    unfold localDay. pose proof msPerDay_pos as HM.
    pose proof (Z.mul_div_le (now + tz) msPerDay HM) as Hlo.
    pose proof (Z.mul_succ_div_gt (now + tz) msPerDay HM) as Hhi.
    case_bool_decide.
    - exists ((now + tz) / msPerDay + 1). lia.
    - exists ((now + tz) / msPerDay). lia. }
  destruct Htarget as (k & Hk & Hlo & Hhi).
  assert (Hdelay : 0 <= Scheduler.timeUntilTarget tz now now' < msPerDay).
  { unfold Scheduler.timeUntilTarget. fold target. lia. }
  split; [exact Hdelay|]. split.
  { destruct Hdelay as [_ Hlt]. eapply Z.lt_trans; [exact Hlt|]. by vm_compute. }
  split; [unfold Scheduler.timeUntilTarget; fold target; lia|]. split.
  { apply setHours_fixed; [exact Hin|]. by exists k. }
  intros t Ht Hfix. apply setHours_fixed in Hfix as [j Hj]; [|exact Hin].
  change msPerDay with 86400000 in *. lia.
Qed.

Lemma timer_set_for_next_1845_witness :
  let target := Scheduler.targetTime Scenario.colombo (Scenario.on 0 19 0) (Scenario.on 0 19 0) in
  0 <= Scheduler.timeUntilTarget Scenario.colombo (Scenario.on 0 19 0) (Scenario.on 0 19 0)
    < msPerDay
  /\ Scheduler.timeUntilTarget Scenario.colombo (Scenario.on 0 19 0) (Scenario.on 0 19 0)
     < 2 ^ 31
  /\ Scenario.on 0 19 0
     + Scheduler.timeUntilTarget Scenario.colombo (Scenario.on 0 19 0) (Scenario.on 0 19 0)
     = target
  /\ setHours Scenario.colombo target 18 45 0 0 = target
  /\ forall t, Scenario.on 0 19 0 <= t < target -> setHours Scenario.colombo t 18 45 0 0 <> t.
Proof.
  apply (timer_set_for_next_1845 Scenario.colombo (Scenario.on 0 19 0) (Scenario.on 0 19 0)).
  reflexivity.
Defined.

(** X11: setting the timer again after a run.  For a run that was due at
    [target], an 18:45, and is over at [finished] on the same local day, the
    next run is due a day after [target] when [finished] is later than
    [target]; when it is not (the timer fired early, or the task ended
    within the millisecond of [target]), the next run is due at [target]
    again: the sweep runs a second time that day. *)
Theorem timer_set_again (tz target finished finished' : Z) :
  setHours tz target 18 45 0 0 = target ->
  localDay tz finished = localDay tz target ->
  localDay tz finished' = localDay tz target ->
  Scheduler.targetTime tz finished finished'
  = if bool_decide (target < finished) then target + msPerDay else target.
Proof.
  intros Htarget Hday Hday'.
  unfold Scheduler.targetTime. cbn zeta.
  assert (Hsame : setHours tz finished' 18 45 0 0 = target).
  { transitivity (setHours tz target 18 45 0 0); [|exact Htarget].
    unfold setHours. by rewrite Hday'. }
  rewrite Hsame. unfold addDays.
  repeat case_bool_decide; lia.
Qed.

Lemma timer_set_again_witness :
  Scheduler.targetTime Scenario.colombo (Scenario.on 0 18 45) (Scenario.on 0 18 45)
  = if bool_decide (Scenario.on 0 18 45 < Scenario.on 0 18 45)
    then Scenario.on 0 18 45 + msPerDay else Scenario.on 0 18 45.
Proof.
  apply (timer_set_again Scenario.colombo (Scenario.on 0 18 45)
           (Scenario.on 0 18 45) (Scenario.on 0 18 45)); reflexivity.
Defined.

(** ** controllers/students.controller.js: the scan request *)

Section ScanRequest.
Variable tz : Z.
Variable saveOk : N -> bool.
Variable sendAttendanceNotification : N -> Status -> Z -> bool.
Variable objectId : string -> option N.
Variable expectedHash : N -> string -> string.

Abbreviation scan := (QrScan.markAttendance tz saveOk sendAttendanceNotification objectId
                    expectedHash).
Abbreviation handler := (StudentsController.markAttendance tz saveOk sendAttendanceNotification).

(** What the handler does to the store: nothing, or one document
    rewritten. *)
Lemma handler_db id deviceInfo scanLocation userAgentHeader currentScanTime w :
  let out := handler id deviceInfo scanLocation userAgentHeader currentScanTime w in
  match out.1 with
  | StudentsController.Recorded _ _ =>
      outbox out.2 = outbox w /\ logs out.2 = logs w
      /\ exists student, db out.2 = <[id := student]> (db w)
  | _ => out.2 = w
  end.
Proof.
  unfold StudentsController.markAttendance.
  destruct (db w !! id) as [student|]; [|done].
  destruct (saveOk id); [|done]. simpl. eauto.
Qed.

Lemma findOne_Some indexNumber' name' w k s :
  QrScan.findOne indexNumber' name' w = Some (Some (k, s)) ->
  db w !! k = Some s
  /\ QrScan.selects QrScan.isString indexNumber' (indexNumber s) = true
  /\ QrScan.selects QrScan.isString name' (name s) = true.
Proof.
  unfold QrScan.findOne. intros H.
  destruct (QrScan.throws indexNumber' || QrScan.throws name'); [done|].
  injection H as H. apply head_Some_elem_of in H.
  apply Student_find_spec in H as [Hk Hq].
  apply andb_true_iff in Hq as [Hi Hn]. done.
Qed.

Lemma findById_Some id w k s :
  QrScan.findById objectId id w = Some (Some (k, s)) ->
  db w !! k = Some s /\ QrScan.selects (QrScan.isId objectId) id k = true.
Proof.
  unfold QrScan.findById. intros H. destruct id as [|id|holds|]; simplify_eq.
  - destruct (objectId id) as [k'|] eqn:Ek; [|done].
    destruct (db w !! k') as [s'|] eqn:Es; simplify_eq/=.
    split; [done|]. unfold QrScan.isId. by apply bool_decide_eq_true.
  - apply head_Some_elem_of, list_elem_of_In, filter_In in H as [Hin Hholds].
    apply list_elem_of_In, elem_of_map_to_list in Hin. done.
Qed.

Lemma lookup_Some studentData w k s :
  QrScan.lookup objectId studentData w = Some (Some (k, s)) ->
  db w !! k = Some s
  /\ (QrScan.selects (QrScan.isId objectId) (QrScan.qr_id studentData) k = true
      \/ (QrScan.selects QrScan.isString (QrScan.qr_indexNumber studentData) (indexNumber s)
          = true
          /\ QrScan.selects QrScan.isString (QrScan.qr_name studentData) (name s) = true)).
Proof.
  unfold QrScan.lookup. intros H.
  destruct (QrScan.given (QrScan.qr_id studentData)).
  - destruct (QrScan.findById objectId _ w) as [[[k' s']|]|] eqn:Eid; simplify_eq.
    + apply findById_Some in Eid as [? ?]. auto.
    + apply findOne_Some in H as (? & ? & ?). auto.
  - apply findOne_Some in H as (? & ? & ?). auto.
Qed.


(** X13: the hash of a QR payload is checked only when the payload carries
    one.  The payload with its [secureHash] taken out is never answered 401,
    and whenever the payload itself is not answered 401 the two are handled
    alike. *)
Theorem scan_without_hash_passes
    (studentData : QrScan.StudentData)
    (deviceInfo scanLocation userAgentHeader : option string)
    (currentScanTime : Z) (w : World) :
  let out := scan (QrScan.Data studentData)
               deviceInfo scanLocation userAgentHeader currentScanTime w in
  let out' := scan (QrScan.Data (QrScan.withoutHash studentData))
                deviceInfo scanLocation userAgentHeader currentScanTime w in
  QrScan.isInvalidAuthentication out'.1 = false
  /\ (QrScan.isInvalidAuthentication out.1 = false -> out' = out).
Proof.
  unfold QrScan.markAttendance.
  change (QrScan.lookup objectId (QrScan.withoutHash studentData))
    with (QrScan.lookup objectId studentData).
  cbn [QrScan.withoutHash QrScan.qr_indexNumber QrScan.qr_name QrScan.qr_secureHash].
  destruct (QrScan.given (QrScan.qr_indexNumber studentData)
            && QrScan.given (QrScan.qr_name studentData)); [|done].
  destruct (QrScan.lookup _ _ _) as [[[id student]|]|]; [|done..].
  destruct (handler _ _ _ _ _ _) as [r w'].
  split; [done|].
  destruct (QrScan.qr_secureHash studentData) as [|h|]; [done| |done].
  by repeat case_bool_decide.
Qed.

(** X14: a payload whose [id] names a document is not checked against the
    name and the index number it carries: with anything else that is truthy
    in their place the scan is answered the same way and marks the same
    student. *)
Theorem scan_by_id_ignores_name_and_index
    (indexNumber1 name1 indexNumber2 name2 : QrScan.Field string) (id : string)
    (secureHash : QrScan.Hash) (k : N) (student : Student)
    (deviceInfo scanLocation userAgentHeader : option string)
    (currentScanTime : Z) (w : World) :
  QrScan.given indexNumber1 = true -> QrScan.given name1 = true ->
  QrScan.given indexNumber2 = true -> QrScan.given name2 = true ->
  id <> EmptyString -> objectId id = Some k -> db w !! k = Some student ->
  scan (QrScan.Data (QrScan.mkData indexNumber1 name1 (QrScan.Text id) secureHash))
    deviceInfo scanLocation userAgentHeader currentScanTime w
  = scan (QrScan.Data (QrScan.mkData indexNumber2 name2 (QrScan.Text id) secureHash))
      deviceInfo scanLocation userAgentHeader currentScanTime w.
Proof.
  intros Hi1 Hn1 Hi2 Hn2 Hid Hk Hs.
  unfold QrScan.markAttendance, QrScan.lookup, QrScan.findById.
  cbn [QrScan.qr_indexNumber QrScan.qr_name QrScan.qr_id QrScan.qr_secureHash QrScan.given].
  rewrite Hi1, Hn1, Hi2, Hn2.
  rewrite !bool_decide_eq_false_2 by done.
  rewrite Hk, Hs. done.
Qed.

(** X15: a scan request changes at most one document of the store, and
    only one that meets what the payload asks of it: its [_id] meets the
    payload's [id], or its index number and its name meet the payload's
    [indexNumber] and [name].  For a field that is a text this is equality
    with the text; for a field that is an object of query operators it is
    whatever the operators ask, so that such a payload can mark a student
    it does not name. *)
Theorem scan_changes_only_named_student
    (studentData : QrScan.StudentData)
    (deviceInfo scanLocation userAgentHeader : option string)
    (currentScanTime : Z) (w : World) (k : N) :
  db (scan (QrScan.Data studentData)
        deviceInfo scanLocation userAgentHeader currentScanTime w).2 !! k
  <> db w !! k ->
  exists student,
    db w !! k = Some student
    /\ (QrScan.selects (QrScan.isId objectId) (QrScan.qr_id studentData) k = true
        \/ (QrScan.selects QrScan.isString (QrScan.qr_indexNumber studentData)
              (indexNumber student) = true
            /\ QrScan.selects QrScan.isString (QrScan.qr_name studentData)
                 (name student) = true))
    /\ forall k', k' <> k ->
         db (scan (QrScan.Data studentData)
               deviceInfo scanLocation userAgentHeader currentScanTime w).2 !! k'
         = db w !! k'.
Proof.
  unfold QrScan.markAttendance.
  destruct (QrScan.given (QrScan.qr_indexNumber studentData)
            && QrScan.given (QrScan.qr_name studentData)); [|done].
  destruct (QrScan.lookup _ _ _) as [[[id student]|]|] eqn:El; [|done..].
  apply lookup_Some in El as [Hs Hnamed].
  pose proof (handler_db id deviceInfo scanLocation userAgentHeader currentScanTime w) as H.
  destruct (handler _ _ _ _ _ _) as [r w'].
  assert (Hgoal : db w' !! k <> db w !! k ->
            exists student0,
              db w !! k = Some student0
              /\ (QrScan.selects (QrScan.isId objectId) (QrScan.qr_id studentData) k = true
                  \/ (QrScan.selects QrScan.isString (QrScan.qr_indexNumber studentData)
                        (indexNumber student0) = true
                      /\ QrScan.selects QrScan.isString (QrScan.qr_name studentData)
                           (name student0) = true))
              /\ forall k', k' <> k -> db w' !! k' = db w !! k').
  { simpl in H. destruct r as [st rec| |]; [|by subst w'..].
    destruct H as (_ & _ & student' & Hdb). rewrite Hdb. intros Hk.
    destruct (decide (k = id)) as [->|Hne]; [|by rewrite lookup_insert_ne in Hk].
    exists student. split; [done|]. split; [done|].
    intros k' Hk'. by rewrite lookup_insert_ne. }
  destruct (QrScan.qr_secureHash studentData) as [|h|];
    repeat case_bool_decide; try done; exact Hgoal.
Qed.

End ScanRequest.


Lemma scan_by_id_ignores_name_and_index_witness :
  QrScan.markAttendance Scenario.colombo Scenario.resolves Scenario.notified
    Badge.objectId Badge.expectedHash (QrScan.Data Badge.genuine) None None None
    (Scenario.on 0 8 0) (Scenario.ledger [])
  = QrScan.markAttendance Scenario.colombo Scenario.resolves Scenario.notified
      Badge.objectId Badge.expectedHash (QrScan.Data Badge.renamed) None None None
      (Scenario.on 0 8 0) (Scenario.ledger []).
Proof.
  apply (scan_by_id_ignores_name_and_index Scenario.colombo Scenario.resolves
           Scenario.notified Badge.objectId Badge.expectedHash
           (QrScan.Text "IX001") (QrScan.Text "Nimal")
           (QrScan.Text "IX999") (QrScan.Text "Kamal") "65a4f0c2e1b2a3d4c5f60718"
           (QrScan.HashText "9f2b4c6d8e0a1b3c") 1%N (Scenario.pupil [])
           None None None (Scenario.on 0 8 0) (Scenario.ledger []));
    solve [discriminate | reflexivity].
Defined.

Lemma scan_changes_only_named_student_witness :
  exists student,
    db (Scenario.ledger []) !! 1%N = Some student
    /\ (QrScan.selects (QrScan.isId Badge.objectId) (QrScan.qr_id Badge.anybody) 1%N = true
        \/ (QrScan.selects QrScan.isString (QrScan.qr_indexNumber Badge.anybody)
              (indexNumber student) = true
            /\ QrScan.selects QrScan.isString (QrScan.qr_name Badge.anybody)
                 (name student) = true))
    /\ forall k', k' <> 1%N ->
         db (QrScan.markAttendance Scenario.colombo Scenario.resolves Scenario.notified
               Badge.objectId Badge.expectedHash (QrScan.Data Badge.anybody) None None None
               (Scenario.on 0 8 0) (Scenario.ledger [])).2 !! k'
         = db (Scenario.ledger []) !! k'.
Proof.
  apply (scan_changes_only_named_student Scenario.colombo Scenario.resolves
           Scenario.notified Badge.objectId Badge.expectedHash Badge.anybody None None None
           (Scenario.on 0 8 0) (Scenario.ledger []) 1%N).
  intros H. apply (f_equal (fmap attendanceHistory)) in H. vm_compute in H. discriminate H.
Defined.

(** A payload of query operators marks the pupil without carrying the
    pupil's index number, name or [_id]. *)
Example operators_scan_marks_unnamed_student :
  QrScan.isRecorded
    (QrScan.markAttendance Scenario.colombo Scenario.resolves Scenario.notified
       Badge.objectId Badge.expectedHash (QrScan.Data Badge.anybody) None None None
       (Scenario.on 0 8 0) (Scenario.ledger [])).1 = true.
Proof. reflexivity. Qed.

(** ** controllers/students.controller.js: the dashboard *)

Lemma Student_find_ext (q r : Student -> bool) (d : gmap N Student) :
  (forall k s, d !! k = Some s -> q s = r s) -> Student_find q d = Student_find r d.
Proof.
  intros H. unfold Student_find. f_equal. apply map_filter_ext.
  intros k s Hs. simpl. by rewrite (H k s Hs).
Qed.

Lemma Student_find_insert (q : Student -> bool) (d : gmap N Student) k s :
  d !! k = None ->
  length (Student_find q (<[k := s]> d))
  = ((if q s then 1 else 0) + length (Student_find q d))%nat.
Proof.
  intros Hk. unfold Student_find. rewrite !length_map_to_list.
  destruct (q s) eqn:Hq.
  - rewrite map_filter_insert_True by done.
    rewrite map_size_insert_None; [done|].
    apply map_lookup_filter_None. by left.
  - rewrite map_filter_insert_not'; [done|simpl; congruence|].
    intros y Hy. congruence.
Qed.

Lemma Student_find_split (q r : Student -> bool) (d : gmap N Student) :
  (length (Student_find (fun s => q s && r s) d)
   + length (Student_find (fun s => q s && negb (r s)) d))%nat
  = length (Student_find q d).
Proof.
  induction d as [|k s d Hk IH] using map_ind.
  - done.
  - rewrite !Student_find_insert by done.
    destruct (q s), (r s); simpl; lia.
Qed.

(** X16: the counts of the dashboard add up, whatever the store and the
    range: every student counted as present is counted either as in school
    or as having left, never as both, and the present and the absent make
    up the active students, so that [studentsAbsent] is never negative. *)
Theorem dashboard_metrics_add_up (tz : Z) (startDate endDate : option Z) (now now' : Z)
    (w : World) :
  let m := Dashboard.metrics tz startDate endDate now now' w in
  (Dashboard.studentsInSchool m + Dashboard.studentsLeft m)%nat = Dashboard.studentsPresent m
  /\ Z.of_nat (Dashboard.studentsPresent m) + Dashboard.studentsAbsent m
     = Z.of_nat (Dashboard.totalStudents m)
  /\ 0 <= Dashboard.studentsAbsent m.
Proof.
  unfold Dashboard.metrics. cbn zeta.
  cbn [Dashboard.studentsInSchool Dashboard.studentsLeft Dashboard.studentsPresent
       Dashboard.studentsAbsent Dashboard.totalStudents].
  set (start := setHours tz _ 0 0 0 0). set (end' := setHours tz _ 23 59 59 999).
  unfold Dashboard.countDocuments.
  split; [|split; [lia|]].
  - pose proof (Student_find_split
                  (fun s => Dashboard.entryTimeQuery start end' s && active s)
                  (fun s => existsb noLeaveTime (attendanceHistory s)) (db w)) as H.
    etrans; [|exact H]. f_equal; f_equal; apply Student_find_ext; intros k s _;
      unfold Dashboard.inSchoolQuery, Dashboard.leftQuery;
      destruct (Dashboard.entryTimeQuery start end' s), (active s),
        (existsb noLeaveTime (attendanceHistory s)); done.
  - pose proof (Student_find_split Dashboard.totalQuery
                  (Dashboard.entryTimeQuery start end') (db w)) as H.
    assert (Hp : Student_find (Dashboard.presentQuery start end') (db w)
                 = Student_find
                     (fun s => Dashboard.totalQuery s && Dashboard.entryTimeQuery start end' s)
                     (db w)).
    { apply Student_find_ext. intros k s _. unfold Dashboard.presentQuery.
      apply andb_comm. }
    rewrite Hp. lia.
Qed.

Lemma isoDate_setHours_east tz d :
  0 < tz <= msPerDay -> isoDate (setHours tz d 0 0 0 0) = localDay tz d - 1.
Proof.
  intros Htz. unfold isoDate, setHours.
  replace (localDay tz d * msPerDay - tz + timeOfDay 0 0 0 0)
    with ((msPerDay - tz) + (localDay tz d - 1) * msPerDay)
    by (unfold timeOfDay; lia).
  rewrite Z.div_add by (pose proof msPerDay_pos; lia).
  rewrite Z.div_small by lia. lia.
Qed.

(** X17: in a zone ahead of UTC every entry of [last7Days] is labelled with
    the day before the one it counts: the entry of turn [i] counts the
    records dated within the local day [i] days back, from its midnight to
    the next, and carries the date of the day before that. *)
Theorem last7Days_labelled_a_day_early (tz : Z) (clock : Z -> Z) (w : World) :
  0 < tz <= msPerDay ->
  Dashboard.last7Days tz clock w
  = (fun i =>
       let counted := localDay tz (clock i) - i in
       (counted - 1,
        Dashboard.countDocuments
          (Dashboard.dayQuery (counted * msPerDay - tz) ((counted + 1) * msPerDay - tz)) w))
      <$> [6; 5; 4; 3; 2; 1; 0].
Proof.
  intros Htz. unfold Dashboard.last7Days. apply list_fmap_ext. intros _ i _.
  unfold Dashboard.dayEntry. cbn zeta.
  assert (Hday : localDay tz (addDays (clock i) (- i)) = localDay tz (clock i) - i).
  { unfold localDay, addDays.
    replace (clock i + - i * msPerDay + tz) with (clock i + tz + (- i) * msPerDay) by lia.
    rewrite Z.div_add by (pose proof msPerDay_pos; lia). lia. }
  rewrite isoDate_setHours_east by exact Htz. rewrite Hday.
  f_equal. f_equal. unfold setHours. rewrite Hday. unfold addDays, timeOfDay.
  f_equal; lia.
Qed.

Lemma last7Days_labelled_a_day_early_witness :
  Dashboard.last7Days Scenario.colombo (fun _ => Scenario.on 0 9 0) (Scenario.ledger [])
  = (fun i =>
       let counted := localDay Scenario.colombo (Scenario.on 0 9 0) - i in
       (counted - 1,
        Dashboard.countDocuments
          (Dashboard.dayQuery (counted * msPerDay - Scenario.colombo)
             ((counted + 1) * msPerDay - Scenario.colombo)) (Scenario.ledger [])))
      <$> [6; 5; 4; 3; 2; 1; 0].
Proof.
  apply (last7Days_labelled_a_day_early Scenario.colombo (fun _ => Scenario.on 0 9 0)
           (Scenario.ledger [])).
  by vm_compute.
Defined.

Lemma entryTimeQuery_today tz now now' (h : list AttendanceRecord) :
  localDay tz now = localDay tz now' ->
  (forall r t, In r h -> entryTime r = Some t -> t <= now') ->
  existsb (fun r => match entryTime r with
                    | Some t => setHours tz now 0 0 0 0 <=? t
                    | None => false
                    end) h
  && existsb (fun r => match entryTime r with
                       | Some t => t <=? setHours tz now' 23 59 59 999
                       | None => false
                       end) h
  = existsb (fun r => match entryTime r with
                      | Some t => bool_decide (localDay tz t = localDay tz now)
                      | None => false
                      end) h.
Proof.
  intros Hday Hpast.
  assert (Hend : forall t, t <= now' -> t <= setHours tz now' 23 59 59 999).
  { intros t Ht. unfold setHours, localDay, timeOfDay. change msPerDay with 86400000.
    Z.div_mod_to_equations. lia. }
  assert (Hstart : forall t, t <= now' ->
            (setHours tz now 0 0 0 0 <=? t) = bool_decide (localDay tz t = localDay tz now)).
  { intros t Ht. unfold setHours. rewrite Hday. revert Ht.
    unfold localDay, timeOfDay. change msPerDay with 86400000. intros Ht.
    case_bool_decide as Hd.
    - apply Z.leb_le. rewrite <- Hd. Z.div_mod_to_equations. lia.
    - apply Z.leb_gt. Z.div_mod_to_equations. lia. }
  assert (Hsame :
    existsb (fun r => match entryTime r with
                      | Some t => setHours tz now 0 0 0 0 <=? t
                      | None => false
                      end) h
    = existsb (fun r => match entryTime r with
                        | Some t => bool_decide (localDay tz t = localDay tz now)
                        | None => false
                        end) h).
  { clear Hend. induction h as [|r h IH]; [done|]. simpl.
    rewrite IH by (intros r' t Hr; apply Hpast; by right). f_equal.
    destruct (entryTime r) as [t|] eqn:Et; [|done].
    apply Hstart. apply (Hpast r t); [by left|done]. }
  rewrite Hsame.
  destruct (existsb _ h) eqn:E at 1; rewrite E; [|done]. simpl.
  apply existsb_exists. apply existsb_exists in E as (r & Hin & Hr).
  exists r. split; [done|].
  destruct (entryTime r) as [t|] eqn:Et; [|done].
  apply Z.leb_le, Hend, (Hpast r t Hin Et).
Qed.

(** X18: with no range in the query, and no entry time later than the
    clock, [studentsPresent] is the number of active students with an entry
    time on the local day of the request: the two halves of the range test,
    which any two records may meet, then meet in one record of today. *)
Theorem present_today_counts_entries_of_today (tz now now' : Z) (w : World) :
  localDay tz now = localDay tz now' ->
  (forall k student r t,
     db w !! k = Some student -> In r (attendanceHistory student) ->
     entryTime r = Some t -> t <= now') ->
  Dashboard.studentsPresent (Dashboard.metrics tz None None now now' w)
  = Dashboard.countDocuments
      (fun student =>
         existsb (fun r => match entryTime r with
                           | Some t => bool_decide (localDay tz t = localDay tz now)
                           | None => false
                           end) (attendanceHistory student)
         && active student) w.
Proof.
  intros Hday Hpast. unfold Dashboard.metrics. cbn zeta.
  cbn [Dashboard.studentsPresent default]. unfold Dashboard.countDocuments.
  f_equal. apply Student_find_ext. intros k s Hs.
  unfold Dashboard.presentQuery, Dashboard.entryTimeQuery. f_equal.
  apply entryTimeQuery_today; [exact Hday|]. intros r t. apply (Hpast k s r t Hs).
Qed.

Lemma present_today_counts_entries_of_today_witness :
  Dashboard.studentsPresent
    (Dashboard.metrics Scenario.colombo None None (Scenario.on 1 9 0) (Scenario.on 1 9 0)
       (Scenario.ledger [Scenario.entry 1 Entered None;
                         Scenario.entry 0 Left (Some (Scenario.on 0 15 0))]))
  = Dashboard.countDocuments
      (fun student =>
         existsb (fun r => match entryTime r with
                           | Some t => bool_decide (localDay Scenario.colombo t
                                                    = localDay Scenario.colombo
                                                        (Scenario.on 1 9 0))
                           | None => false
                           end) (attendanceHistory student)
         && active student)
      (Scenario.ledger [Scenario.entry 1 Entered None;
                        Scenario.entry 0 Left (Some (Scenario.on 0 15 0))]).
Proof.
  apply (present_today_counts_entries_of_today Scenario.colombo
           (Scenario.on 1 9 0) (Scenario.on 1 9 0)
           (Scenario.ledger [Scenario.entry 1 Entered None;
                             Scenario.entry 0 Left (Some (Scenario.on 0 15 0))])).
  - reflexivity.
  - intros k student r t Hk Hr Ht.
    unfold Scenario.ledger in Hk. cbn [db] in Hk.
    apply lookup_singleton_Some in Hk as [_ <-].
    destruct Hr as [<-|[<-|[]]]; simpl in Ht; injection Ht as <-; by vm_compute.
Defined.

(** ** services/autoAttendanceService.js: what the sweeps leave alone *)

(** X19: the backlog sweep only ever closes.  It adds and removes no
    document and no record, keeps the order of every history, leaves the
    name, the index number, the telephone and the messages of every student
    as they were, and leaves every record as it was unless it is an open
    record of an earlier day with status entered or present, which it may
    close at 18:30 of its own day. *)
Theorem backlog_sweep_only_closes
    (tz : Z) (saveOk : N -> bool) (sendTextMessage : string -> Message -> bool)
    (now : Z) (w : World) (k : N) :
  match db (AutoAttendance.checkAllPastAttendance tz saveOk sendTextMessage now w) !! k,
        db w !! k with
  | Some s', Some s =>
      name s' = name s /\ indexNumber s' = indexNumber s
      /\ parent_telephone s' = parent_telephone s /\ active s' = active s
      /\ messages s' = messages s
      /\ Forall2 (closedFrom tz (setHours tz now 0 0 0 0))
           (attendanceHistory s) (attendanceHistory s')
  | None, None => True
  | _, _ => False
  end.
Proof.
  rewrite checkAllPastAttendance_lookup.
  destruct (db w !! k) as [s|]; [|done].
  assert (Hsame : Forall2 (closedFrom tz (setHours tz now 0 0 0 0))
                    (attendanceHistory s) (attendanceHistory s)).
  { apply Forall_Forall2_diag, Forall_forall. intros r _. by left. }
  destruct (AutoAttendance.pastQuery _ s); [|done].
  unfold pastUpd.
  destruct (AutoAttendance.closePast tz _ s) as [[s' closed]|] eqn:Hclose; [|done].
  destruct (saveOk k); [|done]. simpl.
  pose proof (closePast_history tz _ _ _ _ Hclose) as [Hh _].
  unfold AutoAttendance.closePast in Hclose.
  destruct (0 <? _)%nat; [|done]. simplify_eq/=.
  repeat split; try done.
  apply Forall2_fmap_r, Forall_Forall2_diag, Forall_forall. intros r _.
  unfold closedFrom. cbv beta.
  destruct (AutoAttendance.incomplete (setHours tz now 0 0 0 0) r) eqn:Hr;
    [right|left]; rewrite Hr; done.
Qed.

(** ** services/autoAttendanceService.js: the previous-day sweep *)

Lemma backlog_sweep_leaves_none_open tz saveOk send now w k s' :
  (forall k, saveOk k = true) ->
  db (AutoAttendance.checkAllPastAttendance tz saveOk send now w) !! k = Some s' ->
  AutoAttendance.pastQuery (setHours tz now 0 0 0 0) s' = false.
Proof.
  intros Hsave Hs'. rewrite checkAllPastAttendance_lookup in Hs'.
  destruct (db w !! k) as [s|] eqn:Hk; [|done].
  destruct (AutoAttendance.pastQuery (setHours tz now 0 0 0 0) s) eqn:Hq;
    [|by simplify_eq].
  destruct (closePast_Some tz _ _ Hq) as (closed & Hclose & _).
  unfold pastUpd in Hs'. rewrite Hclose, Hsave in Hs'. simplify_eq/=.
  by eapply pastQuery_closed.
Qed.

Lemma yesterdayEnd_before_today tz now :
  setHours tz (setHours tz (addDays now (-1)) 0 0 0 0) 23 59 59 999
  < setHours tz now 0 0 0 0.
Proof.
  unfold setHours at 1. rewrite localDay_setHours by (by vm_compute).
  unfold setHours, localDay, addDays, timeOfDay. change msPerDay with 86400000.
  Z.div_mod_to_equations. lia.
Qed.

Lemma foldl_unchanged {A B} (f : A -> B -> A) (l : list B) (a : A) :
  (forall x, x ∈ l -> forall a', f a' x = a') -> foldl f a l = a.
Proof.
  induction l as [|x l IH]; intros H; simpl; [done|].
  rewrite (H x) by (apply elem_of_cons; auto).
  apply IH. intros y Hy. apply H. apply elem_of_cons. auto.
Qed.



(** With the clock read again past midnight, the pass over yesterday is not
    idle: the backlog sweep at 23:59 leaves the record of the day open, and
    the pass that follows at 00:01 closes it and writes to the guardian. *)
Example previous_day_sweep_past_midnight_closes :
  let w := Scenario.ledger [Scenario.entry 0 Entered None] in
  let backlog := AutoAttendance.checkAllPastAttendance Scenario.colombo Scenario.resolves
                   Scenario.delivered (Scenario.on 0 23 59) w in
  let previous := AutoAttendance.checkPreviousDayAttendance Scenario.colombo
                    Scenario.resolves Scenario.delivered (Scenario.on 0 23 59)
                    (Scenario.on 1 0 1) w in
  backlog = w
  /\ attendanceHistory <$> db previous !! 1%N
     = Some [Scenario.entry 0 Left (Some (Scenario.on 0 18 30))]
  /\ length (outbox previous) = 1%nat.
Proof. vm_compute. repeat split. Qed.

(** ** services/autoAttendanceService.js: the cutoff sweep run again *)

Lemma findIndex_none {A} (p : A -> bool) (l : list A) :
  (forall i x, l !! i = Some x -> p x = false) -> findIndex p l = None.
Proof.
  intros H. unfold findIndex.
  destruct (list_find (fun x => p x) l) as [[i x]|] eqn:E; [|done].
  apply list_find_Some in E as (Hl & Hp & _).
  rewrite (H i x Hl) in Hp. done.
Qed.

Lemma foldl_observed {A B T} (obs : A -> T) (f : A -> B -> A) (l : list B) (a : A) :
  (forall x, x ∈ l -> forall a', obs (f a' x) = obs a') -> obs (foldl f a l) = obs a.
Proof.
  revert a. induction l as [|x l IH]; intros a H; simpl; [done|].
  rewrite IH by (intros y Hy; apply H, elem_of_cons; auto).
  apply H, elem_of_cons. auto.
Qed.

(** The record the cutoff sweep has closed is no longer eligible, and with
    one record per day no other record of the day is. *)
Lemma markLeaveToday_closed tz today leaveTime s s' :
  oneRecordPerDay tz s ->
  AutoAttendance.markLeaveToday tz today leaveTime s = Some s' ->
  findIndex (AutoAttendance.eligibleToday tz today) (attendanceHistory s') = None.
Proof.
  intros Hone. unfold AutoAttendance.markLeaveToday.
  destruct (findIndex _ (attendanceHistory s)) as [i|] eqn:Hi; [|done].
  intros [= <-]. simpl. apply findIndex_Some in Hi as (r & Hr & Hel & _).
  apply findIndex_none. intros j x Hx.
  destruct (decide (j = i)) as [->|Hne].
  - rewrite list_lookup_alter, Hr in Hx. rewrite decide_True in Hx by done.
    simplify_eq/=.
    unfold AutoAttendance.eligibleToday, enteredOrPresent. simpl.
    by destruct (bool_decide _).
  - rewrite list_lookup_alter_ne in Hx by done.
    destruct (AutoAttendance.eligibleToday tz today x) eqn:Hex; [|done].
    exfalso. apply Hne.
    unfold AutoAttendance.eligibleToday in Hel, Hex.
    apply andb_true_iff in Hel as [Hel _]. apply andb_true_iff in Hel as [Hel _].
    apply andb_true_iff in Hex as [Hex _]. apply andb_true_iff in Hex as [Hex _].
    apply bool_decide_eq_true in Hel, Hex. unfold toDateString in Hel, Hex.
    apply (NoDup_lookup _ j i (localDay tz (date x)) Hone).
    + unfold daysOf. by rewrite list_lookup_fmap, Hx.
    + unfold daysOf. rewrite list_lookup_fmap, Hr. simpl. by rewrite Hex, Hel.
Qed.

(** X21: the cutoff sweep run a second time on the same local day changes
    no document and hands no message to the messaging service, when the
    saves of the first run resolved and no student has two records of one
    day; this for any second readings [now1'], [now2'] of the clock. *)
Theorem cutoff_sweep_again_changes_nothing
    (tz : Z) (saveOk1 saveOk2 : N -> bool)
    (send1 send2 : string -> Message -> bool) (now1 now1' now2 now2' : Z) (w : World) :
  (forall k, saveOk1 k = true) ->
  setHours tz now2 0 0 0 0 = setHours tz now1 0 0 0 0 ->
  ledgerOneRecordPerDay tz w ->
  let w1 := AutoAttendance.autoMarkLeaveAttendance tz saveOk1 send1 now1 now1' w in
  ledgerAndOutbox (AutoAttendance.autoMarkLeaveAttendance tz saveOk2 send2 now2 now2' w1)
  = ledgerAndOutbox w1.
Proof.
  intros Hsave Hday Hone w1.
  unfold AutoAttendance.autoMarkLeaveAttendance at 1. cbn zeta.
  apply foldl_observed. intros [k s1] Hks w'.
  apply Student_find_spec in Hks as [Hk _].
  assert (Hnone : findIndex (AutoAttendance.eligibleToday tz (setHours tz now2 0 0 0 0))
                    (attendanceHistory s1) = None).
  { rewrite Hday. unfold w1 in Hk. rewrite autoMarkLeaveAttendance_lookup in Hk.
    destruct (db w !! k) as [s|] eqn:Hs; [|done].
    assert (Hcase : s1 = s /\ AutoAttendance.markLeaveToday tz (setHours tz now1 0 0 0 0)
                                (setHours tz now1' 18 30 0 0) s = None
                    \/ AutoAttendance.markLeaveToday tz (setHours tz now1 0 0 0 0)
                         (setHours tz now1' 18 30 0 0) s = Some s1).
    { destruct (AutoAttendance.markLeaveToday tz (setHours tz now1 0 0 0 0)
                  (setHours tz now1' 18 30 0 0) s) as [s'|] eqn:Hm.
      - right. rewrite (markLeaveToday_query _ _ _ _ _ Hm) in Hk.
        unfold todayUpd in Hk. rewrite Hm, Hsave in Hk. by simplify_eq/=.
      - left. unfold todayUpd in Hk. rewrite Hm in Hk.
        by destruct (AutoAttendance.todayQuery _ s); simplify_eq/=. }
    destruct Hcase as [[-> Hm]|Hm].
    - unfold AutoAttendance.markLeaveToday in Hm.
      by destruct (findIndex _ (attendanceHistory s)).
    - eapply markLeaveToday_closed; [by eapply Hone|exact Hm]. }
  unfold AutoAttendance.autoMarkStudent, AutoAttendance.markLeaveToday. simpl.
  by rewrite Hnone.
Qed.

Lemma cutoff_sweep_again_changes_nothing_witness :
  let w1 := AutoAttendance.autoMarkLeaveAttendance Scenario.colombo Scenario.resolves
              Scenario.delivered (Scenario.on 0 18 45) (Scenario.on 0 18 45)
              (Scenario.ledger [Scenario.entry 0 Entered None]) in
  ledgerAndOutbox (AutoAttendance.autoMarkLeaveAttendance Scenario.colombo Scenario.resolves
                     Scenario.delivered (Scenario.on 0 18 45) (Scenario.on 0 18 45) w1)
  = ledgerAndOutbox w1.
Proof.
  apply (cutoff_sweep_again_changes_nothing Scenario.colombo Scenario.resolves
           Scenario.resolves Scenario.delivered Scenario.delivered
           (Scenario.on 0 18 45) (Scenario.on 0 18 45)
           (Scenario.on 0 18 45) (Scenario.on 0 18 45)
           (Scenario.ledger [Scenario.entry 0 Entered None])).
  - intros k. reflexivity.
  - reflexivity.
  - intros k s Hk. unfold Scenario.ledger in Hk. cbn [db] in Hk.
    apply lookup_singleton_Some in Hk as [_ <-].
    unfold oneRecordPerDay, daysOf. simpl. apply NoDup_singleton.
Defined.

(** ** services/autoAttendanceService.js: who is notified *)

Lemma foldl_outbox {B} (f : World -> B -> World) (P : B -> string * Message -> Prop)
    (l : list B) (w : World) :
  (forall x, x ∈ l -> forall w',
     outbox (f w' x) = outbox w'
     \/ exists m, P x m /\ outbox (f w' x) = outbox w' ++ [m]) ->
  exists new,
    outbox (foldl f w l) = outbox w ++ new
    /\ (length new <= length l)%nat
    /\ forall m, m ∈ new -> exists x, x ∈ l /\ P x m.
Proof.
  revert w. induction l as [|x l IH]; intros w H; simpl.
  - exists []. rewrite app_nil_r. split; [done|]. split; [done|]. by intros m ?%elem_of_nil.
  - destruct (IH (f w x)) as (new & Hout & Hlen & Hnew).
    { intros y Hy. apply H, elem_of_cons. auto. }
    destruct (H x (list_elem_of_here _ _) w) as [Hsame|(m & Hm & Hone)].
    + exists new. rewrite Hout, Hsame. split; [done|]. split; [lia|].
      intros m Hm. destruct (Hnew m Hm) as (y & Hy & HP).
      exists y. split; [apply elem_of_cons; auto|done].
    + exists (m :: new). rewrite Hout, Hone, <- app_assoc. split; [done|].
      split; [simpl; lia|].
      intros m' [->|Hm']%elem_of_cons.
      * exists x. split; [apply elem_of_cons; auto|done].
      * destruct (Hnew m' Hm') as (y & Hy & HP).
        exists y. split; [apply elem_of_cons; auto|done].
Qed.

Lemma persistAndNotify_outbox saveOk send k student text w :
  outbox (AutoAttendance.persistAndNotify saveOk send k student text w) = outbox w
  \/ exists phone,
       saveOk k = true /\ truthy (parent_telephone student) = Some phone
       /\ outbox (AutoAttendance.persistAndNotify saveOk send k student text w)
          = outbox w ++ [(phone, text)].
Proof.
  unfold AutoAttendance.persistAndNotify.
  destruct (saveOk k); [|by left].
  destruct (truthy (parent_telephone student)) as [phone|]; [|by left].
  right. by exists phone.
Qed.

(** X22: the cutoff sweep and the backlog sweep hand a message to the
    messaging service only for a student whose closed records have been
    saved: every message they add to the outbox goes to the telephone of a
    student of the store whose save resolved, and names that student; no
    sweep adds more messages than it selects students. *)
Theorem sweeps_notify_after_saving
    (tz : Z) (saveOk : N -> bool) (sendTextMessage : string -> Message -> bool)
    (now now' : Z) (w : World) :
  let today := setHours tz now 0 0 0 0 in
  (exists new,
     outbox (AutoAttendance.autoMarkLeaveAttendance tz saveOk sendTextMessage now now' w)
     = outbox w ++ new
     /\ (length new <= length (Student_find (AutoAttendance.todayQuery today) (db w)))%nat
     /\ forall phone text, (phone, text) ∈ new ->
          exists k s,
            db w !! k = Some s /\ saveOk k = true
            /\ truthy (parent_telephone s) = Some phone
            /\ text = AutomatedAttendanceUpdate (name s) (indexNumber s))
  /\ (exists new,
        outbox (AutoAttendance.checkAllPastAttendance tz saveOk sendTextMessage now w)
        = outbox w ++ new
        /\ (length new <= length (Student_find (AutoAttendance.pastQuery today) (db w)))%nat
        /\ forall phone text, (phone, text) ∈ new ->
             exists k s closed,
               db w !! k = Some s /\ saveOk k = true
               /\ truthy (parent_telephone s) = Some phone
               /\ closed = List.filter (AutoAttendance.incomplete today) (attendanceHistory s)
               /\ text = PastAttendanceRecordsUpdate (name s) (indexNumber s)
                           (length closed) (toDateString tz ∘ date <$> closed)).
Proof.
  intros today. split.
  - unfold AutoAttendance.autoMarkLeaveAttendance. cbn zeta. fold today.
    destruct (foldl_outbox
                (AutoAttendance.autoMarkStudent tz saveOk sendTextMessage today
                   (setHours tz now' 18 30 0 0))
                (fun ks m =>
                   saveOk ks.1 = true /\ truthy (parent_telephone ks.2) = Some m.1
                   /\ m.2 = AutomatedAttendanceUpdate (name ks.2) (indexNumber ks.2))
                (Student_find (AutoAttendance.todayQuery today) (db w)) w)
      as (new & Hout & Hlen & Hnew).
    { intros [k s] _ w'. unfold AutoAttendance.autoMarkStudent, AutoAttendance.markLeaveToday.
      simpl. destruct (findIndex _ (attendanceHistory s)) as [i|]; [|by left].
      destruct (persistAndNotify_outbox saveOk sendTextMessage k
                  (swept s (alter (set_leave (setHours tz now' 18 30 0 0)) i
                              (attendanceHistory s)) (Some (setHours tz now' 18 30 0 0)))
                  (AutomatedAttendanceUpdate (name s) (indexNumber s)) w')
        as [Hsame|(phone & Hsave & Hphone & Hone)]; [by left|].
      right. eexists. split; [|exact Hone]. done. }
    exists new. split; [done|]. split; [done|].
    intros phone text Hm. destruct (Hnew _ Hm) as ([k s] & Hks & Hsave & Hphone & Htext).
    apply Student_find_spec in Hks as [Hk _]. simpl in *. by exists k, s.
  - unfold AutoAttendance.checkAllPastAttendance. cbn zeta. fold today.
    destruct (foldl_outbox
                (AutoAttendance.checkPastStudent tz saveOk sendTextMessage today)
                (fun ks m =>
                   saveOk ks.1 = true /\ truthy (parent_telephone ks.2) = Some m.1
                   /\ m.2 = PastAttendanceRecordsUpdate (name ks.2) (indexNumber ks.2)
                              (length (List.filter (AutoAttendance.incomplete today)
                                         (attendanceHistory ks.2)))
                              (toDateString tz ∘ date
                                 <$> List.filter (AutoAttendance.incomplete today)
                                       (attendanceHistory ks.2)))
                (Student_find (AutoAttendance.pastQuery today) (db w)) w)
      as (new & Hout & Hlen & Hnew).
    { intros [k s] _ w'. unfold AutoAttendance.checkPastStudent, AutoAttendance.closePast.
      simpl. destruct (0 <? _)%nat; [|by left].
      match goal with
      | |- context [AutoAttendance.persistAndNotify _ _ _ ?student ?text _] =>
          destruct (persistAndNotify_outbox saveOk sendTextMessage k student text w')
            as [Hsame|(phone & Hsave & Hphone & Hone)]
      end; [by left|].
      right. eexists. split; [|exact Hone]. simpl. split; [done|]. split; [done|].
      rewrite length_fmap. f_equal. rewrite <- list_fmap_compose.
      apply list_fmap_ext. intros _ r _. simpl. done. }
    exists new. split; [done|]. split; [done|].
    intros phone text Hm. destruct (Hnew _ Hm) as ([k s] & Hks & Hsave & Hphone & Htext).
    apply Student_find_spec in Hks as [Hk _]. simpl in *.
    exists k, s, (List.filter (AutoAttendance.incomplete today) (attendanceHistory s)). done.
Qed.

(** ** controllers/attendance.controller.js: the day views *)

Lemma insertByIndexNumber_perm a l :
  AttendanceController.insertByIndexNumber a l ≡ₚ a :: l.
Proof.
  induction l as [|b l IH]; simpl; [done|].
  destruct (String.leb _ _); [done|].
  rewrite IH. apply Permutation_swap.
Qed.

Lemma sortByIndexNumber_perm l : AttendanceController.sortByIndexNumber l ≡ₚ l.
Proof.
  induction l as [|a l IH]; simpl; [done|].
  rewrite insertByIndexNumber_perm. by rewrite IH.
Qed.

Lemma insertByIndexNumber_sorted a l :
  Sorted (fun x y => String.leb (indexNumber x.2) (indexNumber y.2) = true) l ->
  Sorted (fun x y => String.leb (indexNumber x.2) (indexNumber y.2) = true)
    (AttendanceController.insertByIndexNumber a l).
Proof.
  induction l as [|b l IH]; intros Hl; simpl.
  - by repeat constructor.
  - destruct (String.leb (indexNumber a.2) (indexNumber b.2)) eqn:Hab.
    + constructor; [done|]. by constructor.
    + apply Sorted_inv in Hl as [Hl Hb]. constructor; [by apply IH|].
      assert (Hba : String.leb (indexNumber b.2) (indexNumber a.2) = true).
      { destruct (String.leb_total (indexNumber a.2) (indexNumber b.2)); congruence. }
      destruct l as [|c l]; simpl; [by constructor|].
      destruct (String.leb (indexNumber a.2) (indexNumber c.2)); constructor; [done|].
      by apply HdRel_inv in Hb.
Qed.

Lemma sortByIndexNumber_sorted l :
  Sorted (fun x y => String.leb (indexNumber x.2) (indexNumber y.2) = true)
    (AttendanceController.sortByIndexNumber l).
Proof.
  induction l as [|a l IH]; simpl; [constructor|].
  by apply insertByIndexNumber_sorted.
Qed.

Lemma row_id_todayRow m l :
  AttendanceController.row_id <$> (AttendanceController.todayRow m <$> l) = l.*1.
Proof.
  rewrite <- list_fmap_compose. apply list_fmap_ext. intros _ ks _. simpl.
  unfold AttendanceController.todayRow. by destruct (m !! ks.1).
Qed.

(** X23: the view of today lists every active student exactly once, and
    nobody else, in the order of the index numbers, whatever the histories
    hold. *)
Theorem today_view_lists_each_active_student_once (now : Z) (w : World) :
  let rows := AttendanceController.getScannedStudentsToday now w in
  NoDup (AttendanceController.row_id <$> rows)
  /\ (forall k, k ∈ AttendanceController.row_id <$> rows
                <-> exists s, db w !! k = Some s /\ active s = true)
  /\ exists students,
       students.*1 = AttendanceController.row_id <$> rows
       /\ (forall k s, (k, s) ∈ students -> db w !! k = Some s)
       /\ Sorted (fun x y => String.leb (indexNumber x.2) (indexNumber y.2) = true)
            students.
Proof.
  unfold AttendanceController.getScannedStudentsToday. cbn zeta.
  rewrite row_id_todayRow.
  assert (Hperm : (AttendanceController.sortByIndexNumber (Student_find active (db w))).*1
                  ≡ₚ (Student_find active (db w)).*1).
  { by rewrite sortByIndexNumber_perm. }
  split; [|split].
  - rewrite Hperm. apply NoDup_fst_map_to_list.
  - intros k. rewrite Hperm, list_elem_of_fmap. split.
    + intros ([k' s] & -> & Hks). apply Student_find_spec in Hks. by exists s.
    + intros (s & Hs & Ha). exists (k, s). split; [done|]. by apply Student_find_spec.
  - exists (AttendanceController.sortByIndexNumber (Student_find active (db w))).
    split; [done|]. split; [|apply sortByIndexNumber_sorted].
    intros k s Hks. apply (proj1 (elem_of_sortByIndexNumber _ _)) in Hks.
    by apply Student_find_spec in Hks as [? _].
Qed.

Lemma count_by_status (rows : list AttendanceController.Row) :
  (length (List.filter (DayStats.hasStatus Entered) rows)
   + length (List.filter (DayStats.hasStatus Left) rows)
   + length (List.filter (DayStats.hasStatus Present) rows)
   + length (List.filter (DayStats.hasStatus Absent) rows)
   + length (List.filter (DayStats.hasStatus Late) rows))%nat
  = length rows.
Proof.
  induction rows as [|row rows IH]; [done|].
  unfold DayStats.hasStatus in *. simpl.
  destruct (AttendanceController.row_status row); simpl; lia.
Qed.

Lemma stats_foldl (rows : list AttendanceController.Row) (acc : DayStats.Stats) :
  let out := foldl DayStats.tally acc rows in
  DayStats.stats_totalCount out = (DayStats.stats_totalCount acc + length rows)%nat
  /\ DayStats.stats_presentCount out
     = (DayStats.stats_presentCount acc
        + length (List.filter (DayStats.hasStatus Present) rows)
        + length (List.filter (DayStats.hasStatus Entered) rows))%nat
  /\ DayStats.stats_absentCount out
     = (DayStats.stats_absentCount acc
        + length (List.filter (DayStats.hasStatus Absent) rows))%nat
  /\ DayStats.stats_lateCount out
     = (DayStats.stats_lateCount acc
        + length (List.filter (DayStats.hasStatus Late) rows))%nat.
Proof.
  revert acc. induction rows as [|row rows IH]; intros acc; simpl.
  - repeat split; lia.
  - destruct (IH (DayStats.tally acc row)) as (Ht & Hp & Ha & Hl).
    rewrite Ht, Hp, Ha, Hl. unfold DayStats.tally, DayStats.hasStatus.
    destruct (AttendanceController.row_status row); simpl; repeat split; lia.
Qed.

(** X24: what the counts of the day views leave out.  In the view of
    today the students shown as present or late are counted in
    [totalCount] alone; in the view by date the students shown as having
    left are.  The other counts make up the rest, and [totalCount] of the
    view of today is the number of active students. *)
Theorem day_view_counts (tz now d : Z) (w : World) :
  let students := AttendanceController.getScannedStudentsToday now w in
  let today := DayStats.today students in
  let processedStudents := AttendanceController.getAttendanceByDate tz d w in
  let stats := DayStats.stats processedStudents in
  DayStats.totalCount today = length (Student_find active (db w))
  /\ (DayStats.presentCount today + DayStats.leftCount today + DayStats.absentCount today
      + length (List.filter (DayStats.hasStatus Present) students)
      + length (List.filter (DayStats.hasStatus Late) students))%nat
     = DayStats.totalCount today
  /\ (DayStats.stats_presentCount stats + DayStats.stats_absentCount stats
      + DayStats.stats_lateCount stats
      + length (List.filter (DayStats.hasStatus Left) processedStudents))%nat
     = DayStats.stats_totalCount stats
  /\ DayStats.stats_totalCount stats = length processedStudents.
Proof.
  cbn zeta. split; [|split; [|split]].
  - unfold DayStats.today, AttendanceController.getScannedStudentsToday. simpl.
    rewrite length_fmap. apply Permutation_length, sortByIndexNumber_perm.
  - unfold DayStats.today. simpl.
    pose proof (count_by_status (AttendanceController.getScannedStudentsToday now w)). lia.
  - unfold DayStats.stats.
    destruct (stats_foldl (AttendanceController.getAttendanceByDate tz d w)
                (DayStats.mkStats 0 0 0 0)) as (Ht & Hp & Ha & Hl).
    rewrite Ht, Hp, Ha, Hl. simpl.
    pose proof (count_by_status (AttendanceController.getAttendanceByDate tz d w)). lia.
  - unfold DayStats.stats.
    destruct (stats_foldl (AttendanceController.getAttendanceByDate tz d w)
                (DayStats.mkStats 0 0 0 0)) as (Ht & _).
    by rewrite Ht.
Qed.

Lemma in_day_same_day tz d t :
  startOfDay tz d <= t < endOfDay tz d -> localDay tz t = localDay tz d.
Proof.
  unfold startOfDay, endOfDay, setHours, localDay, timeOfDay.
  change msPerDay with 86400000. intros H. Z.div_mod_to_equations. lia.
Qed.

(** X25: every row of the view by date shows a record: the student of the
    row has a record dated on the local day asked for, and the row carries
    the status and the times of such a record.  The status absent is shown
    only where a record of the day says so. *)
Theorem view_by_date_shows_records (tz d : Z) (w : World) (row : AttendanceController.Row) :
  row ∈ AttendanceController.getAttendanceByDate tz d w ->
  exists s r,
    db w !! AttendanceController.row_id row = Some s
    /\ r ∈ attendanceHistory s
    /\ localDay tz (date r) = localDay tz d
    /\ row = AttendanceController.mkRow (AttendanceController.row_id row)
               (status r) (entryTime r) (leaveTime r).
Proof.
  unfold AttendanceController.getAttendanceByDate, AttendanceController.getDateRange.
  intros Hrow. apply list_elem_of_fmap in Hrow as ([k s] & -> & Hks).
  apply Student_find_spec in Hks as [Hk Hq].
  unfold AttendanceController.dateQuery in Hq.
  apply existsb_exists in Hq as (r0 & Hin & Hr0).
  apply andb_true_iff in Hr0 as [Hlo Hhi]. apply Z.leb_le in Hlo. apply Z.ltb_lt in Hhi.
  pose proof (in_day_same_day tz d (date r0) (conj Hlo Hhi)) as Hday0.
  assert (Hsod : localDay tz (startOfDay tz d) = localDay tz d).
  { unfold startOfDay. apply localDay_setHours. by vm_compute. }
  unfold AttendanceController.dateRow. simpl.
  destruct (List.find _ (attendanceHistory s)) as [r|] eqn:Hfind.
  - apply find_some in Hfind as [Hr Hsame].
    unfold hasSameDay in Hsame. apply bool_decide_eq_true in Hsame.
    exists s, r. split; [done|]. split; [by apply list_elem_of_In|].
    split; [by rewrite Hsame|done].
  - exfalso. pose proof (find_none _ _ Hfind r0 Hin) as Hno. simpl in Hno.
    unfold hasSameDay in Hno. apply bool_decide_eq_false in Hno.
    apply Hno. by rewrite Hday0, Hsod.
Qed.

Lemma view_by_date_shows_records_witness :
  exists s r,
    db (Scenario.ledger [Scenario.entry 0 Absent None]) !! 1%N = Some s
    /\ r ∈ attendanceHistory s
    /\ localDay Scenario.colombo (date r) = localDay Scenario.colombo (Scenario.on 0 5 30)
    /\ AttendanceController.mkRow 1%N Absent (Some (Scenario.on 0 8 0)) None
       = AttendanceController.mkRow 1%N (status r) (entryTime r) (leaveTime r).
Proof.
  apply (view_by_date_shows_records Scenario.colombo (Scenario.on 0 5 30)
           (Scenario.ledger [Scenario.entry 0 Absent None])
           (AttendanceController.mkRow 1%N Absent (Some (Scenario.on 0 8 0)) None)).
  vm_compute. apply list_elem_of_here.
Defined.

(** ** controllers/messaging.controller.js: the attendance notification *)

Lemma isSpace_not_digit c : Messaging.isSpace c = true -> WhatsApp.isDigit c = false.
Proof.
  unfold Messaging.isSpace, WhatsApp.isDigit. cbv zeta.
  generalize (Ascii.N_of_ascii c). intros n H.
  apply andb_false_iff.
  destruct (N.leb_spec 48 n), (N.leb_spec n 57); auto.
  exfalso. apply orb_true_iff in H as [H|H].
  - apply andb_true_iff in H as [_ H]. apply N.leb_le in H. lia.
  - apply N.eqb_eq in H. lia.
Qed.

Lemma isSpace2_not_digit c1 c2 :
  Messaging.isSpace2 c1 c2 = true ->
  WhatsApp.isDigit c1 = false /\ WhatsApp.isDigit c2 = false.
Proof.
  unfold Messaging.isSpace2, WhatsApp.isDigit.
  generalize (Ascii.N_of_ascii c1) (Ascii.N_of_ascii c2). intros a b H.
  apply andb_true_iff in H as [Ha Hb]. apply N.eqb_eq in Ha, Hb. by subst.
Qed.

Lemma isSpace3_not_digit c1 c2 c3 :
  Messaging.isSpace3 c1 c2 c3 = true ->
  WhatsApp.isDigit c1 = false /\ WhatsApp.isDigit c2 = false /\ WhatsApp.isDigit c3 = false.
Proof.
  unfold Messaging.isSpace3, WhatsApp.isDigit. cbv zeta.
  generalize (Ascii.N_of_ascii c1) (Ascii.N_of_ascii c2) (Ascii.N_of_ascii c3).
  intros a b c H.
  assert (Hhigh : (128 <= a /\ 128 <= b /\ 128 <= c)%N).
  { repeat match type of H with
           | (_ || _)%bool = true => apply orb_true_iff in H as [H|H]
           end;
      repeat match goal with
             | H : (_ && _)%bool = true |- _ => apply andb_true_iff in H as [? ?]
             | H : (_ || _)%bool = true |- _ => apply orb_true_iff in H as [?|?]
             | H : (_ =? _)%N = true |- _ => apply N.eqb_eq in H
             | H : (_ <=? _)%N = true |- _ => apply N.leb_le in H
             end; lia. }
  destruct Hhigh as (Ha & Hb & Hc).
  repeat split; apply andb_false_iff; right; apply N.leb_gt; lia.
Qed.

Lemma removeNonDigits_removeWhitespace s :
  WhatsApp.removeNonDigits (Messaging.removeWhitespace s) = WhatsApp.removeNonDigits s.
Proof.
  assert (H : forall n s, (String.length s <= n)%nat ->
            WhatsApp.removeNonDigits (Messaging.removeWhitespace s)
            = WhatsApp.removeNonDigits s);
    [|by apply (H (String.length s))].
  clear s. induction n as [|n IH]; intros s Hn.
  { destruct s; [done|simpl in Hn; lia]. }
  destruct s as [|c1 s1]; [done|]. simpl in Hn.
  assert (Hskip : WhatsApp.removeNonDigits (String c1 (Messaging.removeWhitespace s1))
                  = WhatsApp.removeNonDigits (String c1 s1)).
  { cbn [WhatsApp.removeNonDigits]. rewrite IH by lia. done. }
  cbn [Messaging.removeWhitespace].
  destruct (Messaging.isSpace c1) eqn:H1.
  { cbn [WhatsApp.removeNonDigits]. rewrite (isSpace_not_digit _ H1). apply IH. lia. }
  destruct s1 as [|c2 s2]; [exact Hskip|]. simpl in Hn.
  destruct (Messaging.isSpace2 c1 c2) eqn:H2.
  { destruct (isSpace2_not_digit _ _ H2) as [Hd1 Hd2].
    cbn [WhatsApp.removeNonDigits]. rewrite Hd1, Hd2. apply IH. lia. }
  destruct s2 as [|c3 s3]; [exact Hskip|]. simpl in Hn.
  destruct (Messaging.isSpace3 c1 c2 c3) eqn:H3; [|exact Hskip].
  destruct (isSpace3_not_digit _ _ _ H3) as (Hd1 & Hd2 & Hd3).
  cbn [WhatsApp.removeNonDigits]. rewrite Hd1, Hd2, Hd3. apply IH. lia.
Qed.

Lemma formatPhoneNumber_removeWhitespace s :
  WhatsApp.formatPhoneNumber (Messaging.removeWhitespace s) = WhatsApp.formatPhoneNumber s.
Proof. unfold WhatsApp.formatPhoneNumber. by rewrite removeNonDigits_removeWhitespace. Qed.

(** X26: when a guardian is notified of a scan.  [sendAttendanceNotification]
    succeeds exactly when the messaging service is ready, the student
    exists, the guardian's telephone is not empty or blank, and the client
    delivers to the chat of that telephone in its formatted form; the white
    space the controller strips makes no difference to the chat.  A
    notification the controller refuses itself leaves the messaging service
    as it was, so it is not counted among the messages; any other is
    counted once. *)
Theorem attendance_notification_succeeds_iff
    (client : string -> string -> WhatsApp.ClientReply)
    (alertMessage : string -> Student -> Status -> Z -> string)
    (now : Z) (studentId : N) (status : Status) (timestamp : option Z)
    (w : World) (st : WhatsApp.State) :
  let out :=
    Messaging.sendAttendanceNotification client alertMessage now studentId status
      timestamp w st in
  (Messaging.success out.1 = true <->
   WhatsApp.isClientReady st = true
   /\ exists student phone messageId sentAt,
        db w !! studentId = Some student
        /\ truthy (parent_telephone student) = Some phone
        /\ Messaging.removeWhitespace phone <> EmptyString
        /\ client (String.append (WhatsApp.formatPhoneNumber phone) "@c.us")
             (alertMessage (Messaging.removeWhitespace phone) student status
                (default now timestamp))
           = WhatsApp.Sent messageId sentAt)
  /\ match out.1 with
     | Messaging.Failure _ (Messaging.Service _) | Messaging.Success _ _ _ =>
         WhatsApp.total (WhatsApp.messageStats out.2)
         = WhatsApp.total (WhatsApp.messageStats st) + 1
     | Messaging.Failure _ _ => out.2 = st
     end.
Proof.
  unfold Messaging.sendAttendanceNotification.
  destruct (WhatsApp.isClientReady st) eqn:Hready; simpl.
  2:{ split; [|done]. split; [done|]. by intros [? _]. }
  destruct (db w !! studentId) as [student|] eqn:Hs; simpl.
  2:{ split; [|done]. split; [done|]. by intros (_ & ? & ? & ? & ? & ? & _). }
  destruct (truthy (parent_telephone student)) as [phone|] eqn:Hphone; simpl.
  2:{ split; [|done]. split; [done|].
      intros (_ & ? & ? & ? & ? & ? & ? & _). simplify_eq; try congruence. }
  unfold Messaging.sendAttendanceAlert.
  case_bool_decide as Hblank; simpl.
  { split; [|done]. split; [done|].
    intros (_ & s' & p' & ? & ? & ? & ? & Hne & _). simplify_eq; try congruence. }
  unfold WhatsApp.sendTextMessage.
  cbn [WhatsApp.withStats WhatsApp.isClientReady]. rewrite Hready. cbn [negb].
  rewrite bool_decide_eq_false_2 by apply formatPhoneNumber_nonempty.
  rewrite formatPhoneNumber_removeWhitespace.
  destruct (client _ _) as [|messageId sentAt|e|e] eqn:Hreply; simpl.
  - split; [|done]. split; [done|].
    intros (_ & s' & p' & ? & ? & ? & ? & _ & Hsent). simplify_eq; try congruence.
  - split; [|done]. split; [|done]. intros _. split; [done|].
    by exists student, phone, messageId, sentAt.
  - destruct (WhatsApp.includes _ e); simpl.
    all: split; [|done]; split; [done|].
    all: intros (_ & s' & p' & ? & ? & ? & ? & _ & Hsent); simplify_eq; try congruence.
  - split; [|done]. split; [done|].
    intros (_ & s' & p' & ? & ? & ? & ? & _ & Hsent). simplify_eq; try congruence.
Qed.

(** ** controllers/attendance.controller.js: the auto checkout *)

Lemma checkoutStudent_counts tz saveOk adminId today now l acc :
  let isOpen (ks : N * Student) :=
    bool_decide (is_Some (List.find (AttendanceController.openToday tz today)
                            (attendanceHistory ks.2))) in
  let out := foldl (AttendanceController.checkoutStudent tz saveOk adminId today now) acc l in
  out.1.2 = (acc.1.2 + length (List.filter (fun ks => isOpen ks && saveOk ks.1) l))%nat
  /\ out.2 = (acc.2 + length (List.filter (fun ks => isOpen ks && negb (saveOk ks.1)) l))%nat.
Proof.
  revert acc. induction l as [|ks l IH]; intros [[w processed] failed].
  - simpl. repeat split; lia.
  - cbn [foldl]. cbv zeta.
    destruct (IH (AttendanceController.checkoutStudent tz saveOk adminId today now
                    (w, processed, failed) ks)) as (Hp & Hf).
    cbv zeta in Hp, Hf. rewrite Hp, Hf. clear IH Hp Hf.
    unfold AttendanceController.checkoutStudent. cbn [List.filter fst snd].
    destruct (List.find _ (attendanceHistory ks.2)) as [r|]; simpl.
    + destruct (saveOk ks.1); simpl; repeat split; lia.
    + repeat split; lia.
Qed.

(** X27: what the auto checkout touches and what it counts.  The query
    selects more students than the loop acts on: a document is changed only
    if it has a record of today (local day) with status entered and no
    leave time and its save resolves.  [processed] is the number of selected
    students with such a record whose save resolved, [failed] the number of
    those whose save did not. *)
Theorem auto_checkout_acts_on_open_records_of_today
    (tz : Z) (saveOk : N -> bool) (adminId : option N) (now : Z) (w : World) :
  let out := AttendanceController.runAutoCheckout tz saveOk adminId now w in
  let today := setHours tz now 0 0 0 0 in
  let selected := Student_find (AttendanceController.checkoutQuery today) (db w) in
  let isOpen (ks : N * Student) :=
    bool_decide (is_Some (List.find (AttendanceController.openToday tz today)
                            (attendanceHistory ks.2))) in
  out.1.2 = length (List.filter (fun ks => isOpen ks && saveOk ks.1) selected)
  /\ out.2 = length (List.filter (fun ks => isOpen ks && negb (saveOk ks.1)) selected)
  /\ forall k, db out.1.1 !! k <> db w !! k ->
       exists s r,
         db w !! k = Some s /\ saveOk k = true
         /\ r ∈ attendanceHistory s
         /\ status r = Entered /\ leaveTime r = None
         /\ localDay tz (date r) = localDay tz now.
Proof.
  cbn zeta. unfold AttendanceController.runAutoCheckout. cbn zeta.
  destruct (checkoutStudent_counts tz saveOk adminId (setHours tz now 0 0 0 0) now
              (Student_find (AttendanceController.checkoutQuery (setHours tz now 0 0 0 0))
                 (db w)) (w, 0%nat, 0%nat)) as (Hp & Hf).
  cbn zeta in *. simpl in Hp, Hf.
  split; [done|]. split; [done|].
  intros k Hk.
  rewrite (sweep_lookup (fun acc : World * nat * nat => db acc.1.1)
             (AttendanceController.checkoutStudent tz saveOk adminId
                (setHours tz now 0 0 0 0) now)
             (checkoutUpd tz saveOk adminId (setHours tz now 0 0 0 0) now)) in Hk
    by (intros; apply checkoutStudent_db).
  simpl in Hk. destruct (db w !! k) as [s|] eqn:Hs; [|done].
  destruct (AttendanceController.checkoutQuery _ s); [|done].
  unfold checkoutUpd in Hk.
  destruct (List.find _ (attendanceHistory s)) as [r|] eqn:Hfind; [|done].
  destruct (saveOk k) eqn:Hsave; [|done].
  apply find_some in Hfind as [Hin Hopen].
  unfold AttendanceController.openToday in Hopen.
  apply andb_true_iff in Hopen as [Hopen Hleave].
  apply andb_true_iff in Hopen as [Hday Hstatus].
  apply bool_decide_eq_true in Hday, Hstatus.
  exists s, r. split; [done|]. split; [done|]. split; [by apply list_elem_of_In|].
  split; [done|]. split.
  - unfold noLeaveTime, isSet in Hleave. by destruct (leaveTime r).
  - unfold setHours in Hday. pose proof msPerDay_pos. nia.
Qed.

(** ** C6: closures are stored before, and whatever comes of, the notifications *)

Section Closures.
Variable tz : Z.
Variable saveOk : N -> bool.
Variable send : string -> Message -> bool.

Lemma lookup_alter_set_leave (h : list AttendanceRecord) i r leave :
  h !! i = Some r ->
  exists r', alter (set_leave leave) i h !! i = Some r'
             /\ status r' = Left /\ leaveTime r' = Some leave.
Proof.
  intros Hi. exists (set_leave leave r). split; [|done].
  rewrite list_lookup_alter, decide_True by done. by rewrite Hi.
Qed.

Lemma eligibleToday_open today r :
  AutoAttendance.eligibleToday tz today r = true ->
  enteredOrPresent r = true /\ leaveTime r = None.
Proof.
  unfold AutoAttendance.eligibleToday, noLeaveTime. intros H.
  apply andb_prop in H as [H Hl]. apply andb_prop in H as [_ Hs].
  split; [done|]. by destruct (leaveTime r).
Qed.

Lemma incomplete_open today r :
  AutoAttendance.incomplete today r = true ->
  enteredOrPresent r = true /\ leaveTime r = None.
Proof.
  unfold AutoAttendance.incomplete, noLeaveTime. intros H.
  apply andb_prop in H as [H Hl]. apply andb_prop in H as [_ Hs].
  split; [done|]. by destruct (leaveTime r).
Qed.

Lemma incompleteYesterday_open yesterday yesterdayEnd r :
  AutoAttendance.incompleteYesterday yesterday yesterdayEnd r = true ->
  enteredOrPresent r = true /\ leaveTime r = None.
Proof.
  unfold AutoAttendance.incompleteYesterday, noLeaveTime. intros H.
  apply andb_prop in H as [H Hl]. apply andb_prop in H as [_ Hs].
  split; [done|]. by destruct (leaveTime r).
Qed.

Lemma markLeaveYesterday_query yesterday yesterdayEnd s i :
  findIndex (AutoAttendance.incompleteYesterday yesterday yesterdayEnd)
    (attendanceHistory s) = Some i ->
  AutoAttendance.yesterdayQuery yesterday yesterdayEnd s = true.
Proof.
  intros H. apply findIndex_Some in H as (r & Hr & Hp & _).
  apply list_elem_of_lookup_2, list_elem_of_In in Hr.
  unfold AutoAttendance.incompleteYesterday in Hp.
  apply andb_prop in Hp as [Hp Hleave]. apply andb_prop in Hp as [Hp Hst].
  apply andb_prop in Hp as [Hlo Hhi].
  unfold AutoAttendance.yesterdayQuery. repeat (apply andb_true_intro; split);
    apply existsb_exists; exists r; by split.
Qed.

Lemma cutoff_closedIn now now' w k s i :
  db w !! k = Some s -> saveOk k = true ->
  findIndex (AutoAttendance.eligibleToday tz (setHours tz now 0 0 0 0))
    (attendanceHistory s) = Some i ->
  closedIn (AutoAttendance.autoMarkLeaveAttendance tz saveOk send now now' w) k i
    (setHours tz now' 18 30 0 0).
Proof.
  intros Hk Hsave Hi.
  assert (Hmark : AutoAttendance.markLeaveToday tz (setHours tz now 0 0 0 0)
                    (setHours tz now' 18 30 0 0) s
                  = Some (swept s (alter (set_leave (setHours tz now' 18 30 0 0)) i
                                     (attendanceHistory s))
                            (Some (setHours tz now' 18 30 0 0)))).
  { unfold AutoAttendance.markLeaveToday. by rewrite Hi. }
  apply findIndex_Some in Hi as (r & Hr & _).
  destruct (lookup_alter_set_leave _ _ _ (setHours tz now' 18 30 0 0) Hr)
    as (r' & Hr' & Hst & Hl).
  unfold closedIn. rewrite autoMarkLeaveAttendance_lookup, Hk.
  rewrite (markLeaveToday_query _ _ _ _ _ Hmark).
  unfold todayUpd. rewrite Hmark, Hsave. simpl.
  eexists _, r'. split; [reflexivity|]. done.
Qed.

Lemma backlog_closedIn now w k s i r :
  db w !! k = Some s -> saveOk k = true ->
  attendanceHistory s !! i = Some r ->
  AutoAttendance.incomplete (setHours tz now 0 0 0 0) r = true ->
  closedIn (AutoAttendance.checkAllPastAttendance tz saveOk send now w) k i
    (setHours tz (date r) 18 30 0 0).
Proof.
  intros Hk Hsave Hi Hinc.
  assert (Hq : AutoAttendance.pastQuery (setHours tz now 0 0 0 0) s = true).
  { apply existsb_exists. exists r. split; [|done].
    apply list_elem_of_In. by eapply list_elem_of_lookup_2. }
  destruct (closePast_Some tz _ _ Hq) as (closed & Hclose & _).
  unfold closedIn. rewrite checkAllPastAttendance_lookup, Hk, Hq.
  unfold pastUpd. rewrite Hclose, Hsave. simpl.
  eexists _, (AutoAttendance.closeOwnDay tz r).
  split; [reflexivity|]. simpl. rewrite list_lookup_fmap, Hi. simpl.
  by rewrite Hinc.
Qed.

(** The pass over yesterday leaves a closed record closed. *)
Lemma previous_keeps_closedIn now now' w k i leave :
  closedIn (AutoAttendance.checkAllPastAttendance tz saveOk send now w) k i leave ->
  closedIn (AutoAttendance.checkPreviousDayAttendance tz saveOk send now now' w) k i leave.
Proof.
  intros (s1 & r1 & Hk & Hi & Hst & Hl).
  unfold closedIn. rewrite checkPreviousDayAttendance_lookup. cbn zeta. rewrite Hk.
  destruct (AutoAttendance.yesterdayQuery _ _ s1); [|by exists s1, r1].
  unfold yesterdayUpd, AutoAttendance.markLeaveYesterday.
  destruct (findIndex _ _) as [j|] eqn:Hj; [|by exists s1, r1].
  destruct (saveOk k); [|by exists s1, r1]. simpl.
  apply findIndex_Some in Hj as (rj & Hrj & Hp & _).
  apply incompleteYesterday_open in Hp as [Hp _].
  eexists _, r1. split; [reflexivity|]. simpl. split; [|done].
  rewrite list_lookup_alter_ne; [done|]. intros ->.
  rewrite Hi in Hrj. simplify_eq. unfold enteredOrPresent in Hp.
  by rewrite Hst in Hp.
Qed.

Lemma previous_closedIn now now' w k s i :
  let yesterday := setHours tz (addDays now' (-1)) 0 0 0 0 in
  let yesterdayEnd := setHours tz yesterday 23 59 59 999 in
  db (AutoAttendance.checkAllPastAttendance tz saveOk send now w) !! k = Some s ->
  saveOk k = true ->
  findIndex (AutoAttendance.incompleteYesterday yesterday yesterdayEnd)
    (attendanceHistory s) = Some i ->
  closedIn (AutoAttendance.checkPreviousDayAttendance tz saveOk send now now' w) k i
    (setHours tz yesterday 18 30 0 0).
Proof.
  intros yesterday yesterdayEnd Hk Hsave Hi.
  unfold closedIn. rewrite checkPreviousDayAttendance_lookup. cbn zeta.
  fold yesterday. fold yesterdayEnd. rewrite Hk.
  rewrite (markLeaveYesterday_query _ _ _ _ Hi).
  unfold yesterdayUpd, AutoAttendance.markLeaveYesterday. rewrite Hi, Hsave. simpl.
  apply findIndex_Some in Hi as (r & Hr & _).
  destruct (lookup_alter_set_leave _ _ _ (setHours tz yesterday 18 30 0 0) Hr)
    as (r' & Hr' & Hst & Hl).
  eexists _, r'. split; [reflexivity|]. done.
Qed.

(** A document of the store after the backlog sweep, against the store
    before it: the guardian's telephone is the same, and a record that is
    still entered or present is the record it was. *)
Lemma backlog_keeps_open now w k s1 :
  db (AutoAttendance.checkAllPastAttendance tz saveOk send now w) !! k = Some s1 ->
  exists s,
    db w !! k = Some s /\ parent_telephone s1 = parent_telephone s
    /\ forall i r, attendanceHistory s1 !! i = Some r -> enteredOrPresent r = true ->
         attendanceHistory s !! i = Some r.
Proof.
  rewrite checkAllPastAttendance_lookup. intros H.
  destruct (db w !! k) as [s|]; [|done]. exists s. split; [done|].
  destruct (AutoAttendance.pastQuery _ s); [|by simplify_eq].
  unfold pastUpd in H.
  destruct (AutoAttendance.closePast tz _ s) as [[s' c]|] eqn:E; [|by simplify_eq/=].
  destruct (saveOk k); [|by simplify_eq/=]. simplify_eq/=.
  pose proof (closePast_history _ _ _ _ _ E) as [Hh _].
  unfold AutoAttendance.closePast in E. destruct (0 <? _)%nat; simplify_eq/=.
  split; [done|]. intros i r Hr Hp.
  rewrite list_lookup_fmap in Hr.
  destruct (attendanceHistory s !! i) as [r0|]; simplify_eq/=.
  destruct (AutoAttendance.incomplete _ r0); [|done].
  unfold AutoAttendance.closeOwnDay in Hp.
  by rewrite enteredOrPresent_set_leave in Hp.
Qed.

Lemma cutoff_notifiedAfterSaving now now' w :
  notifiedAfterSaving saveOk w
    (AutoAttendance.autoMarkLeaveAttendance tz saveOk send now now' w).
Proof.
  set (today := setHours tz now 0 0 0 0).
  destruct (foldl_outbox
              (AutoAttendance.autoMarkStudent tz saveOk send today
                 (setHours tz now' 18 30 0 0))
              (fun ks m =>
                 saveOk ks.1 = true /\ truthy (parent_telephone ks.2) = Some m.1
                 /\ exists i, findIndex (AutoAttendance.eligibleToday tz today)
                                (attendanceHistory ks.2) = Some i)
              (Student_find (AutoAttendance.todayQuery today) (db w)) w)
    as (new & Hout & _ & Hnew).
  { intros [k s] _ w'. unfold AutoAttendance.autoMarkStudent, AutoAttendance.markLeaveToday.
    simpl. destruct (findIndex _ (attendanceHistory s)) as [i|]; [|by left].
    destruct (persistAndNotify_outbox saveOk send k
                (swept s (alter (set_leave (setHours tz now' 18 30 0 0)) i
                            (attendanceHistory s)) (Some (setHours tz now' 18 30 0 0)))
                (AutomatedAttendanceUpdate (name s) (indexNumber s)) w')
      as [Hsame|(phone & Hsave & Hphone & Hone)]; [by left|].
    right. eexists. split; [|exact Hone]. eauto. }
  exists new. split; [exact Hout|].
  intros phone text Hm. destruct (Hnew _ Hm) as ([k s] & Hks & Hsave & Hphone & i & Hi).
  apply Student_find_spec in Hks as [Hk _]. simpl in *.
  exists k, s. repeat (split; [done|]).
  pose proof (cutoff_closedIn now now' w k s i Hk Hsave Hi) as Hclosed.
  apply findIndex_Some in Hi as (r & Hr & Hp & _).
  apply eligibleToday_open in Hp as [Hp Hl].
  exists s, i, r, (setHours tz now' 18 30 0 0). done.
Qed.

Lemma backlog_notified now w :
  exists new,
    outbox (AutoAttendance.checkAllPastAttendance tz saveOk send now w) = outbox w ++ new
    /\ forall phone text, (phone, text) ∈ new ->
         exists k s i r,
           db w !! k = Some s /\ truthy (parent_telephone s) = Some phone
           /\ saveOk k = true /\ attendanceHistory s !! i = Some r
           /\ AutoAttendance.incomplete (setHours tz now 0 0 0 0) r = true.
Proof.
  set (today := setHours tz now 0 0 0 0).
  destruct (foldl_outbox
              (AutoAttendance.checkPastStudent tz saveOk send today)
              (fun ks m =>
                 saveOk ks.1 = true /\ truthy (parent_telephone ks.2) = Some m.1)
              (Student_find (AutoAttendance.pastQuery today) (db w)) w)
    as (new & Hout & _ & Hnew).
  { intros [k s] _ w'. unfold AutoAttendance.checkPastStudent, AutoAttendance.closePast.
    simpl. destruct (0 <? _)%nat; [|by left].
    match goal with
    | |- context [AutoAttendance.persistAndNotify _ _ _ ?student ?text _] =>
        destruct (persistAndNotify_outbox saveOk send k student text w')
          as [Hsame|(phone & Hsave & Hphone & Hone)]
    end; [by left|].
    right. eexists. split; [|exact Hone]. done. }
  exists new. split; [exact Hout|].
  intros phone text Hm. destruct (Hnew _ Hm) as ([k s] & Hks & Hsave & Hphone).
  apply Student_find_spec in Hks as [Hk Hq]. simpl in *.
  apply existsb_exists in Hq as (r & Hin & Hinc).
  apply list_elem_of_In, list_elem_of_lookup_1 in Hin as [i Hi].
  by exists k, s, i, r.
Qed.

Lemma backlog_notifiedAfterSaving now w :
  notifiedAfterSaving saveOk w (AutoAttendance.checkAllPastAttendance tz saveOk send now w).
Proof.
  destruct (backlog_notified now w) as (new & Hout & Hnew).
  exists new. split; [exact Hout|].
  intros phone text Hm.
  destruct (Hnew _ _ Hm) as (k & s & i & r & Hk & Hphone & Hsave & Hi & Hinc).
  exists k, s. repeat (split; [done|]).
  destruct (incomplete_open _ _ Hinc) as [Hp Hl].
  exists s, i, r, (setHours tz (date r) 18 30 0 0). repeat (split; [done|]).
  by apply backlog_closedIn with s.
Qed.

Lemma previous_notifiedAfterSaving now now' w :
  notifiedAfterSaving saveOk w
    (AutoAttendance.checkPreviousDayAttendance tz saveOk send now now' w).
Proof.
  destruct (backlog_notified now w) as (new1 & Hout1 & Hnew1).
  set (w1 := AutoAttendance.checkAllPastAttendance tz saveOk send now w) in *.
  set (yesterday := setHours tz (addDays now' (-1)) 0 0 0 0).
  set (yesterdayEnd := setHours tz yesterday 23 59 59 999).
  destruct (foldl_outbox
              (AutoAttendance.previousDayStudent tz saveOk send yesterday yesterdayEnd
                 (setHours tz yesterday 18 30 0 0))
              (fun ks m =>
                 saveOk ks.1 = true /\ truthy (parent_telephone ks.2) = Some m.1
                 /\ exists i, findIndex
                                (AutoAttendance.incompleteYesterday yesterday yesterdayEnd)
                                (attendanceHistory ks.2) = Some i)
              (Student_find (AutoAttendance.yesterdayQuery yesterday yesterdayEnd) (db w1))
              w1)
    as (new2 & Hout2 & _ & Hnew2).
  { intros [k s] _ w'.
    unfold AutoAttendance.previousDayStudent, AutoAttendance.markLeaveYesterday.
    simpl. destruct (findIndex _ (attendanceHistory s)) as [i|]; [|by left].
    match goal with
    | |- context [AutoAttendance.persistAndNotify _ _ _ ?student ?text _] =>
        destruct (persistAndNotify_outbox saveOk send k student text w')
          as [Hsame|(phone & Hsave & Hphone & Hone)]
    end; [by left|].
    right. eexists. split; [|exact Hone]. eauto. }
  exists (new1 ++ new2). split.
  { unfold AutoAttendance.checkPreviousDayAttendance. cbn zeta.
    fold w1. fold yesterday. fold yesterdayEnd. by rewrite Hout2, Hout1, app_assoc. }
  intros phone text [Hm|Hm]%elem_of_app.
  - destruct (Hnew1 _ _ Hm) as (k & s & i & r & Hk & Hphone & Hsave & Hi & Hinc).
    exists k, s. repeat (split; [done|]).
    destruct (incomplete_open _ _ Hinc) as [Hp Hl].
    exists s, i, r, (setHours tz (date r) 18 30 0 0). repeat (split; [done|]).
    apply previous_keeps_closedIn. by apply backlog_closedIn with s.
  - destruct (Hnew2 _ Hm) as ([k s1] & Hks & Hsave & Hphone & i & Hi).
    apply Student_find_spec in Hks as [Hk1 _]. simpl in *.
    destruct (backlog_keeps_open now w k s1 Hk1) as (s & Hk & Htel & Hkeep).
    exists k, s. split; [done|]. split; [by rewrite <- Htel|]. split; [done|].
    pose proof (previous_closedIn now now' w k s1 i Hk1 Hsave Hi) as Hclosed.
    apply findIndex_Some in Hi as (r & Hr & Hp & _).
    apply incompleteYesterday_open in Hp as [Hp Hl].
    exists s, i, r, (setHours tz yesterday 18 30 0 0).
    split; [done|]. split; [by apply Hkeep|]. done.
Qed.

End Closures.

(** C6: in each of the three sweeps the closure of a student whose save
    resolves is in the store when the sweep ends, with status left and the
    leaveTime the sweep gives, whatever the messaging service answers for
    that student or for any other; a message is handed to the messaging
    service only for a student whose save has resolved and whose closure is
    in the store; and the store and the messages attempted are the same
    under any two behaviours of the messaging service, so a failed
    notification neither undoes a closure nor keeps the sweep from the
    students that follow. *)
Theorem closure_persisted_despite_notification_failure
    (tz : Z) (saveOk : N -> bool) (send send' : string -> Message -> bool)
    (now now' : Z) (w : World) :
  let today := setHours tz now 0 0 0 0 in
  let yesterday := setHours tz (addDays now' (-1)) 0 0 0 0 in
  let yesterdayEnd := setHours tz yesterday 23 59 59 999 in
  let cutoff := AutoAttendance.autoMarkLeaveAttendance tz saveOk send now now' w in
  let backlog := AutoAttendance.checkAllPastAttendance tz saveOk send now w in
  let previous := AutoAttendance.checkPreviousDayAttendance tz saveOk send now now' w in
  (forall k s i,
     db w !! k = Some s -> saveOk k = true ->
     findIndex (AutoAttendance.eligibleToday tz today) (attendanceHistory s) = Some i ->
     closedIn cutoff k i (setHours tz now' 18 30 0 0))
  /\ (forall k s i r,
        db w !! k = Some s -> saveOk k = true ->
        attendanceHistory s !! i = Some r -> AutoAttendance.incomplete today r = true ->
        closedIn backlog k i (setHours tz (date r) 18 30 0 0)
        /\ closedIn previous k i (setHours tz (date r) 18 30 0 0))
  /\ (forall k s i,
        db backlog !! k = Some s -> saveOk k = true ->
        findIndex (AutoAttendance.incompleteYesterday yesterday yesterdayEnd)
          (attendanceHistory s) = Some i ->
        closedIn previous k i (setHours tz yesterday 18 30 0 0))
  /\ (notifiedAfterSaving saveOk w cutoff
      /\ notifiedAfterSaving saveOk w backlog
      /\ notifiedAfterSaving saveOk w previous)
  /\ ledgerAndOutbox cutoff =
     ledgerAndOutbox (AutoAttendance.autoMarkLeaveAttendance tz saveOk send' now now' w)
  /\ ledgerAndOutbox backlog =
     ledgerAndOutbox (AutoAttendance.checkAllPastAttendance tz saveOk send' now w)
  /\ ledgerAndOutbox previous =
     ledgerAndOutbox (AutoAttendance.checkPreviousDayAttendance tz saveOk send' now now' w).
Proof.
  intros today yesterday yesterdayEnd cutoff backlog previous.
  split; [|split; [|split; [|split; [|split; [|split]]]]].
  - intros k s i Hk Hsave Hi. by apply cutoff_closedIn with s.
  - intros k s i r Hk Hsave Hi Hinc.
    assert (H : closedIn backlog k i (setHours tz (date r) 18 30 0 0))
      by (by apply backlog_closedIn with s).
    split; [done|]. by apply previous_keeps_closedIn.
  - intros k s i Hk Hsave Hi. by apply previous_closedIn with s.
  - split; [apply cutoff_notifiedAfterSaving|].
    split; [apply backlog_notifiedAfterSaving|apply previous_notifiedAfterSaving].
  - apply autoMarkLeaveAttendance_agree.
  - apply checkAllPastAttendance_agree.
  - apply checkPreviousDayAttendance_agree.
Qed.

Lemma closure_persisted_despite_notification_failure_witness :
  let h := [Scenario.entry (-3) Entered None; Scenario.entry 0 Entered None] in
  let w := Scenario.ledger h in
  let cutoff :=
    AutoAttendance.autoMarkLeaveAttendance Scenario.colombo Scenario.resolves
      Scenario.undelivered (Scenario.on 0 18 45) (Scenario.on 0 18 45) w in
  let backlog :=
    AutoAttendance.checkAllPastAttendance Scenario.colombo Scenario.resolves
      Scenario.undelivered (Scenario.on 0 23 59) w in
  let previous send :=
    AutoAttendance.checkPreviousDayAttendance Scenario.colombo Scenario.resolves
      send (Scenario.on 0 23 59) (Scenario.on 1 0 1) w in
  closedIn cutoff 1%N 1%nat (Scenario.on 0 18 30)
  /\ closedIn backlog 1%N 0%nat (Scenario.on (-3) 18 30)
  /\ closedIn (previous Scenario.undelivered) 1%N 0%nat (Scenario.on (-3) 18 30)
  /\ closedIn (previous Scenario.undelivered) 1%N 1%nat (Scenario.on 0 18 30)
  /\ notifiedAfterSaving Scenario.resolves w (previous Scenario.undelivered)
  /\ length (outbox (previous Scenario.undelivered)) = 2%nat
  /\ ledgerAndOutbox (previous Scenario.undelivered)
     = ledgerAndOutbox (previous Scenario.delivered).
Proof.
  intros h w cutoff backlog previous.
  pose proof (closure_persisted_despite_notification_failure Scenario.colombo
                Scenario.resolves Scenario.undelivered Scenario.delivered
                (Scenario.on 0 18 45) (Scenario.on 0 18 45) w) as (H1 & _).
  pose proof (closure_persisted_despite_notification_failure Scenario.colombo
                Scenario.resolves Scenario.undelivered Scenario.delivered
                (Scenario.on 0 23 59) (Scenario.on 1 0 1) w)
    as (_ & H2 & H3 & (_ & _ & H4) & _ & _ & H5).
  split.
  { replace (Scenario.on 0 18 30)
      with (setHours Scenario.colombo (Scenario.on 0 18 45) 18 30 0 0)
      by (vm_compute; reflexivity).
    apply (H1 1%N (Scenario.pupil h) 1%nat); vm_compute; reflexivity. }
  assert (Hclosed : closedIn backlog 1%N 0%nat (Scenario.on (-3) 18 30)
                    /\ closedIn (previous Scenario.undelivered) 1%N 0%nat
                         (Scenario.on (-3) 18 30)).
  { replace (Scenario.on (-3) 18 30)
      with (setHours Scenario.colombo (date (Scenario.entry (-3) Entered None)) 18 30 0 0)
      by (vm_compute; reflexivity).
    apply (H2 1%N (Scenario.pupil h) 0%nat (Scenario.entry (-3) Entered None));
      vm_compute; reflexivity. }
  destruct Hclosed as [Hb Hp].
  split; [exact Hb|]. split; [exact Hp|].
  split.
  { replace (Scenario.on 0 18 30)
      with (setHours Scenario.colombo
              (setHours Scenario.colombo (addDays (Scenario.on 1 0 1) (-1)) 0 0 0 0)
              18 30 0 0)
      by (vm_compute; reflexivity).
    apply (H3 1%N
             (swept (Scenario.pupil h)
                [Scenario.entry (-3) Left (Some (Scenario.on (-3) 18 30));
                 Scenario.entry 0 Entered None]
                (Some (Scenario.on (-3) 18 30)))
             1%nat); vm_compute; reflexivity. }
  split; [exact H4|]. split; [vm_compute; reflexivity|exact H5].
Defined.
